(** * fkftp: the virtual multi-directory filesystem and its authorizer

    A shallow embedding of [filesystem.py] (class [MultiDirFilesystem]),
    of [server.py] (class [HashedAuthorizer], [validate_directories],
    [setup_server]) and of [hash_password.py].

    Python strings are modelled as [string], a character standing for
    the code point of its number (so the strings are those of code
    points below U+0100, encoded on one or two bytes by UTF-8), ordered
    dictionaries whose iteration order the code depends on (a user's mount
    table, the override table) as association lists with the dictionary's
    first-match lookup, the two process-wide tables ([USER_DIR_MAP] and the
    authorizer's [user_table]) as [gmap]s keyed by user name.  Exceptions
    are values of type [exn]; code that touches the disk or the global
    registry threads that state explicitly and keeps it when it raises. *)

From stdpp Require Import gmap strings list fin_maps pretty sorting.
From Stdlib Require Import Ascii String ZArith.

(** ** Python string primitives *)

Module Py.

(** [s.startswith(p)] *)
Fixpoint startswith (s p : string) {struct p} : bool :=
  match p, s with
  | EmptyString, _ => true
  | String a p', String b s' => if Ascii.eqb a b then startswith s' p' else false
  | String _ _, EmptyString => false
  end.

(** [s.endswith(p)] for a one-character [p] *)
Fixpoint endswith_char (s : string) (c : ascii) : bool :=
  match s with
  | EmptyString => false
  | String a EmptyString => Ascii.eqb a c
  | String _ s' => endswith_char s' c
  end.

(** [c in s] for a single character [c] *)
Fixpoint contains (c : ascii) (s : string) : bool :=
  match s with
  | EmptyString => false
  | String a s' => if Ascii.eqb a c then true else contains c s'
  end.

(** [s.split(c)] for a one-character separator; never the empty list *)
Fixpoint split (c : ascii) (s : string) : list string :=
  match s with
  | EmptyString => [EmptyString]
  | String a s' =>
      if Ascii.eqb a c then EmptyString :: split c s'
      else match split c s' with
           | [] => [String a EmptyString]
           | w :: ws => String a w :: ws
           end
  end.

(** [c.join(l)] *)
Fixpoint join (c : string) (l : list string) : string :=
  match l with
  | [] => EmptyString
  | [w] => w
  | w :: ws => w +:+ c +:+ join c ws
  end.

(** [s.split(c, 1)] when [c in s]: the text before and after the first [c] *)
Fixpoint split1 (c : ascii) (s : string) : string * string :=
  match s with
  | EmptyString => (EmptyString, EmptyString)
  | String a s' =>
      if Ascii.eqb a c then (EmptyString, s')
      else let '(l, r) := split1 c s' in (String a l, r)
  end.

(** [s.lstrip(c)] for a one-character [c] *)
Fixpoint lstrip (c : ascii) (s : string) : string :=
  match s with
  | String a s' => if Ascii.eqb a c then lstrip c s' else s
  | EmptyString => EmptyString
  end.

(** [s.replace(a, b)] for one-character [a] and [b] *)
Fixpoint replace (a b : ascii) (s : string) : string :=
  match s with
  | EmptyString => EmptyString
  | String x s' => String (if Ascii.eqb x a then b else x) (replace a b s')
  end.

(** [s[n:]] *)
Fixpoint drop (n : nat) (s : string) : string :=
  match n, s with
  | O, _ => s
  | S n', String _ s' => drop n' s'
  | S _, EmptyString => EmptyString
  end.

(** [c.lower()] for a code point below U+0100: the upper-case letters
    there are A-Z (U+0041-U+005A) and U+00C0-U+00DE without the
    multiplication sign U+00D7, each 32 below its lower-case letter. *)
Definition lower_char (c : ascii) : ascii :=
  let n := nat_of_ascii c in
  if ((65 <=? n) && (n <=? 90)
      || (192 <=? n) && (n <=? 222) && negb (n =? 215))%nat
  then ascii_of_nat (n + 32) else c.

(** [s.lower()] *)
Fixpoint lower (s : string) : string :=
  match s with
  | EmptyString => EmptyString
  | String c s' => String (lower_char c) (lower s')
  end.

(** [c * n] for a one-character [c] *)
Fixpoint times (c : ascii) (n : nat) : string :=
  match n with
  | O => EmptyString
  | S n' => String c (times c n')
  end.

(** truthiness of a string: [bool(s)] *)
Definition truthy (s : string) : bool :=
  match s with EmptyString => false | _ => true end.

End Py.

(** An ordered Python [dict] with string keys: [d.get(k)] is the first
    binding of [k]; [keys], [values] follow insertion order. *)
Definition dict (V : Type) : Type := list (string * V).

Fixpoint dict_get {V} (k : string) (d : dict V) : option V :=
  match d with
  | [] => None
  | (k', v) :: d' => if String.eqb k' k then Some v else dict_get k d'
  end.

Definition dict_keys {V} (d : dict V) : list string := map fst d.
Definition dict_values {V} (d : dict V) : list V := map snd d.

(** ** [os.path] *)

(** The functions of [os.path] the program calls.  They differ between
    [posixpath] and [ntpath]; what does not depend on the flavour is proved
    for every instance. *)
Class OsPath := {
  sep : ascii;                                (* os.sep *)
  normcase : string -> string;                (* os.path.normcase *)
  normpath : string -> string;                (* os.path.normpath *)
  isabs : string -> bool;                     (* os.path.isabs *)
  path_join : string -> list string -> string (* os.path.join(a, *p) *)
}.

Module posix.

Definition sep : ascii := "/"%char.

(** [posixpath.normcase]: the identity. *)
Definition normcase (s : string) : string := s.

(** [posixpath.isabs] *)
Definition isabs (s : string) : bool := Py.startswith s "/".

(** One round of the loop of [posixpath.join]. *)
Definition join_step (path b : string) : string :=
  if Py.startswith b "/" || negb (Py.truthy path) then b
  else if Py.endswith_char path sep then path +:+ b
  else path +:+ "/" +:+ b.

(** [posixpath.join(a, *p)] *)
Definition join (a : string) (p : list string) : string :=
  fold_left join_step p a.

(** One round of the loop of [posixpath.normpath] over the components;
    [new_comps] is kept in source order, [append] adds at the end and
    [pop] removes the last element. *)
Definition normpath_step (initial_slashes : nat) (new_comps : list string)
    (comp : string) : list string :=
  if String.eqb comp "" || String.eqb comp "." then new_comps
  else if negb (String.eqb comp "..")
          || (Nat.eqb initial_slashes 0 && bool_decide (new_comps = []))
          || match last new_comps with
             | Some l => String.eqb l ".."
             | None => false
             end
       then new_comps ++ [comp]
       else removelast new_comps.

(** [posixpath.normpath] *)
Definition normpath (path : string) : string :=
  if negb (Py.truthy path) then "."
  else
    let initial_slashes :=
      if Py.startswith path "/" then
        if Py.startswith path "//" && negb (Py.startswith path "///")
        then 2 else 1
      else 0 in
    let comps := Py.split "/" path in
    let new_comps := fold_left (normpath_step initial_slashes) comps [] in
    let path := Py.join "/" new_comps in
    let path := Py.times "/" initial_slashes +:+ path in
    if Py.truthy path then path else ".".

End posix.

(** [os.path] on a POSIX system. *)
Definition posixpath : OsPath := {|
  sep := posix.sep;
  normcase := posix.normcase;
  normpath := posix.normpath;
  isabs := posix.isabs;
  path_join := posix.join
|}.

(** ** Exceptions *)

Inductive exn : Type :=
  | AuthorizerError (msg : string)        (* pyftpdlib.authorizers *)
  | AuthenticationFailed (msg : string)   (* pyftpdlib.exceptions *)
  | FilesystemError (msg : string)        (* pyftpdlib.exceptions *)
  | ValueError (msg : string)
  | KeyError (key : string)
  | TypeError
  | OSError (errno : Z).

(** The outcome of a call: an exception or a value. *)
Definition result (A : Type) : Type := exn + A.

Definition raise {A} (e : exn) : result A := inl e.
Definition ret {A} (a : A) : result A := inr a.

(** ** The disk *)

(** The system calls the program makes.  [Disk] is the state of the real
    filesystem; a call that fails reports [OSError] and the state it left. *)
Class OsFiles := {
  Disk : Type;
  os_path_isdir : string -> Disk -> bool;
  os_makedirs : string -> Disk -> result unit * Disk;  (* exist_ok=True *)
  os_rmdir : string -> Disk -> result unit * Disk
}.

(** ** filesystem.py *)

(** The type of the global [USER_DIR_MAP]:
    [{ "username": { "mount_name": "real_path", ... }, ... }]. *)
Abbreviation registry := (gmap string (dict string)).

Section filesystem.
Context {os : OsPath} {osf : OsFiles}.

(** The state of a [MultiDirFilesystem]: [cwd] (from [AbstractedFS]) and
    the user's mount table. *)
Record MultiDirFilesystem := {
  cwd : string;
  _dir_map : dict string
}.

(** [MultiDirFilesystem.__init__]; [AbstractedFS.__init__] sets [cwd]
    to ["/"]. *)
Definition MultiDirFilesystem_init (USER_DIR_MAP : registry)
    (username : string) : MultiDirFilesystem :=
  let dir_map := default [] (USER_DIR_MAP !! username) in
  {| cwd := "/";
     _dir_map := map (fun '(name, path) => (name, normpath path)) dir_map |}.

(** [_find_mount]: the first mount, in iteration order, whose name
    equals [name] up to case. *)
Fixpoint _find_mount_in (names : list string) (name_lower : string)
    : option string :=
  match names with
  | [] => None
  | mount_name :: rest =>
      if String.eqb (Py.lower mount_name) name_lower then Some mount_name
      else _find_mount_in rest name_lower
  end.

Definition _find_mount (self : MultiDirFilesystem) (name : string)
    : option string :=
  _find_mount_in (dict_keys (_dir_map self)) (Py.lower name).

(** The loop [while p[:2] == '//': p = p[1:]] of [ftpnorm]. *)
Fixpoint collapse_leading (p : string) : string :=
  match p with
  | String a ((String b _) as p') =>
      if Ascii.eqb a "/" && Ascii.eqb b "/" then collapse_leading p' else p
  | _ => p
  end.

(** [AbstractedFS.ftpnorm] of pyftpdlib, which this class inherits. *)
Definition ftpnorm (self : MultiDirFilesystem) (ftppath : string) : string :=
  let p := if isabs ftppath then normpath ftppath
           else normpath (path_join (cwd self) [ftppath]) in
  let p := if Ascii.eqb sep "\" then Py.replace "\" "/" p else p in
  let p := collapse_leading p in
  if isabs p then p else "/".

(** [_resolve]: [(mount_name, relative_parts)] or [(None, [])]. *)
Definition _resolve (self : MultiDirFilesystem) (ftppath : string)
    : option string * list string :=
  let normed := ftpnorm self ftppath in
  let parts := filter (fun p => Py.truthy p = true) (Py.split "/" normed) in
  match parts with
  | [] => (None, [])
  | p0 :: rest =>
      match _find_mount self p0 with
      | None => (Some p0, rest)
      | Some mount_name => (Some mount_name, rest)
      end
  end.

Definition _is_virtual_root (self : MultiDirFilesystem) (ftppath : string)
    : bool :=
  String.eqb (ftpnorm self ftppath) "/".

Definition _to_absolute_ftppath (self : MultiDirFilesystem)
    (ftppath : string) : string :=
  let normed := ftpnorm self ftppath in
  if negb (Py.startswith normed "/")
  then posix.normpath (cwd self +:+ "/" +:+ normed)
  else normed.

(** [ftp2fs].  [os.path.join("__invalid__", None)] raises [TypeError]. *)
Definition ftp2fs (self : MultiDirFilesystem) (ftppath : string)
    : result string :=
  let ftppath := _to_absolute_ftppath self ftppath in
  let normed := ftpnorm self ftppath in
  if String.eqb normed "/" then ret normed
  else
    let '(mount_name, sub_parts) := _resolve self ftppath in
    match mount_name with
    | None => raise TypeError
    | Some mount_name =>
        match dict_get mount_name (_dir_map self) with
        | Some real_base =>
            match sub_parts with
            | _ :: _ => ret (normpath (path_join real_base sub_parts))
            | [] => ret real_base
            end
        | None => ret (normpath (path_join "__invalid__" [mount_name]))
        end
    end.

(** The loop of [fs2ftp] over [self._dir_map.items()]. *)
Fixpoint fs2ftp_items (fspath : string) (items : dict string) : string :=
  match items with
  | [] => "/"
  | (mount_name, real_base) :: rest =>
      let real_base_norm := normpath real_base in
      if String.eqb (normcase fspath) (normcase real_base_norm)
      then "/" +:+ mount_name
      else if Py.startswith (normcase fspath)
                (normcase real_base_norm +:+ String sep "")
      then
        let rel := Py.lstrip sep
                     (Py.drop (String.length real_base_norm) fspath) in
        "/" +:+ mount_name +:+ "/" +:+ Py.replace sep "/" rel
      else fs2ftp_items fspath rest
  end.

Definition fs2ftp (self : MultiDirFilesystem) (fspath : string) : string :=
  fs2ftp_items (normpath fspath) (_dir_map self).

(** The loop of [validpath] over [self._dir_map.values()]. *)
Fixpoint validpath_values (path : string) (values : list string) : bool :=
  match values with
  | [] => false
  | real_base :: rest =>
      let real_base := normpath real_base in
      if String.eqb (normcase path) (normcase real_base) then true
      else if Py.startswith (normcase path)
                (normcase real_base +:+ String sep "")
      then true
      else validpath_values path rest
  end.

Definition validpath (self : MultiDirFilesystem) (path : string) : bool :=
  if String.eqb path "/" then true
  else validpath_values (normpath path) (dict_values (_dir_map self)).

(** The loop shared by [_is_virtual_path], [isdir] and [rmdir]: is the
    normalised path some mount's real path, up to [normcase]? *)
Fixpoint is_mount_root_values (path_norm : string) (values : list string)
    : bool :=
  match values with
  | [] => false
  | real_base :: rest =>
      if String.eqb (normcase path_norm) (normcase (normpath real_base))
      then true
      else is_mount_root_values path_norm rest
  end.

Definition _is_virtual_path (self : MultiDirFilesystem) (fspath : string)
    : bool :=
  if String.eqb fspath "/" then true
  else is_mount_root_values (normpath fspath) (dict_values (_dir_map self)).

(** [chdir]: both branches store [fs2ftp path], except for ["/"]. *)
Definition chdir (self : MultiDirFilesystem) (path : string)
    : MultiDirFilesystem :=
  let new_cwd :=
    if String.eqb path "/" || _is_virtual_path self path
    then (if negb (String.eqb path "/") then fs2ftp self path else "/")
    else fs2ftp self path in
  {| cwd := new_cwd; _dir_map := _dir_map self |}.

(** [isdir] *)
Definition isdir (self : MultiDirFilesystem) (path : string) (d : Disk)
    : bool :=
  if String.eqb path "/" then true
  else
    let path_norm :=
      if negb (String.eqb path "/") then normpath path else path in
    if is_mount_root_values path_norm (dict_values (_dir_map self))
    then true
    else os_path_isdir path d.

(** [rmdir] *)
Definition rmdir (self : MultiDirFilesystem) (path : string) (d : Disk)
    : result unit * Disk :=
  let path_norm := normpath path in
  if is_mount_root_values path_norm (dict_values (_dir_map self))
  then (raise (FilesystemError "Cannot remove a mount point."), d)
  else os_rmdir path d.

(** [listdir("/")] is [sorted(self._dir_map.keys())]; other paths go to
    [os.listdir] and are not modelled. *)

End filesystem.

(** ** hash_password.py and the Python runtime *)

(** [hashlib.sha256(s.encode("utf-8")).hexdigest()], as a function of [s]. *)
Class Hashlib := { sha256_hexdigest : string -> string }.

(** [repr] of a [str], which the [!r] conversions of the messages use. *)
Class Builtins := { repr : string -> string }.

(** One hexadecimal digit, lower case. *)
Definition hex_digit (n : N) : ascii :=
  match n with
  | 0 => "0" | 1 => "1" | 2 => "2" | 3 => "3" | 4 => "4" | 5 => "5"
  | 6 => "6" | 7 => "7" | 8 => "8" | 9 => "9" | 10 => "a" | 11 => "b"
  | 12 => "c" | 13 => "d" | 14 => "e" | _ => "f"
  end%N%char.

(** [bytes.hex()] *)
Fixpoint bytes_hex (b : list ascii) : string :=
  match b with
  | [] => ""
  | c :: rest =>
      let n := N_of_ascii c in
      String (hex_digit (n / 16)) (String (hex_digit (n mod 16)) (bytes_hex rest))
  end.

(** [hash_password]; [urandom16] is the value of [os.urandom(16)] at
    this call. *)
Definition hash_password `{Hashlib} (urandom16 : list ascii)
    (password : string) : string :=
  let salt := bytes_hex urandom16 in
  let h := sha256_hexdigest (salt +:+ password) in
  salt +:+ "$" +:+ h.

(** ** SHA-256 (FIPS 180-4), the digest behind [hashlib.sha256] *)

Module sha256.

Local Open Scope N_scope.

Definition w32 (x : N) : N := x mod 4294967296.
Definition add32 (x y : N) : N := w32 (x + y).
Definition rotr (n x : N) : N :=
  N.lor (N.shiftr x n) (w32 (N.shiftl x (32 - n))).
Definition shr (n x : N) : N := N.shiftr x n.
Definition not32 (x : N) : N := N.lxor x 4294967295.

Definition Ch (x y z : N) : N := N.lxor (N.land x y) (N.land (not32 x) z).
Definition Maj (x y z : N) : N :=
  N.lxor (N.lxor (N.land x y) (N.land x z)) (N.land y z).
Definition Sigma0 (x : N) : N :=
  N.lxor (N.lxor (rotr 2 x) (rotr 13 x)) (rotr 22 x).
Definition Sigma1 (x : N) : N :=
  N.lxor (N.lxor (rotr 6 x) (rotr 11 x)) (rotr 25 x).
Definition sigma0 (x : N) : N :=
  N.lxor (N.lxor (rotr 7 x) (rotr 18 x)) (shr 3 x).
Definition sigma1 (x : N) : N :=
  N.lxor (N.lxor (rotr 17 x) (rotr 19 x)) (shr 10 x).

(** The primes below [n], by trial division. *)
Definition is_prime (n : N) : bool :=
  (2 <=? n) && forallb (fun d => negb (n mod d =? 0))
                 (map N.of_nat (seq 2 (N.to_nat n - 2))).

Definition primes_below (n : nat) : list N :=
  filter (fun p => is_prime p = true) (map N.of_nat (seq 0 n)).

(** The integer cube root of a number below [2^108], bit by bit. *)
Definition cbrt (n : N) : N :=
  fold_left (fun r b => let r' := r + 2 ^ b in
                        if r' * r' * r' <=? n then r' else r)
            (map N.of_nat (rev (seq 0 36))) 0.

(** The round constants: the first 32 bits of the fractional parts of the
    cube roots of the first 64 primes. *)
Definition K : list N :=
  Eval vm_compute in
    map (fun p => w32 (cbrt (p * 2 ^ 96))) (primes_below 312).

(** The working state: eight 32-bit words. *)
Definition state : Type := N * N * N * N * N * N * N * N.

(** The initial state: the first 32 bits of the fractional parts of the
    square roots of the first 8 primes. *)
Definition H0 : state :=
  Eval vm_compute in
    match map (fun p => w32 (N.sqrt (p * 2 ^ 64))) (primes_below 20) with
    | [a; b; c; d; e; f; g; h] => (a, b, c, d, e, f, g, h)
    | _ => (0, 0, 0, 0, 0, 0, 0, 0)
    end.

(** The eight bytes of [x], most significant first. *)
Definition be64 (x : N) : list N :=
  map (fun i => (x / 256 ^ i) mod 256) [7; 6; 5; 4; 3; 2; 1; 0].

(** Padding: a [0x80] byte, zero bytes up to 56 modulo 64, the length in
    bits on eight bytes. *)
Definition pad (msg : list N) : list N :=
  let l := N.of_nat (List.length msg) in
  let zeros := (119 - l mod 64) mod 64 in
  msg ++ [128] ++ repeat 0 (N.to_nat zeros) ++ be64 (8 * l).

(** Big-endian 32-bit words of a byte sequence. *)
Fixpoint words (b : list N) : list N :=
  match b with
  | b0 :: b1 :: b2 :: b3 :: rest =>
      (((b0 * 256 + b1) * 256 + b2) * 256 + b3) :: words rest
  | _ => []
  end.

(** The message schedule: [w] holds [W_0 .. W_(t-1)]; append [n] more. *)
Fixpoint extend (n : nat) (w : list N) : list N :=
  match n with
  | O => w
  | S n' =>
      let t := List.length w in
      let x :=
        add32 (add32 (sigma1 (nth (t - 2) w 0)) (nth (t - 7) w 0))
              (add32 (sigma0 (nth (t - 15) w 0)) (nth (t - 16) w 0)) in
      extend n' (w ++ [x])
  end.

Definition round (st : state) (kw : N * N) : state :=
  let '(a, b, c, d, e, f, g, h) := st in
  let '(k, w) := kw in
  let t1 := add32 (add32 (add32 (add32 h (Sigma1 e)) (Ch e f g)) k) w in
  let t2 := add32 (Sigma0 a) (Maj a b c) in
  (add32 t1 t2, a, b, c, add32 d t1, e, f, g).

Definition compress (st : state) (block : list N) : state :=
  let w := extend 48 block in
  let '(a, b, c, d, e, f, g, h) := st in
  let '(a', b', c', d', e', f', g', h') := fold_left round (combine K w) st in
  (add32 a a', add32 b b', add32 c c', add32 d d',
   add32 e e', add32 f f', add32 g g', add32 h h').

(** The hash of a word sequence, sixteen words at a time. *)
Fixpoint absorb (fuel : nat) (st : state) (ws : list N) : state :=
  match fuel, ws with
  | S fuel', _ :: _ => absorb fuel' (compress st (firstn 16 ws)) (skipn 16 ws)
  | _, _ => st
  end.

(** The digest as one 256-bit number. *)
Definition digest (msg : list N) : N :=
  let ws := words (pad msg) in
  let '(a, b, c, d, e, f, g, h) := absorb (List.length ws) H0 ws in
  fold_left (fun acc w => acc * 4294967296 + w) [a; b; c; d; e; f; g; h] 0.

(** [n] hexadecimal digits of [x], most significant first. *)
Fixpoint to_hex (n : nat) (x : N) : string :=
  match n with
  | O => ""
  | S n' => to_hex n' (x / 16) +:+ String (hex_digit (x mod 16)) ""
  end.

(** [str.encode("utf-8")] on characters below U+0100. *)
Definition utf8 (s : string) : list N :=
  flat_map (fun c =>
              let n := N_of_ascii c in
              if n <? 128 then [n] else [192 + n / 64; 128 + n mod 64])
           (list_ascii_of_string s).

(** [hashlib.sha256(s.encode("utf-8")).hexdigest()] *)
Definition hexdigest (s : string) : string :=
  to_hex 64 (digest (utf8 s) mod 2 ^ 256).

End sha256.

Arguments sha256.hexdigest : simpl never.
Arguments sha256.digest : simpl never.

(** [hashlib] as the program uses it. *)
Definition hashlib : Hashlib := {| sha256_hexdigest := sha256.hexdigest |}.

(** ** server.py: [HashedAuthorizer] *)

(** An entry of [user_table]; [operms] maps a directory to
    [(perm, recursive)]. *)
Record user := {
  pwd : string;
  home : string;
  perm : string;
  operms : dict (string * bool);
  msg_login : string;
  msg_quit : string
}.

Record HashedAuthorizer := { user_table : gmap string user }.

(** [HashedAuthorizer()]: [DummyAuthorizer.__init__] starts with an empty
    table. *)
Definition HashedAuthorizer_init : HashedAuthorizer := {| user_table := ∅ |}.

(** [DummyAuthorizer.read_perms] and [write_perms]. *)
Definition read_perms : string := "elr".
Definition write_perms : string := "adfmwMT".

(** [DummyAuthorizer.has_user] *)
Definition has_user (self : HashedAuthorizer) (username : string) : bool :=
  bool_decide (is_Some (user_table self !! username)).

(** [DummyAuthorizer._check_permissions]; the warning it issues for an
    anonymous user with write permissions raises nothing. *)
Fixpoint _check_permissions `{Builtins} (username perm : string)
    : result unit :=
  match perm with
  | EmptyString => ret tt
  | String p rest =>
      if negb (Py.contains p (read_perms +:+ write_perms))
      then raise (ValueError ("no such permission " +:+ repr (String p "")))
      else _check_permissions username rest
  end.

(** [add_user] *)
Definition add_user `{Builtins} (self : HashedAuthorizer)
    (username password_hash homedir perm : string)
    : result HashedAuthorizer :=
  if has_user self username
  then raise (AuthorizerError ("user " +:+ repr username +:+ " already exists"))
  else
    match _check_permissions username perm with
    | inl e => raise e
    | inr _ =>
        ret {| user_table :=
                 <[username := {| pwd := password_hash;
                                  home := homedir;
                                  perm := perm;
                                  operms := [];
                                  msg_login := "Login successful.";
                                  msg_quit := "Goodbye." |}]>
                   (user_table self) |}
    end.

Section has_perm.
Context {os : OsPath}.

(** The loop of [has_perm] over the override table. *)
Fixpoint has_perm_operms (p : ascii) (path : string)
    (ops : dict (string * bool)) : option bool :=
  match ops with
  | [] => None
  | (dir_, (operm, recursive)) :: rest =>
      if String.eqb path dir_
         || (recursive && Py.startswith path (dir_ +:+ String sep ""))
      then Some (Py.contains p operm)
      else has_perm_operms p path rest
  end.

(** The loop of [has_perm] over the values of the user's mount table. *)
Fixpoint has_perm_mounts (path : string) (values : list string) : bool :=
  match values with
  | [] => false
  | real_base :: rest =>
      let base := normcase (normpath real_base) in
      if String.eqb path base || Py.startswith path (base +:+ String sep "")
      then true
      else has_perm_mounts path rest
  end.

(** [has_perm]; [p] is the permission character, [path] is [None] when
    the argument is left out. *)
Definition has_perm (self : HashedAuthorizer) (USER_DIR_MAP : registry)
    (username : string) (p : ascii) (path : option string) : result bool :=
  match user_table self !! username with
  | None => raise (KeyError username)
  | Some u =>
      match path with
      | None => ret (Py.contains p (perm u))
      | Some path =>
          if String.eqb path "/" then ret (Py.contains p (perm u))
          else
            let path := normcase path in
            match has_perm_operms p path (operms u) with
            | Some b => ret b
            | None =>
                let dirs := default [] (USER_DIR_MAP !! username) in
                if has_perm_mounts path (dict_values dirs)
                then ret (Py.contains p (perm u))
                else ret false
            end
      end
  end.

End has_perm.

(** [hmac.compare_digest] on two [str]: a [TypeError] unless both are
    ASCII, else their equality. *)
Definition is_ascii (s : string) : bool :=
  forallb (fun c => (N_of_ascii c <? 128)%N) (list_ascii_of_string s).

Definition compare_digest (a b : string) : result bool :=
  if is_ascii a && is_ascii b then ret (String.eqb a b) else raise TypeError.

(** [validate_authentication]: the outcome and the authorizer after the
    call. *)
Definition validate_authentication `{Hashlib} (self : HashedAuthorizer)
    (username password : string) : result unit * HashedAuthorizer :=
  if negb (has_user self username)
  then (raise (AuthenticationFailed "Authentication failed."), self)
  else
  match user_table self !! username with
  | None => (raise (KeyError username), self)
  | Some u =>
      let stored := pwd u in
      if negb (Py.truthy stored)
      then (raise (AuthenticationFailed
                     "Password not configured. Run hash_password.py first."),
            self)
      else if negb (Py.contains "$" stored)
      then (raise (AuthenticationFailed "Invalid password hash format."), self)
      else
        let '(salt, expected_hash) := Py.split1 "$" stored in
        let actual_hash := sha256_hexdigest (salt +:+ password) in
        match compare_digest actual_hash expected_hash with
        | inl e => (raise e, self)
        | inr true => (ret tt, self)
        | inr false =>
            (raise (AuthenticationFailed "Authentication failed."), self)
        end
  end.

(** ** server.py: configuration and bootstrap *)

(** A user record of the configuration; a field is [None] when the JSON
    object has no such key. *)
Record user_cfg := {
  cfg_username : option string;
  cfg_password_hash : option string;
  cfg_permissions : option string;
  cfg_directories : option (dict string)
}.

Record config := {
  cfg_users : option (list user_cfg);
  cfg_banner : option string;
  cfg_passive_ports : option (list Z);
  cfg_host : option string;
  cfg_port : option Z;
  cfg_max_connections : option Z;
  cfg_max_connections_per_ip : option Z
}.

(** The listening sockets: [FTPServer((host, port), handler)] creates a
    socket, binds it and listens, or fails with [OSError]. *)
Class OsNet := {
  Net : Type;
  bind_and_listen : string * Z -> Net -> result unit * Net
}.

(** What [setup_server] stores in the [FTPServer] and its handler class. *)
Record FTPServer := {
  authorizer : HashedAuthorizer;
  banner : string;
  passive_ports : option (Z * Z);   (* range(start, stop) *)
  address : string * Z;
  max_cons : Z;
  max_cons_per_ip : Z
}.

Section server.
Context {os : OsPath} {osf : OsFiles} {net : OsNet} {bi : Builtins}.

(** The process state [setup_server] acts on: the disk, the global
    [USER_DIR_MAP] of [filesystem.py] and the sockets. *)
Record world := {
  disk : Disk;
  USER_DIR_MAP : registry;
  sockets : Net
}.

(** The inner loop of [validate_directories], over one user's
    [directories.items()]. *)
Fixpoint validate_directories_items (items : dict string) (d : Disk)
    : result unit * Disk :=
  match items with
  | [] => (ret tt, d)
  | (name, path) :: rest =>
      let real_path := normpath path in
      if negb (os_path_isdir real_path d) then
        match os_makedirs real_path d with
        | (inl e, d') => (raise e, d')
        | (inr _, d') => validate_directories_items rest d'
        end
      else validate_directories_items rest d
  end.

(** [validate_directories] *)
Fixpoint validate_directories (users_config : list user_cfg) (d : Disk)
    : result unit * Disk :=
  match users_config with
  | [] => (ret tt, d)
  | user_cfg :: rest =>
      match validate_directories_items
              (default [] (cfg_directories user_cfg)) d with
      | (inl e, d') => (raise e, d')
      | (inr _, d') => validate_directories rest d'
      end
  end.

(** The body of the [for user_cfg in users] loop of [setup_server]: the
    global registry is written before [add_user] is called. *)
Definition setup_user (user_cfg : user_cfg) (authorizer : HashedAuthorizer)
    (reg : registry) : result HashedAuthorizer * registry :=
  match cfg_username user_cfg with
  | None => (raise (KeyError "username"), reg)
  | Some username =>
      let password_hash := default "" (cfg_password_hash user_cfg) in
      let permissions := default "elr" (cfg_permissions user_cfg) in
      let directories := default [] (cfg_directories user_cfg) in
      let reg := <[username := directories]> reg in
      let first_dir := head (dict_values directories) in
      let home :=
        match first_dir with
        | Some first_dir =>
            if Py.truthy first_dir then normpath first_dir else normpath "."
        | None => normpath "."
        end in
      (add_user authorizer username password_hash home permissions, reg)
  end.

(** The [for user_cfg in users] loop. *)
Fixpoint setup_users (users : list user_cfg) (authorizer : HashedAuthorizer)
    (reg : registry) : result HashedAuthorizer * registry :=
  match users with
  | [] => (ret authorizer, reg)
  | user_cfg :: rest =>
      match setup_user user_cfg authorizer reg with
      | (inl e, reg') => (raise e, reg')
      | (inr authorizer', reg') => setup_users rest authorizer' reg'
      end
  end.

(** [setup_server] *)
Definition setup_server (config : config) (w : world)
    : result FTPServer * world :=
  let authorizer := HashedAuthorizer_init in
  let users := default [] (cfg_users config) in
  match validate_directories users (disk w) with
  | (inl e, d') =>
      (raise e, {| disk := d'; USER_DIR_MAP := USER_DIR_MAP w;
                   sockets := sockets w |})
  | (inr _, d') =>
      match setup_users users authorizer (USER_DIR_MAP w) with
      | (inl e, reg') =>
          (raise e, {| disk := d'; USER_DIR_MAP := reg';
                       sockets := sockets w |})
      | (inr authorizer, reg') =>
          let banner := default "Welcome to FKFTP Server." (cfg_banner config) in
          let passive_ports :=
            match default [60000; 65535]%Z (cfg_passive_ports config) with
            | [lo; hi] => Some (lo, (hi + 1)%Z)
            | _ => None
            end in
          let host := default "0.0.0.0" (cfg_host config) in
          let port := default 2121%Z (cfg_port config) in
          match bind_and_listen (host, port) (sockets w) with
          | (inl e, n') =>
              (raise e, {| disk := d'; USER_DIR_MAP := reg'; sockets := n' |})
          | (inr _, n') =>
              (ret {| authorizer := authorizer;
                      banner := banner;
                      passive_ports := passive_ports;
                      address := (host, port);
                      max_cons :=
                        default 256%Z (cfg_max_connections config);
                      max_cons_per_ip :=
                        default 5%Z (cfg_max_connections_per_ip config) |},
               {| disk := d'; USER_DIR_MAP := reg'; sockets := n' |})
          end
      end
  end.

End server.

(** ** Specification vocabulary *)

Section vocabulary.
Context {os : OsPath}.

(** The code's prefix test, [path.startswith(base + os.sep)], as a
    proposition: [path] is [base], one separator, and a remainder.  For
    a [base] that does not end in the separator this says that [path]
    lies strictly below [base]; no path passes it for a [base] that ends
    in the separator (the filesystem root, a drive root), whose children
    are told by [strict_ancestor] instead. *)
Definition below (base path : string) : Prop :=
  exists rest, path = base +:+ String sep rest.

(** [path] is [base] or passes the prefix test for it. *)
Definition within (base path : string) : Prop :=
  path = base \/ below base path.

(** [path], once normalised, is the real path of one of the mounts of
    [self], up to [normcase]. *)
Definition is_mount_root (self : MultiDirFilesystem) (path : string) : Prop :=
  exists real_base, In real_base (dict_values (_dir_map self)) /\
    normcase (normpath path) = normcase (normpath real_base).

(** [path] is outside every override of [u]: not an override's directory
    and not below a recursive one. *)
Definition outside_overrides (u : user) (path : string) : Prop :=
  forall dir_ operm recursive, In (dir_, (operm, recursive)) (operms u) ->
    path <> dir_ /\ (recursive = true -> ~ below dir_ path).

(** [path] is outside every mount of the table [dirs]. *)
Definition outside_mounts (dirs : dict string) (path : string) : Prop :=
  forall real_base, In real_base (dict_values dirs) ->
    ~ within (normcase (normpath real_base)) path.

End vocabulary.

(** The components of a POSIX path: what stands between its slashes. *)
Definition components (p : string) : list string :=
  filter (fun w => w <> "") (Py.split "/" p).

(** [base] is a strict ancestor of [path], both absolute POSIX paths:
    the components of [path] are those of [base] and at least one
    more.  The root ["/"] is a strict ancestor of ["/etc"]. *)
Definition strict_ancestor (base path : string) : Prop :=
  posix.isabs base = true /\ posix.isabs path = true
  /\ exists rest, rest <> [] /\ components path = components base ++ rest.

(** A permission string made of characters [DummyAuthorizer] knows. *)
Definition valid_perm (perm : string) : Prop :=
  forall c, In c (list_ascii_of_string perm) ->
    Py.contains c (read_perms +:+ write_perms) = true.

(** A user record that names its user and carries a valid permission
    string (["elr"] when it has none). *)
Definition well_formed (c : user_cfg) : Prop :=
  is_Some (cfg_username c) /\ valid_perm (default "elr" (cfg_permissions c)).

(** The user names of a list of records, in order. *)
Definition usernames (users : list user_cfg) : list string :=
  omap cfg_username users.

(** [USER_DIR_MAP[username] = directories] for one record. *)
Definition register_dirs (reg : registry) (c : user_cfg) : registry :=
  match cfg_username c with
  | Some username => <[username := default [] (cfg_directories c)]> reg
  | None => reg
  end.

(** The message of the duplicate-user error. *)
Definition already_exists `{Builtins} (username : string) : exn :=
  AuthorizerError ("user " +:+ repr username +:+ " already exists").

(** ** Instances for running the code on examples *)

(** A disk that is the list of its directories. *)
Definition list_disk : OsFiles := {|
  Disk := list string;
  os_path_isdir := fun p d => bool_decide (p ∈ d);
  os_makedirs := fun p d => (ret tt, p :: d);
  os_rmdir := fun p d =>
    if bool_decide (p ∈ d)
    then (ret tt, filter (fun q => q <> p) d)
    else (raise (OSError 2), d)
|}.

(** Sockets as the list of bound addresses; binding a bound address
    fails with [EADDRINUSE]. *)
Definition list_net : OsNet := {|
  Net := list (string * Z);
  bind_and_listen := fun a n =>
    if bool_decide (a ∈ n) then (raise (OSError 98), n) else (ret tt, a :: n)
|}.

(** [repr] on strings without quotes, backslashes or control characters. *)
Definition plain_repr : Builtins := {| repr := fun s => "'" +:+ s +:+ "'" |}.

(** A user as [add_user] stores it, with the verifier [stored]. *)
Definition stored_user (stored : string) : user :=
  {| pwd := stored; home := "."; perm := "elr"; operms := [];
     msg_login := "Login successful."; msg_quit := "Goodbye." |}.

(** A lower-case hexadecimal digit. *)
Definition is_hex_char (c : ascii) : bool := Py.contains c "0123456789abcdef".

(** A string of lower-case hexadecimal digits. *)
Definition is_hex (s : string) : bool :=
  forallb is_hex_char (list_ascii_of_string s).

(** The value of a hexadecimal digit. *)
Definition hex_value (c : ascii) : N :=
  let n := N_of_ascii c in
  if (n <? 58)%N then (n - 48)%N else (n - 87)%N.

(** ** filesystem.py: directory listing *)

(** [os.listdir]. *)
Class OsListdir `{OsFiles} := {
  os_listdir : string -> Disk -> result (list string)
}.

(** [sorted] on a list of [str]: the order of the code points, which for
    these strings is [String.le]. *)
Definition sorted (l : list string) : list string := merge_sort String.le l.

(** [listdir] *)
Definition listdir `{OsListdir} (self : MultiDirFilesystem) (path : string)
    (d : Disk) : result (list string) :=
  if String.eqb path "/" then ret (sorted (dict_keys (_dir_map self)))
  else os_listdir path d.

(** [listdirinfo] *)
Definition listdirinfo `{OsListdir} (self : MultiDirFilesystem)
    (path : string) (d : Disk) : result (list string) :=
  listdir self path d.

(** A directory listing for [list_disk]: the directories of the disk
    that lie below the path. *)
Definition list_listdir : @OsListdir list_disk :=
  @Build_OsListdir list_disk
    (fun p (d : list string) =>
       if bool_decide (p ∈ d)
       then ret (filter (fun q => Py.startswith q (p +:+ "/") = true) d)
       else raise (OSError 2)).

(** The entry [add_user] stores for a record of the configuration, as
    [setup_server] calls it. *)
Definition user_of_cfg {os : OsPath} (c : user_cfg) : user :=
  {| pwd := default "" (cfg_password_hash c);
     home := match head (dict_values (default [] (cfg_directories c))) with
             | Some first_dir =>
                 if Py.truthy first_dir then normpath first_dir
                 else normpath "."
             | None => normpath "."
             end;
     perm := default "elr" (cfg_permissions c);
     operms := [];
     msg_login := "Login successful.";
     msg_quit := "Goodbye." |}.

(** The directories a configuration names, over all its users. *)
Definition configured_directories (users : list user_cfg) : list string :=
  flat_map (fun c => dict_values (default [] (cfg_directories c))) users.

(** What [os.makedirs] promises: after a successful call the path is a
    directory, and what was a directory still is. *)
Definition makedirs_creates {osf : OsFiles} : Prop :=
  forall p (x x' : Disk),
    os_makedirs p x = (ret tt, x') ->
    os_path_isdir p x' = true
    /\ (forall q, os_path_isdir q x = true -> os_path_isdir q x' = true).

(** ** app.py: the configuration API *)

(** A JSON value as [json.load] returns it (numbers are the integers). *)
#[local] Unset Elimination Schemes.
Inductive json : Type :=
  | JNull
  | JBool (b : bool)
  | JInt (z : Z)
  | JStr (s : string)
  | JList (l : list json)
  | JDict (d : list (string * json)).
#[local] Set Elimination Schemes.

Module app.

(** The exceptions the two handlers can let escape. *)
Inductive error : Type :=
  | AttributeError
  | TypeError
  | KeyError (key : string)
  | LoadError.          (* [load_config] failed: no file, or not JSON *)

Definition result (A : Type) : Type := error + A.

(** [bool(v)] *)
Definition truthy (v : json) : bool :=
  match v with
  | JNull => false
  | JBool b => b
  | JInt z => negb (z =? 0)%Z
  | JStr s => Py.truthy s
  | JList l => match l with [] => false | _ => true end
  | JDict d => match d with [] => false | _ => true end
  end.

(** [d.get(k, default)] on a JSON object. *)
Definition get (k : string) (default : json) (d : dict json) : json :=
  match dict_get k d with Some v => v | None => default end.

(** [d.pop(k, None)]: the object without the key. *)
Definition pop (k : string) (d : dict json) : dict json :=
  filter (fun kv => negb (String.eqb kv.1 k) = true)
         (d : list (string * json)).

(** [d[k] = v]: in place when the key is there, else at the end. *)
Fixpoint set (k : string) (v : json) (d : dict json) : dict json :=
  match d with
  | [] => [(k, v)]
  | (k', v') :: d' =>
      if String.eqb k' k then (k, v) :: d' else (k', v') :: set k v d'
  end.

(** [d.setdefault(k, v)] *)
Definition setdefault (k : string) (v : json) (d : dict json) : dict json :=
  match dict_get k d with Some _ => d | None => d ++ [(k, v)] end.

(** [v.get(k, default)]: only a [dict] has [get]. *)
Definition get_attr (k : string) (default v : json) : result json :=
  match v with
  | JDict d => inr (get k default d)
  | _ => inl AttributeError
  end.

(** [for x in v]: the elements of a list, the characters of a string,
    the keys of an object; nothing else can be iterated. *)
Definition iter (v : json) : result (list json) :=
  match v with
  | JList l => inr l
  | JStr s => inr (map (fun c => JStr (String c "")) (list_ascii_of_string s))
  | JDict d => inr (map (fun kv => JStr kv.1) d)
  | _ => inl TypeError
  end.

(** A hashable JSON value as a dictionary key: [True] is [1], [False]
    is [0]; lists and objects cannot be hashed. *)
Inductive key : Type := KNone | KInt (z : Z) | KStr (s : string).

Definition hashkey (v : json) : result key :=
  match v with
  | JNull => inr KNone
  | JBool b => inr (KInt (if b then 1 else 0))
  | JInt z => inr (KInt z)
  | JStr s => inr (KStr s)
  | JList _ | JDict _ => inl TypeError
  end.

Definition key_eqb (a b : key) : bool :=
  match a, b with
  | KNone, KNone => true
  | KInt x, KInt y => (x =? y)%Z
  | KStr x, KStr y => String.eqb x y
  | _, _ => false
  end.

(** [old_users]: an association list from key to user object; the last
    binding of a key is the one a lookup finds. *)
Definition users_index : Type := list (key * dict json).

Fixpoint index_lookup (k : key) (ix : users_index) : option (dict json) :=
  match ix with
  | [] => None
  | (k', u) :: ix' =>
      match index_lookup k ix' with
      | Some u' => Some u'
      | None => if key_eqb k' k then Some u else None
      end
  end.

(** [{u["username"]: u for u in users}] *)
Fixpoint index_users (users : list json) : result users_index :=
  match users with
  | [] => inr []
  | u :: rest =>
      match u with
      | JDict d =>
          match dict_get "username" d with
          | None => inl (KeyError "username")
          | Some name =>
              match hashkey name with
              | inl e => inl e
              | inr k =>
                  match index_users rest with
                  | inl e => inl e
                  | inr ix => inr ((k, d) :: ix)
                  end
              end
          end
      | _ => inl TypeError       (* u["username"] on a non-object *)
      end
  end.

(** [api_get_config] past [load_config]: one round of the loop. *)
Definition strip_user (user : json) : result json :=
  match get_attr "password_hash" (JStr "") user with
  | inl e => inl e
  | inr h =>
      match user with
      | JDict d =>
          inr (JDict (pop "password_hash"
                        (set "has_password" (JBool (truthy h)) d)))
      | _ => inl AttributeError
      end
  end.

Fixpoint strip_users (users : list json) : result (list json) :=
  match users with
  | [] => inr []
  | u :: rest =>
      match strip_user u with
      | inl e => inl e
      | inr u' =>
          match strip_users rest with
          | inl e => inl e
          | inr rest' => inr (u' :: rest')
          end
      end
  end.

(** The object [config] after its users, a list, were changed in place
    to [users']. *)
Definition with_users (users' : list json) (config : dict json) : dict json :=
  match dict_get "users" config with
  | Some (JList _) => set "users" (JList users') config
  | _ => config
  end.

(** [api_get_config]: [file] is what [load_config(CONFIG_PATH)] returns,
    [None] when it raises; the answer is the body of the response. *)
Definition api_get_config (file : option json) : result json :=
  match file with
  | None => inl LoadError
  | Some (JDict config) =>
      match iter (get "users" (JList []) config) with
      | inl e => inl e
      | inr users =>
          match strip_users users with
          | inl e => inl e
          | inr users' => inr (JDict (with_users users' config))
          end
      end
  | Some _ => inl AttributeError
  end.

(** One round of the loop of [api_save_config]; [urandom16] is the
    value [os.urandom(16)] has if [hash_password] is called. *)
Definition save_user `{Hashlib} (old_users : users_index)
    (urandom16 : list ascii) (user : json) : result json :=
  match user with
  | JDict d =>
      let new_pw := get "new_password" JNull d in
      let d := pop "has_password" (pop "new_password" d) in
      if truthy new_pw then
        match new_pw with
        | JStr pw =>
            inr (JDict (set "password_hash"
                          (JStr (hash_password urandom16 pw)) d))
        | _ => inl TypeError
        end
      else
        match hashkey (get "username" JNull d) with
        | inl e => inl e
        | inr k =>
            match index_lookup k old_users with
            | Some old =>
                match dict_get "username" d with
                | None => inl (KeyError "username")
                | Some name =>
                    match hashkey name with
                    | inl e => inl e
                    | inr k' =>
                        match index_lookup k' old_users with
                        | None => inl (KeyError "username")
                        | Some old' =>
                            inr (JDict (set "password_hash"
                                          (get "password_hash" (JStr "") old')
                                          d))
                        end
                    end
                end
            | None => inr (JDict (setdefault "password_hash" (JStr "") d))
            end
        end
  | JList _ => inl TypeError       (* list.pop takes one argument *)
  | _ => inl AttributeError
  end.

(** The loop; the [n]-th user gets the [n]-th value of [urandom]. *)
Fixpoint save_users `{Hashlib} (old_users : users_index)
    (urandom : nat -> list ascii) (n : nat) (users : list json)
    : result (list json) :=
  match users with
  | [] => inr []
  | u :: rest =>
      match save_user old_users (urandom n) u with
      | inl e => inl e
      | inr u' =>
          match save_users old_users urandom (S n) rest with
          | inl e => inl e
          | inr rest' => inr (u' :: rest')
          end
      end
  end.

(** The answers of [api_save_config]. *)
Inductive response : Type :=
  | Saved          (* 200, "Configuration saved" *)
  | InvalidData.   (* 400, "Invalid data" *)

(** [api_save_config]: [new_config] is [request.get_json()], [file] the
    configuration file as [load_config] reads it ([None] when it
    raises).  The outcome and the file afterwards; opening the file and
    writing to it are taken to succeed. *)
Definition api_save_config `{Hashlib} (urandom : nat -> list ascii)
    (new_config : json) (file : option json)
    : result response * option json :=
  if negb (truthy new_config) then (inr InvalidData, file)
  else
    let old_config := match file with Some c => c | None => JDict [("users", JList [])] end in
    match get_attr "users" (JList []) old_config with
    | inl e => (inl e, file)
    | inr old_list =>
        match iter old_list with
        | inl e => (inl e, file)
        | inr old =>
            match index_users old with
            | inl e => (inl e, file)
            | inr old_users =>
                match new_config with
                | JDict config =>
                    match iter (get "users" (JList []) config) with
                    | inl e => (inl e, file)
                    | inr users =>
                        match save_users old_users urandom 0 users with
                        | inl e => (inl e, file)
                        | inr users' =>
                            (inr Saved,
                             Some (JDict (with_users users' config)))
                        end
                    end
                | _ => (inl AttributeError, file)
                end
            end
        end
    end.

End app.

(** ** app.py: starting the FTP server *)

Section api_start.
Context {os : OsPath} {osf : OsFiles} {net : OsNet} {bi : Builtins}.

(** What the rest of the machine does to the disk and the sockets while
    the handler is in [time.sleep(1)]. *)
Variable time_sleep : Disk -> Net -> Disk * Net.

Definition sleep (w : world) : world :=
  let '(d, n) := time_sleep (disk w) (sockets w) in
  {| disk := d; USER_DIR_MAP := USER_DIR_MAP w; sockets := n |}.

(** [e.errno in (48, 98, 10048)] *)
Definition addr_in_use (errno : Z) : bool :=
  ((errno =? 48) || (errno =? 98) || (errno =? 10048))%Z.

(** The loop [for _attempt in range(attempts)] with its [else]. *)
Fixpoint start_attempts (attempts : nat) (config : config)
    (last_err : option exn) (w : world) : result FTPServer * world :=
  match attempts with
  | O =>
      (match last_err with
       | Some e => raise e
       | None => raise TypeError      (* [raise None] *)
       end, w)
  | S attempts' =>
      match setup_server config w with
      | (inr server, w') => (ret server, w')
      | (inl (OSError errno), w') =>
          if addr_in_use errno
          then start_attempts attempts' config (Some (OSError errno))
                 (sleep w')
          else (raise (OSError errno), w')
      | (inl e, w') => (raise e, w')
      end
  end.

(** The globals of [app.py] and the process state around them;
    [serving] says that [_ftp_thread] is a thread that is alive. *)
Record process := {
  env : world;
  _ftp_server : option FTPServer;
  serving : bool
}.

(** The answers of [api_start]. *)
Inductive start_response : Type :=
  | AlreadyRunning            (* "FTP server is already running" *)
  | NoUsers                   (* "No users configured" *)
  | Started (port : Z)        (* "FTP server started (port ...)" *)
  | StartFailed (e : exn)     (* the message is [str(e)] *)
  | ConfigUnreadable.         (* [load_config] raised *)

(** [api_start]: [file] is what [load_config(CONFIG_PATH)] returns,
    [None] when it raises; creating and starting the thread are taken to
    succeed. *)
Definition api_start (file : option config) (st : process)
    : start_response * process :=
  if serving st then (AlreadyRunning, st)
  else
    match file with
    | None => (ConfigUnreadable, st)
    | Some config =>
        match cfg_users config with
        | None | Some [] => (NoUsers, st)
        | Some (_ :: _) =>
            let w := {| disk := disk (env st); USER_DIR_MAP := ∅;
                        sockets := sockets (env st) |} in
            match start_attempts 5 config None w with
            | (inr server, w') =>
                (Started (default 2121%Z (cfg_port config)),
                 {| env := w'; _ftp_server := Some server; serving := true |})
            | (inl e, w') =>
                (StartFailed e,
                 {| env := w'; _ftp_server := _ftp_server st;
                    serving := serving st |})
            end
        end
    end.

End api_start.

(** ** Vocabulary for POSIX paths *)

(** A path segment as [normpath] leaves it: not empty, not ["."], not
    [".."], without a separator. *)
Definition clean (w : string) : Prop :=
  w <> "" /\ w <> "." /\ w <> ".." /\ Py.contains "/" w = false.

(** The absolute path with [k] leading slashes and the segments
    [comps]. *)
Definition abs_path (k : nat) (comps : list string) : string :=
  Py.times "/" k +:+ Py.join "/" comps.

(** A normalised absolute path that is not a root: one or two leading
    slashes and at least one clean segment. *)
Definition normal_dir (b : string) : Prop :=
  exists k segs, (k = 1%nat \/ k = 2%nat) /\ segs <> [] /\ Forall clean segs
    /\ b = abs_path k segs.

(** * Properties *)

(** ** Strings *)

Lemma string_app_cons (a : ascii) (s t : string) :
  String a s +:+ t = String a (s +:+ t).
Proof. reflexivity. Qed.

Lemma string_app_nil_l (s : string) : "" +:+ s = s.
Proof. reflexivity. Qed.

Lemma startswith_iff (s p : string) :
  Py.startswith s p = true <-> exists r, s = p +:+ r.
Proof.
  revert s. induction p as [|a p IH]; intros s; simpl.
  - split; [intros _; exists s; reflexivity | reflexivity].
  - destruct s as [|b s].
    + split; [discriminate | intros [r Hr]; discriminate].
    + destruct (Ascii.eqb_spec a b) as [->|Hne].
      * rewrite IH. split; intros [r Hr]; exists r;
          rewrite string_app_cons in *; congruence.
      * split; [discriminate |].
        intros [r Hr]. rewrite string_app_cons in Hr. congruence.
Qed.

Lemma startswith_false_iff (s p : string) :
  Py.startswith s p = false <-> ~ exists r, s = p +:+ r.
Proof.
  rewrite <- startswith_iff. destruct (Py.startswith s p); split; done.
Qed.

Lemma string_app_assoc (a b c : string) : (a +:+ b) +:+ c = a +:+ b +:+ c.
Proof.
  induction a as [|x a IH]; [reflexivity |].
  rewrite !string_app_cons. congruence.
Qed.

Lemma string_eqb_iff (a b : string) : String.eqb a b = true <-> a = b.
Proof. apply String.eqb_eq. Qed.

Section path_tests.
Context {os : OsPath}.

Lemma startswith_below (base path : string) :
  Py.startswith path (base +:+ String sep "") = true <-> below base path.
Proof.
  rewrite startswith_iff. unfold below.
  split; intros [r Hr]; exists r; rewrite Hr;
    [rewrite string_app_assoc | rewrite string_app_assoc]; done.
Qed.

Lemma within_test (base path : string) :
  String.eqb path base || Py.startswith path (base +:+ String sep "") = true
  <-> within base path.
Proof.
  rewrite orb_true_iff, string_eqb_iff, startswith_below. done.
Qed.

End path_tests.

(** ** The mount tests of [filesystem.py] *)

Section filesystem_props.
Context {os : OsPath} {osf : OsFiles}.

Lemma validpath_values_iff (path : string) (values : list string) :
  validpath_values path values = true <->
  exists real_base, In real_base values /\
    within (normcase (normpath real_base)) (normcase path).
Proof.
  induction values as [|b values IH]; simpl.
  - split; [discriminate | intros (? & [] & _)].
  - destruct (String.eqb (normcase path) (normcase (normpath b))) eqn:E1.
    + split; [intros _ | reflexivity].
      exists b. split; [by left |]. left. by apply string_eqb_iff.
    + destruct (Py.startswith (normcase path)
                  (normcase (normpath b) +:+ String sep "")) eqn:E2.
      * split; [intros _ | reflexivity].
        exists b. split; [by left |]. right. by apply startswith_below.
      * rewrite IH. split.
        -- intros (rb & Hin & Hw). exists rb. split; [by right | done].
        -- intros (rb & [<- | Hin] & Hw); [| by exists rb].
           apply within_test in Hw. rewrite E1, E2 in Hw. discriminate.
Qed.

Lemma validpath_spec (self : MultiDirFilesystem) (path : string) :
  validpath self path = true <->
  path = "/" \/
  exists real_base, In real_base (dict_values (_dir_map self)) /\
    within (normcase (normpath real_base)) (normcase (normpath path)).
Proof.
  unfold validpath. destruct (String.eqb_spec path "/") as [->|Hne].
  - split; [by left | reflexivity].
  - rewrite validpath_values_iff. split; [by right | by intros [? | ?]].
Qed.

Lemma is_mount_root_values_iff (path_norm : string) (values : list string) :
  is_mount_root_values path_norm values = true <->
  exists real_base, In real_base values /\
    normcase path_norm = normcase (normpath real_base).
Proof.
  induction values as [|b values IH]; simpl.
  - split; [discriminate | intros (? & [] & _)].
  - destruct (String.eqb_spec (normcase path_norm) (normcase (normpath b)))
      as [Heq | Hne].
    + split; [intros _ | reflexivity]. exists b. split; [by left | done].
    + rewrite IH. split.
      * intros (rb & Hin & Hw). exists rb. split; [by right | done].
      * intros (rb & [<- | Hin] & Hw); [done | by exists rb].
Qed.

Lemma is_mount_root_test (self : MultiDirFilesystem) (path : string) :
  is_mount_root_values (normpath path) (dict_values (_dir_map self)) = true
  <-> is_mount_root self path.
Proof. apply is_mount_root_values_iff. Qed.

Lemma is_mount_root_dec (self : MultiDirFilesystem) (path : string) :
  is_mount_root self path \/ ~ is_mount_root self path.
Proof.
  rewrite <- is_mount_root_test.
  destruct (is_mount_root_values _ _); [by left | by right].
Qed.

End filesystem_props.

(** What [validpath] computes: it holds exactly when [path] is ["/"] or
    the normalised path is, up to [normcase], the normalised real path
    of one of the user's mounts or that path followed by a separator and
    a remainder.  So [validpath "/"] always holds, and a mount at
    [/docs] does not make [/docs2] valid (while it does make [/docs/x]
    valid). *)
Lemma validpath_prefix_test :
  (forall (os : OsPath) (self : MultiDirFilesystem) (path : string),
      validpath self path = true <->
      path = "/" \/
      exists real_base, In real_base (dict_values (_dir_map self)) /\
        within (normcase (normpath real_base)) (normcase (normpath path)))
  /\ (forall (os : OsPath) (self : MultiDirFilesystem),
         validpath self "/" = true)
  /\ (let self := {| cwd := "/"; _dir_map := [("docs", "/docs")] |} in
      validpath (os := posixpath) self "/docs2" = false /\
      validpath (os := posixpath) self "/docs/x" = true /\
      validpath (os := posixpath) self "/docs" = true).
Proof.
  split; [| split].
  - intros os self path. apply validpath_spec.
  - intros os self. reflexivity.
  - repeat split; reflexivity.
Qed.

(** C2, at a mount of the filesystem root (the defect behind C3 and
    C4).  With the mount table [{"root": "/"}], the normalised path
    ["/etc"] has the mount's normalised real path ["/"] as a strict
    ancestor, and [validpath "/etc"] is [False]: the prefix test looks
    for ["//"].  The "if" half of the claim fails there. *)
Theorem validpath_root_mount_rejects_descendant :
  let self :=
    MultiDirFilesystem_init (os := posixpath) {["u" := [("root", "/")]]} "u" in
  _dir_map self = [("root", "/")]
  /\ posix.normpath "/etc" = "/etc"
  /\ strict_ancestor (posix.normpath "/") (posix.normpath "/etc")
  /\ validpath (os := posixpath) self "/etc" = false.
Proof.
  split; [reflexivity |]. split; [reflexivity |]. split; [| reflexivity].
  split; [reflexivity |]. split; [reflexivity |].
  exists ["etc"]. split; [done | reflexivity].
Qed.

(** C5.  [rmdir] on a path whose normalised, case-folded form is a mount's
    real path raises [FilesystemError "Cannot remove a mount point."] and
    leaves the disk as it was, whatever the disk holds; on every other path
    it is [os.rmdir] on that path. *)
Theorem rmdir_mount_root_refused {os : OsPath} {osf : OsFiles}
    (self : MultiDirFilesystem) (path : string) :
  (is_mount_root self path ->
     forall d : Disk,
       rmdir self path d =
         (raise (FilesystemError "Cannot remove a mount point."), d))
  /\ (~ is_mount_root self path ->
        forall d : Disk, rmdir self path d = os_rmdir path d).
Proof.
  unfold rmdir. split; intros Hroot d.
  - apply is_mount_root_test in Hroot. by rewrite Hroot.
  - destruct (is_mount_root_values _ _) eqn:E; [| done].
    by apply is_mount_root_test in E.
Qed.

(** C9.  [isdir] answers [True] for ["/"] and for any path whose
    normalised, case-folded form is a mount's real path, whatever the disk
    holds; for every other path it is [os.path.isdir] on that path. *)
Theorem isdir_mount_root_without_disk {os : OsPath} {osf : OsFiles}
    (self : MultiDirFilesystem) (path : string) :
  (path = "/" \/ is_mount_root self path ->
     forall d : Disk, isdir self path d = true)
  /\ (path <> "/" -> ~ is_mount_root self path ->
        forall d : Disk, isdir self path d = os_path_isdir path d).
Proof.
  unfold isdir. split.
  - intros [-> | Hroot] d; [reflexivity |].
    destruct (String.eqb_spec path "/") as [_ | _]; [reflexivity |].
    apply is_mount_root_test in Hroot. simpl. by rewrite Hroot.
  - intros Hne Hroot d.
    destruct (String.eqb_spec path "/") as [? | _]; [done |]. simpl.
    destruct (is_mount_root_values _ _) eqn:E; [| done].
    by apply is_mount_root_test in E.
Qed.

Lemma rmdir_mount_root_refused_witness :
  let self := {| cwd := "/"; _dir_map := [("docs", "/srv/docs")] |} in
  rmdir (os := posixpath) (osf := list_disk) self "/srv/docs/" ["/srv/docs"]
    = (raise (FilesystemError "Cannot remove a mount point."), ["/srv/docs"])
  /\ rmdir (os := posixpath) (osf := list_disk) self "/srv/docs/a"
       ["/srv/docs"; "/srv/docs/a"]
     = (ret tt, ["/srv/docs"]).
Proof.
  intros self. split.
  - apply (proj1 (rmdir_mount_root_refused (os := posixpath) (osf := list_disk)
                    self "/srv/docs/")).
    apply is_mount_root_test. vm_compute. reflexivity.
  - rewrite (proj2 (rmdir_mount_root_refused (os := posixpath)
                      (osf := list_disk) self "/srv/docs/a")).
    + vm_compute. reflexivity.
    + intros Hroot. apply is_mount_root_test in Hroot. vm_compute in Hroot.
      discriminate.
Defined.

Lemma isdir_mount_root_without_disk_witness :
  let self := {| cwd := "/"; _dir_map := [("docs", "/srv/docs")] |} in
  isdir (os := posixpath) (osf := list_disk) self "/srv/docs" [] = true
  /\ isdir (os := posixpath) (osf := list_disk) self "/srv/other" [] = false.
Proof.
  intros self. split.
  - apply (proj1 (isdir_mount_root_without_disk (os := posixpath)
                    (osf := list_disk) self "/srv/docs")).
    right. apply is_mount_root_test. vm_compute. reflexivity.
  - rewrite (proj2 (isdir_mount_root_without_disk (os := posixpath)
                      (osf := list_disk) self "/srv/other")).
    + vm_compute. reflexivity.
    + discriminate.
    + intros Hroot. apply is_mount_root_test in Hroot. vm_compute in Hroot.
      discriminate.
Defined.

(** ** [has_perm] *)

Section has_perm_props.
Context {os : OsPath}.

Lemma has_perm_operms_outside (p : ascii) (path : string)
    (ops : dict (string * bool)) :
  (forall dir_ operm recursive, In (dir_, (operm, recursive)) ops ->
     path <> dir_ /\ (recursive = true -> ~ below dir_ path)) ->
  has_perm_operms p path ops = None.
Proof.
  induction ops as [|[dir_ [operm recursive]] ops IH]; intros Hout; simpl.
  - reflexivity.
  - destruct (Hout dir_ operm recursive) as [Hne Hrec]; [by left |].
    destruct (String.eqb_spec path dir_) as [? | _]; [done |]. simpl.
    destruct recursive; simpl.
    + destruct (Py.startswith _ _) eqn:E.
      * apply startswith_below in E. by destruct Hrec.
      * apply IH. intros d o r Hin. apply (Hout d o r). by right.
    + apply IH. intros d o r Hin. apply (Hout d o r). by right.
Qed.

Lemma has_perm_mounts_outside (path : string) (values : list string) :
  (forall real_base, In real_base values ->
     ~ within (normcase (normpath real_base)) path) ->
  has_perm_mounts path values = false.
Proof.
  induction values as [|b values IH]; intros Hout; simpl.
  - reflexivity.
  - destruct (_ || _) eqn:E.
    + apply within_test in E. destruct (Hout b); [by left | done].
    + apply IH. intros rb Hin. apply Hout. by right.
Qed.

End has_perm_props.

(** C1.  For a registered user, any permission character and any path
    other than ["/"] that is outside every override of the user (not an
    override's directory, not below a recursive one) and outside every
    mount of the user (neither a mount's normalised real path nor below
    it), [has_perm] answers [False], also for a character of the user's
    base permission string. *)
Theorem has_perm_fail_closed {os : OsPath} (self : HashedAuthorizer)
    (USER_DIR_MAP : registry) (username : string) (u : user) (p : ascii)
    (path : string) :
  user_table self !! username = Some u ->
  path <> "/" ->
  outside_overrides u (normcase path) ->
  outside_mounts (default [] (USER_DIR_MAP !! username)) (normcase path) ->
  has_perm self USER_DIR_MAP username p (Some path) = ret false.
Proof.
  intros Hu Hne Hov Hmt. unfold has_perm. rewrite Hu.
  destruct (String.eqb_spec path "/") as [? | _]; [done |].
  rewrite (has_perm_operms_outside p _ _ Hov).
  by rewrite (has_perm_mounts_outside _ _ Hmt).
Qed.

Lemma has_perm_fail_closed_witness :
  let u := {| pwd := ""; home := "/d"; perm := "elr"; operms := [];
              msg_login := "Login successful."; msg_quit := "Goodbye." |} in
  Py.contains "r" (perm u) = true /\
  has_perm (os := posixpath) {| user_table := {["u" := u]} |}
    {["u" := [("docs", "/d")]]} "u" "r" (Some "/other") = ret false.
Proof.
  intros u. split; [reflexivity |].
  apply (has_perm_fail_closed (os := posixpath) _ _ "u" u "r" "/other").
  - reflexivity.
  - discriminate.
  - intros dir_ operm recursive [].
  - intros real_base Hin Hw. apply within_test in Hw.
    vm_compute in Hin. destruct Hin as [<- | []].
    vm_compute in Hw. discriminate.
Defined.

(** ** Authentication *)

Lemma has_user_Some (self : HashedAuthorizer) (username : string) (u : user) :
  user_table self !! username = Some u -> has_user self username = true.
Proof. intros Hu. unfold has_user. rewrite Hu. by apply bool_decide_eq_true. Qed.

Lemma has_user_None (self : HashedAuthorizer) (username : string) :
  user_table self !! username = None -> has_user self username = false.
Proof.
  intros Hu. unfold has_user. rewrite Hu. apply bool_decide_eq_false.
  by intros [? ?].
Qed.

Lemma has_user_insert (self : HashedAuthorizer) (name username : string)
    (u : user) :
  has_user {| user_table := <[name := u]> (user_table self) |} username
  = bool_decide (name = username) || has_user self username.
Proof.
  unfold has_user. simpl. destruct (decide (name = username)) as [-> | Hne].
  - rewrite lookup_insert_eq.
    rewrite (bool_decide_eq_true_2 (username = username)) by done.
    apply bool_decide_eq_true_2. by eexists.
  - rewrite lookup_insert_ne by done.
    by rewrite (bool_decide_eq_false_2 (name = username)).
Qed.

Lemma validate_authentication_pure `{Hashlib} (self : HashedAuthorizer)
    (username password : string) :
  (validate_authentication self username password).2 = self.
Proof.
  unfold validate_authentication.
  destruct (has_user self username); simpl; [| reflexivity].
  destruct (user_table self !! username) as [u|]; [| reflexivity].
  destruct (Py.truthy (pwd u)); simpl; [| reflexivity].
  destruct (Py.contains "$" (pwd u)); simpl; [| reflexivity].
  destruct (Py.split1 "$" (pwd u)) as [salt expected_hash].
  by destruct (compare_digest _ _) as [e | []].
Qed.

(** C7.  [validate_authentication] never changes the authorizer, and it
    fails with the reason of each case: ["Authentication failed."] for an
    unknown user name, ["Password not configured. ..."] for a registered
    user whose stored verifier is empty, ["Invalid password hash format."]
    for a registered user whose non-empty stored verifier has no ["$"]. *)
Theorem validate_authentication_failure_reasons `{Hashlib}
    (self : HashedAuthorizer) (username password : string) :
  (validate_authentication self username password).2 = self
  /\ (user_table self !! username = None ->
        (validate_authentication self username password).1
        = raise (AuthenticationFailed "Authentication failed."))
  /\ (forall u, user_table self !! username = Some u ->
        pwd u = "" ->
        (validate_authentication self username password).1
        = raise (AuthenticationFailed
                   "Password not configured. Run hash_password.py first."))
  /\ (forall u, user_table self !! username = Some u ->
        pwd u <> "" -> Py.contains "$" (pwd u) = false ->
        (validate_authentication self username password).1
        = raise (AuthenticationFailed "Invalid password hash format.")).
Proof.
  split; [apply validate_authentication_pure |].
  unfold validate_authentication. repeat split.
  - intros Hu. by rewrite (has_user_None _ _ Hu).
  - intros u Hu Hempty. rewrite (has_user_Some _ _ _ Hu), Hu, Hempty.
    reflexivity.
  - intros u Hu Hne Hsep. rewrite (has_user_Some _ _ _ Hu), Hu, Hsep. simpl.
    destruct (pwd u); [done | reflexivity].
Qed.

Lemma validate_authentication_failure_reasons_witness :
  let mk := stored_user in
  let self :=
    {| user_table := {["empty" := mk ""; "bad" := mk "nodollarsign"]} |} in
  (validate_authentication (H := hashlib) self "nobody" "pw").1
    = raise (AuthenticationFailed "Authentication failed.")
  /\ (validate_authentication (H := hashlib) self "empty" "pw").1
    = raise (AuthenticationFailed
               "Password not configured. Run hash_password.py first.")
  /\ (validate_authentication (H := hashlib) self "bad" "pw").1
    = raise (AuthenticationFailed "Invalid password hash format.").
Proof.
  intros mk self. split; [| split].
  - apply (validate_authentication_failure_reasons
             (H := hashlib) self "nobody" "pw").
    reflexivity.
  - apply (proj1 (proj2 (proj2 (validate_authentication_failure_reasons
             (H := hashlib) self "empty" "pw"))) (mk ""));
      reflexivity.
  - apply (proj2 (proj2 (proj2 (validate_authentication_failure_reasons
             (H := hashlib) self "bad" "pw"))) (mk "nodollarsign"));
      [reflexivity | discriminate | reflexivity].
Defined.

(** ** Registration and bootstrap *)

Section bootstrap_props.
Context {os : OsPath} {osf : OsFiles} {net : OsNet} {bi : Builtins}.

Lemma check_permissions_valid (username perm : string) :
  valid_perm perm -> _check_permissions username perm = ret tt.
Proof.
  induction perm as [|c perm IH]; intros Hv; [reflexivity |].
  cbn [_check_permissions]. rewrite (Hv c) by (simpl; by left).
  cbn [negb]. apply IH. intros c' Hin. apply Hv. simpl. by right.
Qed.

Lemma add_user_duplicate (self : HashedAuthorizer)
    (username password_hash homedir perm : string) :
  has_user self username = true ->
  add_user self username password_hash homedir perm
  = raise (already_exists username).
Proof. intros Hu. unfold add_user. by rewrite Hu. Qed.

Lemma add_user_fresh (self : HashedAuthorizer)
    (username password_hash homedir perm : string) :
  has_user self username = false -> valid_perm perm ->
  add_user self username password_hash homedir perm
  = ret {| user_table :=
             <[username := {| pwd := password_hash; home := homedir;
                              perm := perm; operms := [];
                              msg_login := "Login successful.";
                              msg_quit := "Goodbye." |}]>
               (user_table self) |}.
Proof.
  intros Hu Hv. unfold add_user.
  by rewrite Hu, (check_permissions_valid _ _ Hv).
Qed.

Lemma setup_user_registers (c : user_cfg) (self : HashedAuthorizer)
    (reg : registry) :
  (setup_user c self reg).2 = register_dirs reg c.
Proof. unfold setup_user, register_dirs. by destruct (cfg_username c). Qed.

(** The loop over a prefix of well-formed records with fresh, pairwise
    distinct names registers them all. *)
Lemma setup_users_prefix (pre rest : list user_cfg) :
  forall (self : HashedAuthorizer) (reg : registry),
  Forall well_formed pre ->
  NoDup (usernames pre) ->
  (forall n, n ∈ usernames pre -> has_user self n = false) ->
  exists self',
    setup_users (pre ++ rest) self reg
    = setup_users rest self' (fold_left register_dirs pre reg)
    /\ (forall n, has_user self' n = true <->
                  has_user self n = true \/ n ∈ usernames pre).
Proof.
  induction pre as [|c pre IH]; intros self reg Hwf Hnd Hfresh.
  - exists self. split; [reflexivity |].
    intros n. split; [by left | intros [? | Hn]; [done |]].
    by apply elem_of_nil in Hn.
  - apply Forall_cons in Hwf as [[[name Hname] Hperm] Hwf].
    unfold usernames in *. simpl in Hnd, Hfresh. rewrite Hname in Hnd, Hfresh.
    apply NoDup_cons in Hnd as [Hnotin Hnd].
    pose proof (Hfresh name ltac:(by left)) as Hnew.
    simpl. unfold setup_user at 1. rewrite Hname.
    rewrite (add_user_fresh _ _ _ _ _ Hnew Hperm).
    set (self1 := {| user_table := _ |}).
    destruct (IH self1 (register_dirs reg c) Hwf Hnd) as (self' & Heq & Hdom).
    { intros n Hn. unfold self1. rewrite has_user_insert.
      rewrite bool_decide_eq_false_2 by (intros ->; done). simpl.
      apply Hfresh. by right. }
    exists self'. split.
    + assert (Hreg : register_dirs reg c
                     = <[name := default [] (cfg_directories c)]> reg)
        by (unfold register_dirs; by rewrite Hname).
      rewrite <- Hreg. exact Heq.
    + intros n. rewrite Hdom. unfold self1. rewrite has_user_insert.
      rewrite elem_of_cons, orb_true_iff, bool_decide_eq_true.
      intuition (subst; auto).
Qed.


End bootstrap_props.

Section bootstrap_claims.
Context {os : OsPath} {osf : OsFiles} {net : OsNet} {bi : Builtins}.

Lemma register_dirs_named (c : user_cfg) (reg : registry) (n : string) :
  cfg_username c = Some n ->
  register_dirs reg c = <[n := default [] (cfg_directories c)]> reg.
Proof. intros Hn. unfold register_dirs. by rewrite Hn. Qed.

Lemma register_dirs_other (l : list user_cfg) (reg : registry) (n : string) :
  n ∉ usernames l -> fold_left register_dirs l reg !! n = reg !! n.
Proof.
  revert reg. induction l as [|c l IH]; intros reg Hn; [reflexivity |].
  simpl. unfold usernames in *. simpl in Hn.
  unfold register_dirs at 2.
  destruct (cfg_username c) as [m|]; [| by apply IH].
  apply not_elem_of_cons in Hn as [Hne Hn].
  rewrite IH by done. by rewrite lookup_insert_ne.
Qed.

Lemma register_dirs_last (l : list user_cfg) (c : user_cfg)
    (reg : registry) (n : string) :
  cfg_username c = Some n ->
  fold_left register_dirs (l ++ [c]) reg !! n
  = Some (default [] (cfg_directories c)).
Proof.
  intros Hn. rewrite fold_left_app. cbn [fold_left].
  rewrite (register_dirs_named c _ n Hn). apply lookup_insert_eq.
Qed.

Lemma register_dirs_unique (l : list user_cfg) (c : user_cfg)
    (reg : registry) (n : string) :
  NoDup (usernames l) -> c ∈ l -> cfg_username c = Some n ->
  fold_left register_dirs l reg !! n = Some (default [] (cfg_directories c)).
Proof.
  revert reg. induction l as [|c0 l IH]; intros reg Hnd Hin Hn.
  - by apply elem_of_nil in Hin.
  - unfold usernames in *. simpl in Hnd. simpl.
    apply elem_of_cons in Hin as [<- | Hin].
    + rewrite Hn in Hnd. apply NoDup_cons in Hnd as [Hnotin _].
      rewrite register_dirs_other by done.
      unfold register_dirs. rewrite Hn. apply lookup_insert_eq.
    + apply IH; [| done | done].
      destruct (cfg_username c0); [| done]. by apply NoDup_cons in Hnd as [_ ?].
Qed.

(** The loop stops at the first record whose name is taken, after it has
    written that record's directories to the registry. *)
Lemma setup_users_duplicate (pre post : list user_cfg) (d : user_cfg)
    (name : string) (reg : registry) :
  Forall well_formed pre -> NoDup (usernames pre) ->
  cfg_username d = Some name -> name ∈ usernames pre ->
  setup_users (pre ++ d :: post) HashedAuthorizer_init reg
  = (raise (already_exists name), fold_left register_dirs (pre ++ [d]) reg).
Proof.
  intros Hwf Hnd Hname Hin.
  destruct (setup_users_prefix pre (d :: post) HashedAuthorizer_init reg
              Hwf Hnd) as (self' & -> & Hdom).
  { intros n _. reflexivity. }
  cbn [setup_users]. unfold setup_user. rewrite Hname.
  rewrite add_user_duplicate by (apply Hdom; by right).
  rewrite fold_left_app. cbn [fold_left].
  by rewrite (register_dirs_named d _ name Hname).
Qed.


(** C10.  When [setup_server] stops at a record that repeats an earlier
    name, the global registry is not what it was: it holds the
    directories of every record processed so far, and under the repeated
    name it holds the directories of the repeating record, not those of
    the first record of that name. *)
Theorem setup_server_not_atomic (config : config) (w : world)
    (pre post : list user_cfg) (d : user_cfg) (name : string) :
  cfg_users config = Some (pre ++ d :: post) ->
  (validate_directories (pre ++ d :: post) (disk w)).1 = ret tt ->
  Forall well_formed pre -> NoDup (usernames pre) ->
  cfg_username d = Some name -> name ∈ usernames pre ->
  let w' := (setup_server config w).2 in
  (setup_server config w).1 = raise (already_exists name)
  /\ USER_DIR_MAP w'
     = fold_left register_dirs (pre ++ [d]) (USER_DIR_MAP w)
  /\ USER_DIR_MAP w' !! name = Some (default [] (cfg_directories d))
  /\ (forall c n, c ∈ pre -> cfg_username c = Some n -> n <> name ->
        USER_DIR_MAP w' !! n = Some (default [] (cfg_directories c))).
Proof.
  intros Hcfg Hval Hwf Hnd Hname Hin w'.
  assert (Hrun : setup_server config w
    = (raise (already_exists name),
       {| disk := (validate_directories (pre ++ d :: post) (disk w)).2;
          USER_DIR_MAP :=
            fold_left register_dirs (pre ++ [d]) (USER_DIR_MAP w);
          sockets := sockets w |})).
  { unfold setup_server. rewrite Hcfg. simpl.
    destruct (validate_directories _ _) as [[e|[]] d'];
      [discriminate |].
    by rewrite (setup_users_duplicate pre post d name _ Hwf Hnd Hname Hin). }
  subst w'. rewrite Hrun. simpl. repeat split.
  - by apply register_dirs_last.
  - intros c n Hc Hn Hne. rewrite fold_left_app. cbn [fold_left].
    rewrite (register_dirs_named d _ name Hname).
    rewrite lookup_insert_ne by done.
    by apply register_dirs_unique.
Qed.

End bootstrap_claims.

Lemma valid_perm_elr : valid_perm "elr".
Proof. intros c [<- | [<- | [<- | []]]]; reflexivity. Qed.



Lemma setup_server_not_atomic_witness :
  let svc dirs :=
    {| cfg_username := Some "svc"; cfg_password_hash := None;
       cfg_permissions := None; cfg_directories := Some dirs |} in
  let cfg :=
    {| cfg_users := Some [svc [("a", "/srv/a")]; svc [("b", "/srv/b")]];
       cfg_banner := None; cfg_passive_ports := None; cfg_host := None;
       cfg_port := None; cfg_max_connections := None;
       cfg_max_connections_per_ip := None |} in
  let w := @Build_world list_disk list_net [] ∅ [] in
  USER_DIR_MAP (setup_server (os := posixpath) (bi := plain_repr) cfg w).2
    !! "svc" = Some [("b", "/srv/b")].
Proof.
  intros svc cfg w.
  apply (setup_server_not_atomic
           (os := posixpath) (osf := list_disk) (net := list_net)
           (bi := plain_repr)
           cfg w [svc [("a", "/srv/a")]] [] (svc [("b", "/srv/b")]) "svc").
  - reflexivity.
  - vm_compute. reflexivity.
  - constructor; [| constructor].
    split; [by eexists | apply valid_perm_elr].
  - apply (bool_decide_unpack _). vm_compute. exact I.
  - reflexivity.
  - apply (bool_decide_unpack _). vm_compute. exact I.
Defined.

(** ** Path translation on a POSIX system *)

Example normpath_ex1 : posix.normpath "/a/./b/../c//d/" = "/a/c/d".
Proof. reflexivity. Qed.
Example normpath_ex2 : posix.normpath "//a/../../b" = "//b".
Proof. reflexivity. Qed.
Example normpath_ex3 : posix.normpath "///a" = "/a".
Proof. reflexivity. Qed.
Example normpath_ex4 : posix.normpath "../a/../../b" = "../../b".
Proof. reflexivity. Qed.
Example normpath_ex5 : posix.normpath "a/.." = ".".
Proof. reflexivity. Qed.
Example join_ex1 : posix.join "/" ["etc"; "x"] = "/etc/x".
Proof. reflexivity. Qed.
Example join_ex2 : posix.join "/d1" ["x"; "y.txt"] = "/d1/x/y.txt".
Proof. reflexivity. Qed.

(** The scenario of the specification: mounts
    [{"projects": "/d1", "backup": "/d2"}]. *)
Example ftp2fs_scenario :
  let self :=
    MultiDirFilesystem_init (os := posixpath)
      {["u" := [("projects", "/d1"); ("backup", "/d2")]]} "u" in
  ftp2fs (os := posixpath) self "/projects/x/y.txt" = ret "/d1/x/y.txt"
  /\ ftp2fs (os := posixpath) self "/Projects/../BACKUP/./z" = ret "/d2/z"
  /\ ftp2fs (os := posixpath) self "/nope" = ret "__invalid__/nope"
  /\ validpath (os := posixpath) self "__invalid__/nope" = false
  /\ fs2ftp (os := posixpath) self "/d2/a/b.txt" = "/backup/a/b.txt"
  /\ fs2ftp (os := posixpath) self "/some/random/path" = "/".
Proof. vm_compute. repeat split. Qed.

(** Round trips on ordinary mounts, nested ones included. *)
Example round_trip_examples :
  let self :=
    MultiDirFilesystem_init (os := posixpath)
      {["u" := [("Docs", "/srv/docs/"); ("sub", "/srv/docs/sub")]]} "u" in
  ftp2fs (os := posixpath) self (fs2ftp (os := posixpath) self "/srv/docs")
    = ret "/srv/docs"
  /\ ftp2fs (os := posixpath) self
       (fs2ftp (os := posixpath) self "/srv/docs/a/b.txt")
     = ret "/srv/docs/a/b.txt"
  /\ ftp2fs (os := posixpath) self
       (fs2ftp (os := posixpath) self "/srv/docs/sub/c")
     = ret "/srv/docs/sub/c"
  /\ validpath (os := posixpath) self "/srv/docs/sub/c" = true.
Proof. vm_compute. repeat split. Qed.

(** C3, at a mount of the filesystem root.  With the mount table
    [{"root": "/"}], [ftp2fs "/root/etc"] is ["/etc"], which lies in the
    mount's directory, and [validpath "/etc"] is [False]: the prefix test
    looks for ["//"]. *)
Theorem ftp2fs_root_mount_not_validpath :
  let self :=
    MultiDirFilesystem_init (os := posixpath) {["u" := [("root", "/")]]} "u" in
  _dir_map self = [("root", "/")]
  /\ ftp2fs (os := posixpath) self "/root/etc" = ret "/etc"
  /\ validpath (os := posixpath) self "/etc" = false
  /\ ftp2fs (os := posixpath) self "/root" = ret "/"
  /\ validpath (os := posixpath) self "/" = true.
Proof. vm_compute. repeat split. Qed.

(** C4, at a mount of the filesystem root.  With the mount table
    [{"root": "/"}] and the normalised real path ["/etc"], a strict
    descendant of the mount's root, [fs2ftp "/etc"] is ["/"] and the
    round trip ends at ["/"], not at ["/etc"]. *)
Theorem fs2ftp_root_mount_no_round_trip :
  let self :=
    MultiDirFilesystem_init (os := posixpath) {["u" := [("root", "/")]]} "u" in
  posix.normpath "/etc" = "/etc"
  /\ fs2ftp (os := posixpath) self "/etc" = "/"
  /\ ftp2fs (os := posixpath) self (fs2ftp (os := posixpath) self "/etc")
     = ret "/"
  /\ ftp2fs (os := posixpath) self "/root/etc" = ret "/etc".
Proof. vm_compute. repeat split. Qed.

(** ** The password scheme *)

Example sha256_constants :
  List.length sha256.K = 64%nat
  /\ nth 0 sha256.K 0%N = 0x428a2f98%N
  /\ nth 63 sha256.K 0%N = 0xc67178f2%N
  /\ sha256.H0.2 = 0x5be0cd19%N.
Proof. vm_compute. repeat split. Qed.

Example sha256_empty :
  sha256.hexdigest ""
  = "e3b0c44298fc1c149afbf4c8996fb92427ae41e4649b934ca495991b7852b855".
Proof. vm_compute. reflexivity. Qed.

Example sha256_abc :
  sha256.hexdigest "abc"
  = "ba7816bf8f01cfea414140de5dae2223b00361a396177a9cb410ff61f20015ad".
Proof. vm_compute. reflexivity. Qed.

Example sha256_55 :
  sha256.hexdigest
    "aaaaaaaaaaaaaaaaaaaaaaaaaaaaaaaaaaaaaaaaaaaaaaaaaaaaaaa"
  = "9f4390f8d30c2dd92ec9f095b65e2b9ae9b0a925a5258e241c9f1e910f734318".
Proof. vm_compute. reflexivity. Qed.

Example sha256_56 :
  sha256.hexdigest
    "aaaaaaaaaaaaaaaaaaaaaaaaaaaaaaaaaaaaaaaaaaaaaaaaaaaaaaaa"
  = "b35439a4ac6f0948b6d6f9e3c6af0f5f590ce20f1bde7090ef7970686ec6738a".
Proof. vm_compute. reflexivity. Qed.

Example sha256_64 :
  sha256.hexdigest
    "aaaaaaaaaaaaaaaaaaaaaaaaaaaaaaaaaaaaaaaaaaaaaaaaaaaaaaaaaaaaaaaa"
  = "ffe054fe7ae0cb6dc65c3af9b61d5209f439851db43d0ba5997337df154668eb".
Proof. vm_compute. reflexivity. Qed.

(** The verifier the tests build: salt ["abcd1234"], password
    ["secret"]. *)
(** [U+00E9] is encoded on two bytes: the digest of ["h\u00e9llo"]. *)
Example sha256_utf8 :
  sha256.hexdigest (String "h" (String "233" "llo"))
  = "3c48591d8d098a4538f5e013dfcf406e948eac4d3277b10bf614e295d6068179".
Proof. vm_compute. reflexivity. Qed.

Example sha256_salted :
  sha256.hexdigest "abcd1234secret"
  = "1c4dad6ee667d787d9ad9e29f9026b4da19a5f033401f2511ced5341da302b8e".
Proof. vm_compute. reflexivity. Qed.

Lemma pigeonhole_search (n : N) (P : N -> Prop) :
  (forall i, {P i} + {~ P i}) ->
  (exists i, (i <= n)%N /\ P i) \/ (forall i, (i <= n)%N -> ~ P i).
Proof.
  intros Hdec. induction n as [|n IH] using N.peano_ind.
  - destruct (Hdec 0%N) as [H0 | H0].
    + left. exists 0%N. split; [lia | done].
    + right. intros i Hi. by replace i with 0%N by lia.
  - destruct IH as [(i & Hi & HP) | Hnone].
    + left. exists i. split; [lia | done].
    + destruct (Hdec (N.succ n)) as [Hs | Hs].
      * left. exists (N.succ n). split; [lia | done].
      * right. intros i Hi. destruct (decide (i = N.succ n)) as [-> | Hne].
        -- done.
        -- apply Hnone. lia.
Qed.

(** [n + 1] values below [n] cannot all differ. *)
Lemma pigeonhole (n : N) :
  forall f : N -> N,
  (forall i, (i <= n)%N -> (f i < n)%N) ->
  exists i j, (i < j)%N /\ (j <= n)%N /\ f i = f j.
Proof.
  induction n as [|n IH] using N.peano_ind; intros f Hf.
  - specialize (Hf 0%N). lia.
  - destruct (pigeonhole_search n (fun i => f i = f (N.succ n))
                ltac:(intros i; apply N.eq_dec))
      as [(i & Hi & Heq) | Hnone].
    + exists i, (N.succ n). split; [lia | split; [lia | done]].
    + set (g := fun i => if N.eqb (f i) n then f (N.succ n) else f i).
      destruct (IH g) as (i & j & Hij & Hj & Hg).
      { intros i Hi. unfold g.
        pose proof (Hf i ltac:(lia)). pose proof (Hf (N.succ n) ltac:(lia)).
        pose proof (Hnone i Hi).
        destruct (N.eqb_spec (f i) n); lia. }
      exists i, j. split; [done | split; [lia |]].
      unfold g in Hg.
      pose proof (Hnone i ltac:(lia)). pose proof (Hnone j ltac:(lia)).
      destruct (N.eqb_spec (f i) n), (N.eqb_spec (f j) n); congruence.
Qed.

Lemma string_length_app (a b : string) :
  String.length (a +:+ b) = (String.length a + String.length b)%nat.
Proof.
  induction a as [|x a IH]; [reflexivity |].
  rewrite string_app_cons. simpl. by rewrite IH.
Qed.

Lemma list_ascii_app (a b : string) :
  list_ascii_of_string (a +:+ b)
  = list_ascii_of_string a ++ list_ascii_of_string b.
Proof.
  induction a as [|x a IH]; [reflexivity |].
  rewrite string_app_cons. simpl. by rewrite IH.
Qed.

Lemma is_ascii_app (a b : string) :
  is_ascii (a +:+ b) = is_ascii a && is_ascii b.
Proof. unfold is_ascii. by rewrite list_ascii_app, forallb_app. Qed.

Lemma is_hex_app (a b : string) : is_hex (a +:+ b) = is_hex a && is_hex b.
Proof. unfold is_hex. by rewrite list_ascii_app, forallb_app. Qed.

Lemma hex_digit_is_hex (n : N) : is_hex_char (hex_digit n) = true.
Proof.
  destruct n as [|p]; [reflexivity |].
  do 4 (destruct p as [p|p|]; try reflexivity).
Qed.

Lemma is_hex_char_ascii (c : ascii) :
  is_hex_char c = true -> (N_of_ascii c <? 128)%N = true.
Proof.
  destruct c as [[] [] [] [] [] [] [] []]; vm_compute; intros E;
    (reflexivity || discriminate E).
Qed.

Lemma is_hex_char_not_dollar (c : ascii) :
  is_hex_char c = true -> Ascii.eqb c "$" = false.
Proof.
  destruct c as [[] [] [] [] [] [] [] []]; vm_compute; intros E;
    (reflexivity || discriminate E).
Qed.

Lemma is_hex_is_ascii (s : string) : is_hex s = true -> is_ascii s = true.
Proof.
  unfold is_hex, is_ascii. induction s as [|c s IH]; simpl; [done |].
  intros [Hc Hs]%andb_true_iff.
  by rewrite (is_hex_char_ascii c Hc), IH.
Qed.

Lemma is_hex_no_dollar (s : string) :
  is_hex s = true -> Py.contains "$" s = false.
Proof.
  unfold is_hex. induction s as [|c s IH]; simpl; [done |].
  intros [Hc Hs]%andb_true_iff.
  by rewrite (is_hex_char_not_dollar c Hc), IH.
Qed.

Lemma bytes_hex_is_hex (b : list ascii) : is_hex (bytes_hex b) = true.
Proof.
  induction b as [|c b IH]; [reflexivity |].
  unfold is_hex in *. simpl. by rewrite !hex_digit_is_hex, IH.
Qed.

Lemma bytes_hex_length (b : list ascii) :
  String.length (bytes_hex b) = (2 * List.length b)%nat.
Proof. induction b as [|c b IH]; simpl; [done | rewrite IH; lia]. Qed.

Lemma to_hex_is_hex (n : nat) (x : N) : is_hex (sha256.to_hex n x) = true.
Proof.
  revert x. induction n as [|n IH]; intros x; [reflexivity |].
  simpl. rewrite is_hex_app, IH. unfold is_hex. simpl.
  by rewrite hex_digit_is_hex.
Qed.

Lemma to_hex_length (n : nat) (x : N) : String.length (sha256.to_hex n x) = n.
Proof.
  revert x. induction n as [|n IH]; intros x; [reflexivity |].
  simpl. rewrite string_length_app, IH. simpl. lia.
Qed.

Lemma hex_value_digit (n : N) : (n < 16)%N -> hex_value (hex_digit n) = n.
Proof.
  intros Hn. destruct n as [|p]; [reflexivity |].
  do 4 (destruct p as [p|p|]; try reflexivity; try lia).
Qed.

Lemma bytes_hex_inj (b1 b2 : list ascii) :
  bytes_hex b1 = bytes_hex b2 -> b1 = b2.
Proof.
  revert b2. induction b1 as [|c1 b1 IH]; intros [|c2 b2] Heq;
    try discriminate; [reflexivity |].
  simpl in Heq. injection Heq as Hhi Hlo Hrest.
  f_equal; [| by apply IH].
  pose proof (N_ascii_bounded c1). pose proof (N_ascii_bounded c2).
  apply (f_equal hex_value) in Hhi, Hlo.
  rewrite !hex_value_digit in Hhi, Hlo
    by (try apply N.mod_lt; try apply N.Div0.div_lt_upper_bound; lia).
  rewrite <- (ascii_N_embedding c1), <- (ascii_N_embedding c2).
  f_equal.
  rewrite (N.div_mod (N_of_ascii c1) 16), (N.div_mod (N_of_ascii c2) 16)
    by lia.
  by rewrite Hhi, Hlo.
Qed.

Lemma split1_verifier (salt h : string) :
  Py.contains "$" salt = false ->
  Py.split1 "$" (salt +:+ "$" +:+ h) = (salt, h).
Proof.
  induction salt as [|c salt IH]; intros Hno; [reflexivity |].
  rewrite string_app_cons. simpl in *.
  destruct (Ascii.eqb c "$"); [discriminate |]. by rewrite IH.
Qed.

Lemma contains_verifier (salt h : string) :
  Py.contains "$" (salt +:+ "$" +:+ h) = true.
Proof.
  induction salt as [|c salt IH]; [reflexivity |].
  rewrite string_app_cons. simpl. by destruct (Ascii.eqb c "$").
Qed.

Lemma truthy_verifier (salt h : string) :
  Py.truthy (salt +:+ "$" +:+ h) = true.
Proof. by destruct salt. Qed.

(** With a well-formed stored verifier, authentication is the comparison
    of the recomputed digest with the stored one. *)
Lemma validate_authentication_verifier `{Hashlib} (self : HashedAuthorizer)
    (username password salt h : string) (u : user) :
  user_table self !! username = Some u ->
  pwd u = salt +:+ "$" +:+ h ->
  Py.contains "$" salt = false ->
  (validate_authentication self username password).1
  = match compare_digest (sha256_hexdigest (salt +:+ password)) h with
    | inl e => raise e
    | inr true => ret tt
    | inr false => raise (AuthenticationFailed "Authentication failed.")
    end.
Proof.
  intros Hu Hpwd Hsalt. unfold validate_authentication.
  rewrite (has_user_Some _ _ _ Hu), Hu, Hpwd.
  rewrite truthy_verifier, contains_verifier, (split1_verifier _ _ Hsalt).
  simpl. by destruct (compare_digest _ _) as [e | []].
Qed.

Lemma hexdigest_is_hex (s : string) : is_hex (sha256.hexdigest s) = true.
Proof. apply to_hex_is_hex. Qed.

Lemma hexdigest_length (s : string) :
  String.length (sha256.hexdigest s) = 64%nat.
Proof. apply to_hex_length. Qed.

(** Authentication against a verifier made by [hash_password]. *)
Lemma validate_authentication_hashed (self : HashedAuthorizer)
    (username password password' : string) (urandom16 : list ascii)
    (u : user) :
  user_table self !! username = Some u ->
  pwd u = hash_password (H := hashlib) urandom16 password ->
  (validate_authentication (H := hashlib) self username password').1
  = if String.eqb
         (sha256.hexdigest (bytes_hex urandom16 +:+ password'))
         (sha256.hexdigest (bytes_hex urandom16 +:+ password))
    then ret tt
    else raise (AuthenticationFailed "Authentication failed.").
Proof.
  intros Hu Hpwd. unfold hash_password in Hpwd.
  cbn [sha256_hexdigest hashlib] in Hpwd.
  rewrite (validate_authentication_verifier (H := hashlib) self username
             password' _ _ u Hu Hpwd)
    by apply is_hex_no_dollar, bytes_hex_is_hex.
  cbn [sha256_hexdigest hashlib]. unfold compare_digest.
  rewrite !(is_hex_is_ascii _ (hexdigest_is_hex _)). cbn [andb].
  by destruct (String.eqb _ _).
Qed.

Lemma hash_password_salt_inj (e1 e2 : list ascii) (password : string) :
  hash_password (H := hashlib) e1 password
  = hash_password (H := hashlib) e2 password ->
  e1 = e2.
Proof.
  unfold hash_password. cbn [sha256_hexdigest hashlib].
  generalize (sha256.hexdigest (bytes_hex e1 +:+ password)).
  generalize (sha256.hexdigest (bytes_hex e2 +:+ password)).
  intros h2 h1 Heq.
  apply (f_equal (Py.split1 "$")) in Heq.
  rewrite (split1_verifier (bytes_hex e1) h1),
          (split1_verifier (bytes_hex e2) h2) in Heq
    by apply is_hex_no_dollar, bytes_hex_is_hex.
  apply bytes_hex_inj. congruence.
Qed.

(** C6 as the code has it.  For the sixteen bytes [os.urandom] returns
    and a password, [hash_password] builds [salt$hash]: the salt is the
    32 hexadecimal digits of the bytes, the hash the 64 hexadecimal digits
    of the SHA-256 of salt and password, all of it ASCII.  Authentication
    against it succeeds exactly when the salted digest of the supplied
    password is the stored digest, so it always succeeds with the password
    itself; and verifiers made from different random bytes differ. *)
Theorem hash_password_round_trip (urandom16 : list ascii)
    (password : string) :
  List.length urandom16 = 16%nat ->
  let salt := bytes_hex urandom16 in
  let verifier := hash_password (H := hashlib) urandom16 password in
  verifier = salt +:+ "$" +:+ sha256.hexdigest (salt +:+ password)
  /\ String.length salt = 32%nat /\ is_hex salt = true
  /\ String.length (sha256.hexdigest (salt +:+ password)) = 64%nat
  /\ is_hex (sha256.hexdigest (salt +:+ password)) = true
  /\ is_ascii verifier = true
  /\ (forall self username u password',
        user_table self !! username = Some u -> pwd u = verifier ->
        (validate_authentication (H := hashlib) self username password').1
        = if String.eqb (sha256.hexdigest (salt +:+ password'))
                        (sha256.hexdigest (salt +:+ password))
          then ret tt
          else raise (AuthenticationFailed "Authentication failed."))
  /\ (forall self username u,
        user_table self !! username = Some u -> pwd u = verifier ->
        (validate_authentication (H := hashlib) self username password).1
        = ret tt)
  /\ (forall urandom16',
        urandom16' <> urandom16 ->
        hash_password (H := hashlib) urandom16' password <> verifier).
Proof.
  intros Hlen salt verifier.
  split; [reflexivity |].
  split; [unfold salt; rewrite bytes_hex_length, Hlen; reflexivity |].
  split; [apply bytes_hex_is_hex |].
  split; [apply hexdigest_length |].
  split; [apply hexdigest_is_hex |].
  split.
  { unfold verifier, hash_password. cbn [sha256_hexdigest hashlib].
    rewrite !is_ascii_app.
    rewrite (is_hex_is_ascii _ (bytes_hex_is_hex _)).
    by rewrite (is_hex_is_ascii _ (hexdigest_is_hex _)). }
  split; [| split].
  - intros self username u password' Hu Hpwd.
    by apply validate_authentication_hashed with (u := u).
  - intros self username u Hu Hpwd.
    rewrite (validate_authentication_hashed self username password password
               urandom16 u Hu Hpwd).
    by rewrite String.eqb_refl.
  - intros urandom16' Hne Heq. by apply hash_password_salt_inj in Heq.
Qed.

Lemma hash_password_round_trip_witness :
  let urandom16 := repeat "171"%char 16 in
  (validate_authentication (H := hashlib)
     {| user_table :=
          {["bob" := stored_user
                       (hash_password (H := hashlib) urandom16 "secret")]} |}
     "bob" "secret").1 = ret tt.
Proof.
  intros urandom16.
  apply (proj1 (proj2 (proj2 (proj2 (proj2 (proj2 (proj2 (proj2
           (hash_password_round_trip urandom16 "secret" eq_refl))))))))
         _ "bob"
         (stored_user (hash_password (H := hashlib) urandom16 "secret"))).
  - apply lookup_singleton_eq.
  - reflexivity.
Defined.

(** C6, the failure direction.  There are two different passwords such
    that the verifier made for one (with sixteen zero bytes as salt
    material) authenticates the other: among the [2^256 + 1] passwords
    ["0"], ["1"], ..., two have the same salted digest. *)
Theorem password_collision_authenticates :
  exists password password' : string,
    password' <> password /\
    (validate_authentication (H := hashlib)
       {| user_table :=
            {["u" := stored_user
                       (hash_password (H := hashlib)
                          (repeat "000"%char 16) password)]} |}
       "u" password').1 = ret tt.
Proof.
  set (urandom16 := repeat "000"%char 16).
  set (f := fun i : N =>
    (sha256.digest (sha256.utf8 (bytes_hex urandom16 +:+ pretty i))
       mod 2 ^ 256)%N).
  destruct (pigeonhole (2 ^ 256)%N f) as (i & j & Hij & _ & Hf).
  { intros i _. unfold f. apply N.mod_lt. by apply N.pow_nonzero. }
  exists (pretty j), (pretty i). split.
  - intros Heq. apply (inj pretty) in Heq. lia.
  - rewrite (validate_authentication_hashed _ "u" (pretty j) (pretty i)
               urandom16 (stored_user
                 (hash_password (H := hashlib) urandom16 (pretty j)))).
    + unfold sha256.hexdigest. fold (f i). fold (f j). rewrite Hf.
      by rewrite String.eqb_refl.
    + apply lookup_singleton_eq.
    + reflexivity.
Qed.

(** * More of the code *)

(** ** Mount lookup *)

Lemma lower_char_idempotent (c : ascii) :
  Py.lower_char (Py.lower_char c) = Py.lower_char c.
Proof. destruct c as [[] [] [] [] [] [] [] []]; reflexivity. Qed.

Lemma lower_idempotent (s : string) : Py.lower (Py.lower s) = Py.lower s.
Proof.
  induction s as [|c s IH]; [reflexivity |].
  simpl. by rewrite lower_char_idempotent, IH.
Qed.

(** [str.lower] beyond ASCII: U+00C9 becomes U+00E9, and the
    multiplication sign U+00D7, the sharp s U+00DF and U+00FF stay. *)
Example lower_latin1 :
  Py.lower (String "201" "Caf") = String "233" "caf"
  /\ Py.lower (String "192" (String "214" (String "216" (String "222" ""))))
     = String "224" (String "246" (String "248" (String "254" "")))
  /\ Py.lower (String "215" (String "223" (String "255" "@[`{")))
     = String "215" (String "223" (String "255" "@[`{")).
Proof. repeat split. Qed.

Lemma find_mount_in_Some (names : list string) (name_lower m : string) :
  _find_mount_in names name_lower = Some m ->
  exists pre post, names = pre ++ m :: post
    /\ Py.lower m = name_lower
    /\ (forall k, In k pre -> Py.lower k <> name_lower).
Proof.
  induction names as [|k names IH]; [discriminate |]. simpl.
  destruct (String.eqb_spec (Py.lower k) name_lower) as [Heq | Hne].
  - intros [= <-]. exists [], names. repeat split; [done | intros ? []].
  - intros Hfind. destruct (IH Hfind) as (pre & post & -> & Hm & Hpre).
    exists (k :: pre), post. repeat split; [done |].
    intros k' [<- | Hin]; [done | by apply Hpre].
Qed.

Lemma find_mount_in_None (names : list string) (name_lower : string) :
  _find_mount_in names name_lower = None <->
  forall k, In k names -> Py.lower k <> name_lower.
Proof.
  induction names as [|k names IH]; simpl.
  - split; [intros _ ? [] | done].
  - destruct (String.eqb_spec (Py.lower k) name_lower) as [Heq | Hne].
    + split; [discriminate |]. intros Hall. destruct (Hall k); [by left | done].
    + rewrite IH. split.
      * intros Hall k' [<- | Hin]; [done | by apply Hall].
      * intros Hall k' Hin. apply Hall. by right.
Qed.

(** [_find_mount] looks a mount up by its name without regard to case:
    the answer is the first key of the table that equals the name once
    both are lower-cased, or [None] when there is no such key; the case
    of the name asked for does not matter; and when the keys differ
    pairwise even up to case, every key is found under any spelling. *)
Theorem find_mount_case_insensitive (self : MultiDirFilesystem)
    (name : string) :
  (forall m, _find_mount self name = Some m ->
     exists pre post, dict_keys (_dir_map self) = pre ++ m :: post
       /\ Py.lower m = Py.lower name
       /\ (forall k, In k pre -> Py.lower k <> Py.lower name))
  /\ (_find_mount self name = None <->
      forall k, In k (dict_keys (_dir_map self)) ->
        Py.lower k <> Py.lower name)
  /\ (forall name', Py.lower name' = Py.lower name ->
        _find_mount self name' = _find_mount self name)
  /\ _find_mount self (Py.lower name) = _find_mount self name
  /\ ((forall k1 k2, In k1 (dict_keys (_dir_map self)) ->
         In k2 (dict_keys (_dir_map self)) ->
         Py.lower k1 = Py.lower k2 -> k1 = k2) ->
      forall m, In m (dict_keys (_dir_map self)) ->
        Py.lower m = Py.lower name -> _find_mount self name = Some m).
Proof.
  unfold _find_mount. split; [| split; [| split; [| split]]].
  - intros m. apply find_mount_in_Some.
  - apply find_mount_in_None.
  - by intros name' ->.
  - by rewrite lower_idempotent.
  - intros Huniq m Hin Hm.
    destruct (_find_mount_in _ _) as [m'|] eqn:Hfind.
    + destruct (find_mount_in_Some _ _ _ Hfind) as (pre & post & Hk & Hm' & _).
      f_equal. apply Huniq; [| done | congruence].
      rewrite Hk. apply in_or_app. right. by left.
    + pose proof (proj1 (find_mount_in_None _ _) Hfind m Hin). done.
Qed.

Lemma find_mount_case_insensitive_witness :
  (* a mount named U+00C9 "tudes", asked for as U+00E9 "TUDES" *)
  let self := {| cwd := "/";
                 _dir_map := [(String "201" "tudes", "/d"); ("b", "/e")] |} in
  _find_mount self (String "233" "TUDES") = Some (String "201" "tudes").
Proof.
  intros self.
  apply (proj2 (proj2 (proj2 (proj2
           (find_mount_case_insensitive self (String "233" "TUDES")))))).
  - intros k1 k2 H1 H2 Heq.
    vm_compute in H1, H2.
    destruct H1 as [<- | [<- | []]], H2 as [<- | [<- | []]];
      (reflexivity || (vm_compute in Heq; discriminate Heq)).
  - vm_compute. by left.
  - reflexivity.
Defined.

(** ** Valid paths, mount roots and [fs2ftp] *)

Section more_filesystem.
Context {os : OsPath} {osf : OsFiles}.

(** A mount's real root is a valid path, a virtual path and a directory
    whatever the disk holds, and [rmdir] refuses it. *)
Theorem mount_root_is_valid_directory (self : MultiDirFilesystem)
    (path : string) :
  is_mount_root self path ->
  validpath self path = true
  /\ _is_virtual_path self path = true
  /\ (forall d : Disk, isdir self path d = true)
  /\ (forall d : Disk, (rmdir self path d).2 = d).
Proof.
  intros Hroot. pose proof Hroot as (b & Hin & Heq).
  apply is_mount_root_test in Hroot. repeat split.
  - apply validpath_spec. right. exists b. split; [done | by left].
  - unfold _is_virtual_path. rewrite Hroot. by destruct (String.eqb path "/").
  - intros d. unfold isdir. destruct (String.eqb path "/"); [done |].
    simpl. by rewrite Hroot.
  - intros d. unfold rmdir. by rewrite Hroot.
Qed.

Lemma string_app_nil_r (s : string) : s +:+ "" = s.
Proof.
  induction s as [|c s IH]; [reflexivity |].
  by rewrite string_app_cons, IH.
Qed.

Lemma fs2ftp_items_outside (fspath : string) (items : dict string) :
  validpath_values fspath (dict_values items) = false ->
  fs2ftp_items fspath items = "/".
Proof.
  induction items as [|[name b] items IH]; [reflexivity |].
  simpl. destruct (String.eqb _ _); [discriminate |].
  destruct (Py.startswith _ _); [discriminate |]. apply IH.
Qed.

Lemma fs2ftp_items_inside (fspath : string) (items : dict string) :
  fs2ftp_items fspath items <> "/" ->
  exists name real_base,
    In (name, real_base) items
    /\ within (normcase (normpath real_base)) (normcase fspath)
    /\ Py.startswith (fs2ftp_items fspath items) ("/" +:+ name) = true.
Proof.
  induction items as [|[name b] items IH]; [done |]. simpl.
  destruct (String.eqb_spec (normcase fspath) (normcase (normpath b)))
    as [Heq | Hne].
  - intros _. exists name, b. split; [by left |]. split; [by left |].
    apply startswith_iff. exists "". by rewrite string_app_nil_r.
  - destruct (Py.startswith (normcase fspath) _) eqn:Hpre.
    + intros _. exists name, b. split; [by left |].
      split; [right; by apply startswith_below |].
      apply startswith_iff. eexists. rewrite !string_app_assoc. reflexivity.
    + intros Hres. destruct (IH Hres) as (n' & b' & Hin & Hw & Hst).
      exists n', b'. split; [by right | done].
Qed.

(** [fs2ftp] fails closed: a real path that [validpath] rejects is
    translated to ["/"], and whenever the answer is not ["/"] it starts
    with ["/"] and the name of a mount whose real path contains the
    path. *)
Theorem fs2ftp_fails_closed (self : MultiDirFilesystem) (fspath : string) :
  (fspath <> "/" -> validpath self fspath = false ->
     fs2ftp self fspath = "/")
  /\ (fs2ftp self fspath <> "/" ->
        exists name real_base,
          In (name, real_base) (_dir_map self)
          /\ within (normcase (normpath real_base))
                    (normcase (normpath fspath))
          /\ Py.startswith (fs2ftp self fspath) ("/" +:+ name) = true).
Proof.
  split.
  - intros Hne Hinv. unfold validpath in Hinv.
    destruct (String.eqb_spec fspath "/") as [? | _]; [done |].
    by apply fs2ftp_items_outside.
  - apply fs2ftp_items_inside.
Qed.

(** [chdir] keeps the mount table and stores a virtual path: ["/"] for
    ["/"] and for any path [validpath] rejects, otherwise the translation
    of the path, which starts with ["/"] and a mount name. *)
Theorem chdir_stores_virtual_path (self : MultiDirFilesystem)
    (path : string) :
  _dir_map (chdir self path) = _dir_map self
  /\ cwd (chdir self path)
     = (if String.eqb path "/" then "/" else fs2ftp self path)
  /\ (validpath self path = false -> cwd (chdir self path) = "/")
  /\ (cwd (chdir self path) = "/"
      \/ exists name, In name (dict_keys (_dir_map self))
           /\ Py.startswith (cwd (chdir self path)) ("/" +:+ name) = true).
Proof.
  assert (Hcwd : cwd (chdir self path)
                 = if String.eqb path "/" then "/" else fs2ftp self path).
  { unfold chdir. simpl. destruct (String.eqb path "/"); simpl; [done |].
    by destruct (_is_virtual_path self path). }
  split; [reflexivity |]. split; [exact Hcwd |]. rewrite Hcwd. split.
  - intros Hinv. unfold validpath in Hinv.
    destruct (String.eqb_spec path "/") as [_ | Hne]; [done |].
    by apply fs2ftp_items_outside.
  - destruct (String.eqb path "/"); [by left |].
    destruct (String.eqb_spec (fs2ftp self path) "/") as [? | Hne];
      [by left | right].
    destruct (fs2ftp_items_inside _ _ Hne) as (name & b & Hin & _ & Hst).
    exists name. split; [| done].
    unfold dict_keys. apply in_map_iff. by exists (name, b).
Qed.

End more_filesystem.

Lemma mount_root_is_valid_directory_witness :
  let self := {| cwd := "/"; _dir_map := [("docs", "/srv/docs")] |} in
  validpath (os := posixpath) self "/srv/x/../docs/" = true.
Proof.
  intros self.
  apply (mount_root_is_valid_directory (os := posixpath) (osf := list_disk)
           self "/srv/x/../docs/").
  apply is_mount_root_test. vm_compute. reflexivity.
Defined.

Lemma fs2ftp_fails_closed_witness :
  let self := {| cwd := "/"; _dir_map := [("docs", "/srv/docs")] |} in
  fs2ftp (os := posixpath) self "/srv/docs2/a" = "/".
Proof.
  intros self.
  apply (proj1 (fs2ftp_fails_closed (os := posixpath) self "/srv/docs2/a")).
  - discriminate.
  - vm_compute. reflexivity.
Defined.

Lemma chdir_stores_virtual_path_witness :
  let self := {| cwd := "/docs"; _dir_map := [("docs", "/srv/docs")] |} in
  cwd (chdir (os := posixpath) self "/etc") = "/".
Proof.
  intros self.
  apply (proj1 (proj2 (proj2
           (chdir_stores_virtual_path (os := posixpath) self "/etc")))).
  vm_compute. reflexivity.
Defined.

(** ** A user without mounts *)

(** For a user who has no entry in [USER_DIR_MAP], the filesystem has
    an empty mount table: only ["/"] is a valid path, every real path is
    translated to ["/"], no name is a mount, and the listing of the root
    is empty. *)
Theorem unregistered_user_sees_only_root {os : OsPath}
    (USER_DIR_MAP : registry) (username : string) :
  USER_DIR_MAP !! username = None ->
  let self := MultiDirFilesystem_init USER_DIR_MAP username in
  _dir_map self = []
  /\ (forall path, validpath self path = true <-> path = "/")
  /\ (forall fspath, fs2ftp self fspath = "/")
  /\ (forall name, _find_mount self name = None)
  /\ sorted (dict_keys (_dir_map self)) = [].
Proof.
  intros Hnone self. subst self. unfold MultiDirFilesystem_init.
  cbv zeta. unfold dict in *. rewrite Hnone. simpl.
  repeat split; try done.
  - unfold validpath. simpl. destruct (String.eqb_spec path "/"); done.
  - intros ->. reflexivity.
Qed.

Lemma unregistered_user_sees_only_root_witness :
  fs2ftp (os := posixpath)
    (MultiDirFilesystem_init (os := posixpath)
       {["alice" := [("docs", "/srv/docs")]]} "bob")
    "/srv/docs" = "/".
Proof.
  apply (unregistered_user_sees_only_root (os := posixpath)
           {["alice" := [("docs", "/srv/docs")]]} "bob").
  reflexivity.
Defined.

(** ** Listing the root *)

(** [listdir "/"] never looks at the disk: it is the mount names in
    sorted order, each as often as it is a key, and two mount tables with
    the same names in any order of registration list the same. *)
Theorem listdir_root_sorted_mount_names `{OsListdir}
    (self self' : MultiDirFilesystem) :
  dict_keys (_dir_map self') ≡ₚ dict_keys (_dir_map self) ->
  exists names,
    (forall d : Disk, listdir self "/" d = ret names)
    /\ (forall d : Disk, listdir self' "/" d = ret names)
    /\ StronglySorted String.le names
    /\ names ≡ₚ dict_keys (_dir_map self).
Proof.
  intros Hperm.
  exists (sorted (dict_keys (_dir_map self))). unfold listdir, sorted. simpl.
  split; [done |]. split.
  - intros d. f_equal. apply (Sorted_unique String.le).
    + apply Sorted_merge_sort; apply _.
    + apply Sorted_merge_sort; apply _.
    + by rewrite !merge_sort_Permutation.
  - split; [apply StronglySorted_merge_sort; apply _ |].
    apply merge_sort_Permutation.
Qed.

Lemma listdir_root_sorted_mount_names_witness :
  listdir (H0 := list_listdir)
    {| cwd := "/"; _dir_map := [("projects", "/d1"); ("Backup", "/d2")] |}
    "/" []
  = listdir (H0 := list_listdir)
      {| cwd := "/"; _dir_map := [("Backup", "/d2"); ("projects", "/d1")] |}
      "/" ["/d1"].
Proof.
  destruct (listdir_root_sorted_mount_names (H0 := list_listdir)
              {| cwd := "/";
                 _dir_map := [("Backup", "/d2"); ("projects", "/d1")] |}
              {| cwd := "/";
                 _dir_map := [("projects", "/d1"); ("Backup", "/d2")] |})
    as (names & H1 & H2 & _).
  - simpl. apply Permutation_swap.
  - rewrite H2. symmetry. apply H1.
Defined.

Example listdir_root_example :
  sorted (dict_keys [("projects", "/d1"); ("Backup", "/d2"); ("alpha", "/d3")])
  = ["Backup"; "alpha"; "projects"].
Proof. vm_compute. reflexivity. Qed.

(** ** Permissions *)

Section more_has_perm.
Context {os : OsPath}.



(** An override decides alone: the first override, in the order of the
    table, whose directory is the path or (when recursive) lies above it
    gives the answer, whatever the base permission string and the
    mounts. *)
Theorem has_perm_override_governs (self : HashedAuthorizer)
    (USER_DIR_MAP : registry) (username : string) (u : user) (p : ascii)
    (path dir_ operm : string) (recursive : bool)
    (pre post : dict (string * bool)) :
  user_table self !! username = Some u ->
  path <> "/" ->
  operms u = pre ++ (dir_, (operm, recursive)) :: post ->
  (forall d o r, In (d, (o, r)) pre ->
     normcase path <> d /\ (r = true -> ~ below d (normcase path))) ->
  normcase path = dir_ \/ (recursive = true /\ below dir_ (normcase path)) ->
  has_perm self USER_DIR_MAP username p (Some path)
  = ret (Py.contains p operm).
Proof.
  intros Hu Hne Hops Hpre Hmatch. unfold has_perm. rewrite Hu.
  destruct (String.eqb_spec path "/") as [? | _]; [done |].
  rewrite Hops. clear Hops Hu.
  induction pre as [|[d [o r]] pre IH]; simpl.
  - destruct Hmatch as [-> | [-> Hb]].
    + by rewrite String.eqb_refl.
    + apply startswith_below in Hb. rewrite Hb. simpl.
      by rewrite orb_true_r.
  - destruct (Hpre d o r) as [Hd Hr]; [by left |].
    destruct (String.eqb_spec (normcase path) d) as [? | _]; [done |].
    simpl. destruct r; simpl.
    + destruct (Py.startswith _ _) eqn:E.
      * apply startswith_below in E. by destruct Hr.
      * apply IH. intros d' o' r' Hin. apply (Hpre d' o' r'). by right.
    + apply IH. intros d' o' r' Hin. apply (Hpre d' o' r'). by right.
Qed.

End more_has_perm.


Lemma has_perm_override_governs_witness :
  let u := {| pwd := ""; home := "/d"; perm := "elr";
              operms := [("/d/pub", ("elrw", true))];
              msg_login := "Login successful."; msg_quit := "Goodbye." |} in
  has_perm (os := posixpath) {| user_table := {["u" := u]} |}
    {["u" := [("docs", "/d")]]} "u" "w" (Some "/d/pub/x") = ret true.
Proof.
  intros u.
  apply (has_perm_override_governs (os := posixpath)
           {| user_table := {["u" := u]} |} {["u" := [("docs", "/d")]]}
           "u" u "w" "/d/pub/x" "/d/pub" "elrw" true [] []).
  - reflexivity.
  - discriminate.
  - reflexivity.
  - intros d o r [].
  - right. split; [reflexivity |]. apply startswith_below.
    vm_compute. reflexivity.
Defined.

(** ** Permission strings *)

Section more_add_user.
Context {bi : Builtins}.

Lemma check_permissions_first_unknown (username pre post : string)
    (c : ascii) :
  valid_perm pre ->
  Py.contains c (read_perms +:+ write_perms) = false ->
  _check_permissions username (pre +:+ String c post)
  = raise (ValueError ("no such permission " +:+ repr (String c ""))).
Proof.
  induction pre as [|a pre IH]; intros Hv Hc.
  - rewrite string_app_nil_l. cbn [_check_permissions]. by rewrite Hc.
  - rewrite string_app_cons. cbn [_check_permissions].
    rewrite (Hv a) by (simpl; by left). cbn [negb].
    apply IH; [| done]. intros c' Hin. apply Hv. simpl. by right.
Qed.

Lemma check_permissions_ok_valid (username perm : string) :
  _check_permissions username perm = ret tt -> valid_perm perm.
Proof.
  induction perm as [|a perm IH]; [intros _ c [] |].
  cbn [_check_permissions].
  destruct (Py.contains a (read_perms +:+ write_perms)) eqn:Ha;
    [| discriminate].
  cbn [negb]. intros Hrest c [<- | Hin]; [done | by apply IH].
Qed.

(** [add_user] registers a fresh name exactly when every character of
    the permission string is one of ["elradfmwMT"]; otherwise it raises
    [ValueError] naming the first character that is not, and registers
    nothing. *)
Theorem add_user_checks_permissions (self : HashedAuthorizer)
    (username password_hash homedir perm : string) :
  has_user self username = false ->
  ((exists self', add_user self username password_hash homedir perm
                  = ret self')
   <-> valid_perm perm)
  /\ (forall pre c post,
        perm = pre +:+ String c post -> valid_perm pre ->
        Py.contains c "elradfmwMT" = false ->
        add_user self username password_hash homedir perm
        = raise (ValueError ("no such permission " +:+ repr (String c "")))).
Proof.
  intros Hnew. unfold add_user. rewrite Hnew. split.
  - split.
    + intros [self' Hadd].
      destruct (_check_permissions username perm) as [e | []] eqn:Hchk;
        [discriminate |].
      by apply check_permissions_ok_valid in Hchk.
    + intros Hv. rewrite (check_permissions_valid _ _ Hv). by eexists.
  - intros pre c post -> Hv Hc.
    by rewrite (check_permissions_first_unknown username pre post c Hv Hc).
Qed.

End more_add_user.

Lemma add_user_checks_permissions_witness :
  add_user (H := plain_repr) HashedAuthorizer_init "u" "" "/d" "elxr"
  = raise (ValueError "no such permission 'x'").
Proof.
  apply (proj2 (add_user_checks_permissions (bi := plain_repr)
                  HashedAuthorizer_init "u" "" "/d" "elxr" eq_refl)
           "el" "x"%char "r").
  - reflexivity.
  - intros c [<- | [<- | []]]; reflexivity.
  - reflexivity.
Defined.

(** ** Directory validation *)

Section more_validate_directories.
Context {os : OsPath} {osf : OsFiles}.

Lemma validate_directories_items_existing (items : dict string) (d : Disk) :
  (forall p, In p (dict_values items) -> os_path_isdir (normpath p) d = true) ->
  validate_directories_items items d = (ret tt, d).
Proof.
  induction items as [|[name p] items IH]; intros Hex; [reflexivity |].
  simpl. rewrite (Hex p) by (by left). simpl.
  apply IH. intros q Hq. apply Hex. by right.
Qed.

(** When every directory the configuration names is a directory already,
    [validate_directories] succeeds and leaves the disk as it is:
    [os.makedirs] is not called. *)
Theorem validate_directories_existing (users : list user_cfg) (d : Disk) :
  (forall p, In p (configured_directories users) ->
     os_path_isdir (normpath p) d = true) ->
  validate_directories users d = (ret tt, d).
Proof.
  induction users as [|c users IH]; intros Hex; [reflexivity |].
  simpl. rewrite validate_directories_items_existing.
  - apply IH. intros p Hp. apply Hex. simpl. apply in_or_app. by right.
  - intros p Hp. apply Hex. simpl. apply in_or_app. by left.
Qed.

Lemma validate_directories_items_creates (items : dict string)
    (d d' : Disk) :
  makedirs_creates ->
  validate_directories_items items d = (ret tt, d') ->
  (forall q, os_path_isdir q d = true -> os_path_isdir q d' = true)
  /\ (forall p, In p (dict_values items) ->
        os_path_isdir (normpath p) d' = true).
Proof.
  intros Hmk. revert d. induction items as [|[name p] items IH]; intros d.
  - simpl. intros [= <-]. split; [done | intros ? []].
  - simpl. destruct (os_path_isdir (normpath p) d) eqn:Hdir; simpl.
    + intros Hrun. destruct (IH d Hrun) as [Hmono Hall].
      split; [done |]. intros q [<- | Hq]; [by apply Hmono | by apply Hall].
    + destruct (os_makedirs (normpath p) d) as [[e | []] d1] eqn:Hcall;
        [discriminate |].
      intros Hrun. destruct (IH d1 Hrun) as [Hmono Hall].
      destruct (Hmk _ _ _ Hcall) as [Hnew Hkeep].
      split; [intros q Hq; by apply Hmono, Hkeep |].
      intros q [<- | Hq]; [by apply Hmono | by apply Hall].
Qed.

(** With an [os.makedirs] that creates what it is asked to and removes
    nothing, a successful [validate_directories] leaves every directory
    the configuration names in place, normalised. *)
Theorem validate_directories_creates (users : list user_cfg) (d d' : Disk) :
  makedirs_creates ->
  validate_directories users d = (ret tt, d') ->
  forall p, In p (configured_directories users) ->
    os_path_isdir (normpath p) d' = true.
Proof.
  intros Hmk. revert d.
  assert (Hgen : forall d,
    validate_directories users d = (ret tt, d') ->
    (forall q, os_path_isdir q d = true -> os_path_isdir q d' = true)
    /\ (forall p, In p (configured_directories users) ->
          os_path_isdir (normpath p) d' = true)).
  { induction users as [|c users IH]; intros d.
    - simpl. intros [= <-]. split; [done | intros ? []].
    - simpl.
      destruct (validate_directories_items _ d) as [[e | []] d1] eqn:Hitems;
        [discriminate |].
      intros Hrun. destruct (IH d1 Hrun) as [Hmono Hall].
      destruct (validate_directories_items_creates _ _ _ Hmk Hitems)
        as [Hmono1 Hall1].
      split; [intros q Hq; by apply Hmono, Hmono1 |].
      intros p [Hp | Hp]%in_app_or; [by apply Hmono, Hall1 | by apply Hall]. }
  intros d Hrun. by apply (Hgen d).
Qed.

End more_validate_directories.

Lemma list_disk_makedirs_creates :
  makedirs_creates (osf := list_disk).
Proof.
  intros p x x' [= <-]. simpl. split.
  - apply bool_decide_eq_true. by left.
  - intros q Hq. apply bool_decide_eq_true. right.
    by apply bool_decide_eq_true in Hq.
Qed.

Lemma validate_directories_existing_witness :
  validate_directories (os := posixpath) (osf := list_disk)
    [{| cfg_username := Some "u"; cfg_password_hash := None;
        cfg_permissions := None;
        cfg_directories := Some [("docs", "/srv/docs/")] |}]
    ["/srv/docs"]
  = (ret tt, ["/srv/docs"]).
Proof.
  apply (validate_directories_existing (os := posixpath) (osf := list_disk)).
  intros p [<- | []]. vm_compute. reflexivity.
Defined.

Lemma validate_directories_creates_witness :
  let users :=
    [{| cfg_username := Some "u"; cfg_password_hash := None;
        cfg_permissions := None;
        cfg_directories := Some [("docs", "/srv/docs/")] |}] in
  validate_directories (os := posixpath) (osf := list_disk) users []
  = (ret tt, ["/srv/docs"])
  /\ os_path_isdir (OsFiles := list_disk)
       (normpath (OsPath := posixpath) "/srv/docs/") ["/srv/docs"] = true.
Proof.
  intros users.
  assert (Hrun : validate_directories (os := posixpath) (osf := list_disk)
                   users [] = (ret tt, ["/srv/docs"]))
    by (vm_compute; reflexivity).
  split; [exact Hrun |].
  apply (validate_directories_creates (os := posixpath) (osf := list_disk)
           users [] ["/srv/docs"] list_disk_makedirs_creates Hrun
           "/srv/docs/").
  by left.
Defined.

(** ** A successful bootstrap *)

Section more_bootstrap.
Context {os : OsPath} {osf : OsFiles} {net : OsNet} {bi : Builtins}.

(** The loop over well-formed records with fresh, pairwise distinct
    names: what the table holds afterwards. *)
Lemma setup_users_table (users : list user_cfg) :
  forall (self : HashedAuthorizer) (reg : registry),
  Forall well_formed users ->
  NoDup (usernames users) ->
  (forall n, n ∈ usernames users -> has_user self n = false) ->
  exists self',
    setup_users users self reg = (ret self', fold_left register_dirs users reg)
    /\ (forall c name, c ∈ users -> cfg_username c = Some name ->
          user_table self' !! name = Some (user_of_cfg c))
    /\ (forall name, name ∉ usernames users ->
          user_table self' !! name = user_table self !! name).
Proof.
  induction users as [|c users IH]; intros self reg Hwf Hnd Hfresh.
  - exists self. split; [reflexivity |]. split; [| done].
    intros c name Hc. by apply elem_of_nil in Hc.
  - apply Forall_cons in Hwf as [[[name Hname] Hperm] Hwf].
    unfold usernames in *. simpl in Hnd, Hfresh. rewrite Hname in Hnd, Hfresh.
    apply NoDup_cons in Hnd as [Hnotin Hnd].
    pose proof (Hfresh name ltac:(by left)) as Hnew.
    cbn [setup_users]. unfold setup_user at 1. rewrite Hname.
    rewrite (add_user_fresh _ _ _ _ _ Hnew Hperm).
    change {| pwd := default "" (cfg_password_hash c);
              home := _; perm := _; operms := []; msg_login := _;
              msg_quit := _ |} with (user_of_cfg c).
    set (self1 := {| user_table := <[name := user_of_cfg c]> (user_table self) |}).
    destruct (IH self1 (<[name := default [] (cfg_directories c)]> reg)
                Hwf Hnd) as (self' & Heq & Hin & Hout).
    { intros n Hn. unfold self1. rewrite has_user_insert.
      rewrite bool_decide_eq_false_2 by (intros ->; done). simpl.
      apply Hfresh. by right. }
    exists self'. split; [| split].
    + unfold ret at 1. rewrite Heq. cbn [fold_left].
      by rewrite (register_dirs_named c reg name Hname).
    + intros c' name' [-> | Hc']%elem_of_cons Hname'.
      * assert (name' = name) as -> by congruence.
        rewrite (Hout name Hnotin). unfold self1. simpl.
        apply lookup_insert_eq.
      * by apply Hin.
    + intros name' Hname'. simpl in Hname'. rewrite Hname in Hname'.
      apply not_elem_of_cons in Hname' as [Hne Hname'].
      rewrite (Hout name' Hname'). unfold self1. simpl.
      by rewrite lookup_insert_ne.
Qed.

(** What a successful bootstrap leaves behind. *)
Lemma setup_server_success (config : config) (w : world)
    (users : list user_cfg) :
  cfg_users config = Some users ->
  Forall well_formed users ->
  NoDup (usernames users) ->
  (validate_directories users (disk w)).1 = ret tt ->
  (bind_and_listen (default "0.0.0.0" (cfg_host config),
                    default 2121%Z (cfg_port config)) (sockets w)).1
    = ret tt ->
  exists srv,
    (setup_server config w).1 = ret srv
    /\ USER_DIR_MAP (setup_server config w).2
       = fold_left register_dirs users (USER_DIR_MAP w)
    /\ address srv = (default "0.0.0.0" (cfg_host config),
                      default 2121%Z (cfg_port config))
    /\ (forall c name, c ∈ users -> cfg_username c = Some name ->
          user_table (authorizer srv) !! name = Some (user_of_cfg c))
    /\ (forall name, name ∉ usernames users ->
          user_table (authorizer srv) !! name = None).
Proof.
  intros Hcfg Hwf Hnd Hval Hbind. unfold setup_server. rewrite Hcfg. simpl.
  destruct (validate_directories users (disk w)) as [[e | []] d'];
    [discriminate |].
  destruct (setup_users_table users HashedAuthorizer_init (USER_DIR_MAP w)
              Hwf Hnd) as (self' & -> & Hin & Hout).
  { intros n _. reflexivity. }
  destruct (bind_and_listen _ (sockets w)) as [[e | []] n'];
    [discriminate |].
  eexists. split; [reflexivity |]. simpl. repeat split; done.
Qed.

(** When the directories validate, the records are well formed with
    pairwise distinct names and the address can be bound,
    [setup_server] returns a server at the configured address
    ([0.0.0.0:2121] by default) whose authorizer knows exactly the
    configured users, each with its verifier and permission string
    (["elr"] by default) and no override, and the registry maps each of
    them to its directories; registry entries of other names stay as
    they were. *)
Theorem setup_server_registers_every_user (config : config) (w : world)
    (users : list user_cfg) :
  cfg_users config = Some users ->
  Forall well_formed users ->
  NoDup (usernames users) ->
  (validate_directories users (disk w)).1 = ret tt ->
  (bind_and_listen (default "0.0.0.0" (cfg_host config),
                    default 2121%Z (cfg_port config)) (sockets w)).1
    = ret tt ->
  exists srv,
    (setup_server config w).1 = ret srv
    /\ address srv = (default "0.0.0.0" (cfg_host config),
                      default 2121%Z (cfg_port config))
    /\ (forall c name, c ∈ users -> cfg_username c = Some name ->
          (exists u, user_table (authorizer srv) !! name = Some u
             /\ pwd u = default "" (cfg_password_hash c)
             /\ perm u = default "elr" (cfg_permissions c)
             /\ operms u = [])
          /\ USER_DIR_MAP (setup_server config w).2 !! name
             = Some (default [] (cfg_directories c)))
    /\ (forall name, name ∉ usernames users ->
          user_table (authorizer srv) !! name = None
          /\ USER_DIR_MAP (setup_server config w).2 !! name
             = USER_DIR_MAP w !! name).
Proof.
  intros Hcfg Hwf Hnd Hval Hbind.
  destruct (setup_server_success config w users Hcfg Hwf Hnd Hval Hbind)
    as (srv & Hrun & Hreg & Haddr & Hin & Hout).
  exists srv. split; [done |]. split; [done |]. rewrite Hreg. split.
  - intros c name Hc Hname. split.
    + exists (user_of_cfg c). by rewrite (Hin c name Hc Hname).
    + by apply register_dirs_unique.
  - intros name Hname. split; [by apply Hout |].
    by apply register_dirs_other.
Qed.

(** A user configured without a verifier (no ["password_hash"], or an
    empty one) cannot log in after a successful bootstrap: every
    password is answered with the "not configured" failure. *)
Theorem user_without_verifier_cannot_log_in `{Hashlib} (config : config)
    (w : world) (users : list user_cfg) (c : user_cfg) (name : string) :
  cfg_users config = Some users ->
  Forall well_formed users ->
  NoDup (usernames users) ->
  (validate_directories users (disk w)).1 = ret tt ->
  (bind_and_listen (default "0.0.0.0" (cfg_host config),
                    default 2121%Z (cfg_port config)) (sockets w)).1
    = ret tt ->
  c ∈ users -> cfg_username c = Some name ->
  default "" (cfg_password_hash c) = "" ->
  exists srv,
    (setup_server config w).1 = ret srv
    /\ forall password,
         (validate_authentication (authorizer srv) name password).1
         = raise (AuthenticationFailed
                    "Password not configured. Run hash_password.py first.").
Proof.
  intros Hcfg Hwf Hnd Hval Hbind Hc Hname Hempty.
  destruct (setup_server_success config w users Hcfg Hwf Hnd Hval Hbind)
    as (srv & Hrun & _ & _ & Hin & _).
  exists srv. split; [done |]. intros password.
  pose proof (Hin c name Hc Hname) as Hu.
  unfold validate_authentication.
  rewrite (has_user_Some _ _ _ Hu), Hu. simpl. by rewrite Hempty.
Qed.

End more_bootstrap.

Lemma setup_server_registers_every_user_witness :
  let alice :=
    {| cfg_username := Some "alice"; cfg_password_hash := Some "ab$cd";
       cfg_permissions := Some "elrw";
       cfg_directories := Some [("docs", "/srv/docs")] |} in
  let cfg :=
    {| cfg_users := Some [alice];
       cfg_banner := None; cfg_passive_ports := None; cfg_host := None;
       cfg_port := None; cfg_max_connections := None;
       cfg_max_connections_per_ip := None |} in
  let w := @Build_world list_disk list_net [] {["bob" := []]} [] in
  USER_DIR_MAP (setup_server (os := posixpath) (bi := plain_repr) cfg w).2
    !! "alice" = Some [("docs", "/srv/docs")]
  /\ USER_DIR_MAP (setup_server (os := posixpath) (bi := plain_repr) cfg w).2
       !! "bob" = Some [].
Proof.
  intros alice cfg w.
  destruct (setup_server_registers_every_user
              (os := posixpath) (osf := list_disk) (net := list_net)
              (bi := plain_repr) cfg w [alice])
    as (srv & _ & _ & Hin & Hout).
  - reflexivity.
  - constructor; [| constructor]. split; [by eexists |].
    intros c [<- | [<- | [<- | [<- | []]]]]; reflexivity.
  - apply (bool_decide_unpack _). vm_compute. exact I.
  - vm_compute. reflexivity.
  - vm_compute. reflexivity.
  - split.
    + apply (Hin alice "alice"); [by left | reflexivity].
    + etrans; [apply (Hout "bob") | reflexivity].
      apply (bool_decide_unpack _). vm_compute. exact I.
Defined.

Lemma user_without_verifier_cannot_log_in_witness :
  let fresh :=
    {| cfg_username := Some "fresh"; cfg_password_hash := None;
       cfg_permissions := None; cfg_directories := None |} in
  let cfg :=
    {| cfg_users := Some [fresh];
       cfg_banner := None; cfg_passive_ports := None; cfg_host := None;
       cfg_port := None; cfg_max_connections := None;
       cfg_max_connections_per_ip := None |} in
  let w := @Build_world list_disk list_net [] ∅ [] in
  exists srv,
    (setup_server (os := posixpath) (bi := plain_repr) cfg w).1 = ret srv
    /\ (validate_authentication (H := hashlib) (authorizer srv) "fresh" "").1
       = raise (AuthenticationFailed
                  "Password not configured. Run hash_password.py first.").
Proof.
  intros fresh cfg w.
  destruct (user_without_verifier_cannot_log_in
              (os := posixpath) (osf := list_disk) (net := list_net)
              (bi := plain_repr) (H := hashlib) cfg w [fresh] fresh "fresh")
    as (srv & Hrun & Hfail).
  - reflexivity.
  - constructor; [| constructor]. split; [by eexists | apply valid_perm_elr].
  - apply (bool_decide_unpack _). vm_compute. exact I.
  - vm_compute. reflexivity.
  - vm_compute. reflexivity.
  - by left.
  - reflexivity.
  - reflexivity.
  - exists srv. split; [exact Hrun | apply Hfail].
Defined.

(** ** POSIX paths: splitting and joining *)

Lemma split_sep (c : ascii) (s : string) :
  Py.split c (String c s) = "" :: Py.split c s.
Proof. simpl. by rewrite Ascii.eqb_refl. Qed.

Lemma split_nonempty (c : ascii) (s : string) : Py.split c s <> [].
Proof.
  induction s as [|a s IH]; simpl; [done |].
  destruct (Ascii.eqb a c); [done |]. by destruct (Py.split c s).
Qed.

Lemma split_app_sep (c : ascii) (a b : string) :
  Py.split c (a +:+ String c b) = Py.split c a ++ Py.split c b.
Proof.
  induction a as [|x a IH].
  - rewrite string_app_nil_l, split_sep. reflexivity.
  - rewrite string_app_cons. cbn [Py.split]. rewrite IH.
    destruct (Ascii.eqb x c); [reflexivity |].
    pose proof (split_nonempty c a). by destruct (Py.split c a).
Qed.

Lemma split_no_sep (c : ascii) (w : string) :
  Py.contains c w = false -> Py.split c w = [w].
Proof.
  induction w as [|x w IH]; [reflexivity |]. cbn [Py.contains Py.split].
  destruct (Ascii.eqb x c); [discriminate |]. intros Hw. by rewrite IH.
Qed.

Lemma split_elements (c : ascii) (s : string) :
  Forall (fun w => Py.contains c w = false) (Py.split c s).
Proof.
  induction s as [|x s IH]; [by repeat constructor |]. cbn [Py.split].
  destruct (Ascii.eqb x c) eqn:E; [by constructor |].
  destruct (Py.split c s) as [|w ws]; [by repeat constructor; simpl; rewrite E |].
  apply Forall_cons in IH as [Hw Hws]. constructor; [| done].
  cbn [Py.contains]. by rewrite E.
Qed.

Lemma join_cons (c w : string) (ws : list string) :
  ws <> [] -> Py.join c (w :: ws) = w +:+ c +:+ Py.join c ws.
Proof. by destruct ws. Qed.

Lemma split_join (comps : list string) :
  comps <> [] ->
  Forall (fun w => Py.contains "/" w = false) comps ->
  Py.split "/" (Py.join "/" comps) = comps.
Proof.
  induction comps as [|w ws IH]; [done |]. intros _ Hall.
  apply Forall_cons in Hall as [Hw Hws].
  destruct ws as [|w' ws]; [by apply split_no_sep |].
  rewrite join_cons by done.
  change (w +:+ "/" +:+ Py.join "/" (w' :: ws))
    with (w +:+ String "/" (Py.join "/" (w' :: ws))).
  rewrite split_app_sep, (split_no_sep _ _ Hw), IH by done. reflexivity.
Qed.

Lemma join_split (s : string) : Py.join "/" (Py.split "/" s) = s.
Proof.
  induction s as [|x s IH]; [reflexivity |]. cbn [Py.split].
  pose proof (split_nonempty "/" s) as Hne.
  destruct (Ascii.eqb_spec x "/") as [-> | Hx].
  - rewrite join_cons by done. by rewrite IH.
  - destruct (Py.split "/" s) as [|w ws]; [done |].
    destruct ws as [|w' ws].
    + cbn [Py.join] in *. by rewrite IH.
    + rewrite join_cons in * by done. by rewrite string_app_cons, IH.
Qed.

Lemma clean_slashfree (w : string) : clean w -> Py.contains "/" w = false.
Proof. by intros (_ & _ & _ & ?). Qed.

Lemma clean_truthy (w : string) : clean w -> Py.truthy w = true.
Proof. intros (Hne & _). by destruct w. Qed.

Lemma clean_not_abs (w : string) : clean w -> Py.startswith w "/" = false.
Proof.
  intros (Hne & _ & _ & Hs). destruct w as [|x w]; [done |].
  cbn [Py.contains] in Hs. cbn [Py.startswith].
  rewrite Ascii.eqb_sym. by destruct (Ascii.eqb x "/").
Qed.

Lemma Forall_clean_slashfree (comps : list string) :
  Forall clean comps -> Forall (fun w => Py.contains "/" w = false) comps.
Proof.
  intros Hall. eapply Forall_impl; [exact Hall |].
  intros w. apply clean_slashfree.
Qed.

(** ** POSIX paths: [normpath] *)

Lemma startswith_cons (a b : ascii) (s p : string) :
  Py.startswith (String a s) (String b p)
  = if Ascii.eqb b a then Py.startswith s p else false.
Proof. reflexivity. Qed.

Lemma startswith_nil (s : string) : Py.startswith s "" = true.
Proof. reflexivity. Qed.

Lemma Forall_removelast {A} (P : A -> Prop) (l : list A) :
  Forall P l -> Forall P (removelast l).
Proof.
  induction l as [|x l IH]; [done |]. intros [Hx Hl]%Forall_cons.
  simpl. destruct l; [constructor |]. constructor; [done | by apply IH].
Qed.

Lemma normpath_step_clean (k : nat) (acc : list string) (comp : string) :
  clean comp -> posix.normpath_step k acc comp = acc ++ [comp].
Proof.
  intros (H1 & H2 & H3 & _). unfold posix.normpath_step.
  apply String.eqb_neq in H1, H2, H3. by rewrite H1, H2, H3.
Qed.

Lemma normpath_fold_clean (k : nat) (comps acc : list string) :
  Forall clean comps ->
  fold_left (posix.normpath_step k) comps acc = acc ++ comps.
Proof.
  revert acc. induction comps as [|w ws IH]; intros acc Hall.
  - by rewrite app_nil_r.
  - apply Forall_cons in Hall as [Hw Hws]. cbn [fold_left].
    rewrite (normpath_step_clean _ _ _ Hw), IH by done.
    by rewrite <- app_assoc.
Qed.

Lemma normpath_step_abs_invariant (k : nat) (acc : list string)
    (comp : string) :
  (0 < k)%nat -> Py.contains "/" comp = false -> Forall clean acc ->
  Forall clean (posix.normpath_step (S (pred k)) acc comp).
Proof.
  intros Hk Hs Hacc. unfold posix.normpath_step.
  destruct (String.eqb_spec comp "") as [? | H1]; [done |].
  destruct (String.eqb_spec comp ".") as [? | H2]; [done |].
  cbn [orb]. destruct (String.eqb_spec comp "..") as [-> | H3].
  - cbn [negb Nat.eqb andb orb].
    destruct (last acc) as [l |] eqn:Hlast; [| by apply Forall_removelast].
    apply last_Some in Hlast as [acc' ->]. pose proof Hacc as Hacc0.
    apply Forall_app in Hacc as [Hacc' [(_ & _ & Hl & _) _]%Forall_cons].
    apply String.eqb_neq in Hl. rewrite Hl.
    by apply Forall_removelast.
  - cbn [negb orb]. apply Forall_app. split; [done |].
    by repeat constructor.
Qed.

Lemma normpath_fold_abs_invariant (k : nat) (comps acc : list string) :
  (0 < k)%nat ->
  Forall (fun w => Py.contains "/" w = false) comps -> Forall clean acc ->
  Forall clean (fold_left (posix.normpath_step k) comps acc).
Proof.
  intros Hk. revert acc. induction comps as [|w ws IH]; intros acc Hall Hacc;
    [done |].
  apply Forall_cons in Hall as [Hw Hws]. cbn [fold_left]. apply IH; [done |].
  replace k with (S (pred k)) by lia.
  by apply normpath_step_abs_invariant.
Qed.

Lemma join_not_abs (comps : list string) :
  Forall clean comps -> Py.startswith (Py.join "/" comps) "/" = false.
Proof.
  intros Hall. destruct comps as [|w ws]; [reflexivity |].
  apply Forall_cons in Hall as [Hw _]. pose proof (clean_not_abs w Hw) as Hn.
  destruct Hw as (Hne & _). destruct w as [|x w]; [done |].
  destruct ws; [done |]. by rewrite join_cons, string_app_cons.
Qed.

Lemma normpath_fold_split_join (k : nat) (comps : list string) :
  Forall clean comps ->
  fold_left (posix.normpath_step k) (Py.split "/" (Py.join "/" comps)) []
  = comps.
Proof.
  intros Hall. destruct comps as [|w ws]; [reflexivity |].
  rewrite split_join by (done || by apply Forall_clean_slashfree).
  by rewrite normpath_fold_clean.
Qed.

Lemma abs_path_truthy (k : nat) (comps : list string) :
  (0 < k)%nat -> Py.truthy (abs_path k comps) = true.
Proof. intros Hk. unfold abs_path. by destruct k; [lia |]. Qed.

(** [normpath] leaves a normalised absolute path as it is. *)
Lemma normpath_abs_path (k : nat) (comps : list string) :
  k = 1%nat \/ k = 2%nat -> Forall clean comps ->
  posix.normpath (abs_path k comps) = abs_path k comps.
Proof.
  intros Hk Hall. pose proof (join_not_abs comps Hall) as Hj.
  unfold posix.normpath.
  rewrite abs_path_truthy by lia. cbn [negb].
  assert (Hslashes :
    (if Py.startswith (abs_path k comps) "/"
     then if Py.startswith (abs_path k comps) "//"
             && negb (Py.startswith (abs_path k comps) "///")
          then 2%nat else 1%nat
     else 0%nat) = k).
  { unfold abs_path. destruct Hk as [-> | ->].
    - change (Py.times "/" 1 +:+ Py.join "/" comps)
        with (String "/" (Py.join "/" comps)).
      rewrite !startswith_cons, !Ascii.eqb_refl, Hj. reflexivity.
    - change (Py.times "/" 2 +:+ Py.join "/" comps)
        with (String "/" (String "/" (Py.join "/" comps))).
      rewrite !startswith_cons, !Ascii.eqb_refl, Hj. reflexivity. }
  cbv zeta. rewrite Hslashes.
  assert (Hfold :
    fold_left (posix.normpath_step k) (Py.split "/" (abs_path k comps)) []
    = comps).
  { unfold abs_path. destruct Hk as [-> | ->].
    - change (Py.times "/" 1 +:+ Py.join "/" comps)
        with (String "/" (Py.join "/" comps)).
      rewrite split_sep. cbn [fold_left].
      change (posix.normpath_step 1 [] "") with (@nil string).
      by apply normpath_fold_split_join.
    - change (Py.times "/" 2 +:+ Py.join "/" comps)
        with (String "/" (String "/" (Py.join "/" comps))).
      rewrite !split_sep. cbn [fold_left].
      change (posix.normpath_step 2 [] "") with (@nil string).
      by apply normpath_fold_split_join. }
  rewrite Hfold. fold (abs_path k comps).
  by rewrite abs_path_truthy by lia.
Qed.

(** [normpath] of an absolute path is a normalised absolute path. *)
Lemma normpath_abs_form (s : string) :
  Py.startswith s "/" = true ->
  exists k comps, (k = 1%nat \/ k = 2%nat) /\ Forall clean comps
    /\ posix.normpath s = abs_path k comps.
Proof.
  intros Habs. unfold posix.normpath.
  assert (Py.truthy s = true) as -> by (by destruct s).
  cbn [negb]. rewrite Habs. cbv zeta.
  set (k := if Py.startswith s "//" && negb (Py.startswith s "///")
            then 2%nat else 1%nat).
  assert (Hk : k = 1%nat \/ k = 2%nat)
    by (unfold k; destruct (_ && _); auto).
  exists k, (fold_left (posix.normpath_step k) (Py.split "/" s) []).
  split; [done |]. split.
  - apply normpath_fold_abs_invariant; [lia | apply split_elements | done].
  - fold (abs_path k (fold_left (posix.normpath_step k) (Py.split "/" s) [])).
    by rewrite abs_path_truthy by lia.
Qed.

Lemma normpath_step_rel_invariant (acc : list string) (comp : string) :
  Py.contains "/" comp = false ->
  Forall (fun w => w <> "" /\ Py.contains "/" w = false) acc ->
  Forall (fun w => w <> "" /\ Py.contains "/" w = false)
         (posix.normpath_step 0 acc comp).
Proof.
  intros Hs Hacc. unfold posix.normpath_step.
  destruct (String.eqb_spec comp "") as [? | H1]; [done |].
  destruct (String.eqb comp "."); [done |]. cbn [orb].
  destruct (_ || _).
  - apply Forall_app. split; [done |]. by repeat constructor.
  - by apply Forall_removelast.
Qed.

Lemma normpath_fold_rel_invariant (comps acc : list string) :
  Forall (fun w => Py.contains "/" w = false) comps ->
  Forall (fun w => w <> "" /\ Py.contains "/" w = false) acc ->
  Forall (fun w => w <> "" /\ Py.contains "/" w = false)
         (fold_left (posix.normpath_step 0) comps acc).
Proof.
  revert acc. induction comps as [|w ws IH]; intros acc Hall Hacc; [done |].
  apply Forall_cons in Hall as [Hw Hws]. cbn [fold_left]. apply IH; [done |].
  by apply normpath_step_rel_invariant.
Qed.

(** [normpath] of a relative path is a relative path. *)
Lemma normpath_relative (s : string) :
  Py.startswith s "/" = false ->
  Py.startswith (posix.normpath s) "/" = false.
Proof.
  intros Hrel. unfold posix.normpath.
  destruct (Py.truthy s); [| reflexivity]. cbn [negb]. rewrite Hrel.
  cbv zeta. change (Py.times "/" 0) with "". rewrite string_app_nil_l.
  pose proof (normpath_fold_rel_invariant (Py.split "/" s) []
                (split_elements "/" s) ltac:(constructor)) as Hinv.
  destruct (fold_left _ _ _) as [|w ws]; [reflexivity |].
  apply Forall_cons in Hinv as [[Hne Hs] _].
  assert (Hw : Py.startswith w "/" = false).
  { destruct w as [|x w]; [done |]. cbn [Py.contains] in Hs.
    rewrite startswith_cons, Ascii.eqb_sym. by destruct (Ascii.eqb x "/"). }
  assert (Hj : Py.startswith (Py.join "/" (w :: ws)) "/" = false).
  { destruct w as [|x w]; [done |]. destruct ws; [done |].
    by rewrite join_cons, string_app_cons. }
  destruct (Py.truthy _); [exact Hj | reflexivity].
Qed.

(** ** POSIX paths: [ftpnorm] *)

Lemma collapse_leading_relative (p : string) :
  Py.startswith p "/" = false -> collapse_leading p = p.
Proof.
  destruct p as [|a [|b p]]; try reflexivity.
  rewrite startswith_cons, startswith_nil, Ascii.eqb_sym.
  cbn [collapse_leading]. by destruct (Ascii.eqb a "/").
Qed.

Lemma collapse_leading_abs_path (k : nat) (comps : list string) :
  k = 1%nat \/ k = 2%nat -> Forall clean comps ->
  collapse_leading (abs_path k comps) = abs_path 1 comps.
Proof.
  intros Hk Hall. pose proof (join_not_abs comps Hall) as Hj.
  assert (H1 : collapse_leading (String "/" (Py.join "/" comps))
               = String "/" (Py.join "/" comps)).
  { destruct (Py.join "/" comps) as [|b j]; [reflexivity |].
    rewrite startswith_cons, startswith_nil, Ascii.eqb_sym in Hj.
    cbn [collapse_leading]. destruct (Ascii.eqb b "/"); [discriminate |].
    by rewrite andb_false_r. }
  unfold abs_path. destruct Hk as [-> | ->].
  - exact H1.
  - change (Py.times "/" 2 +:+ Py.join "/" comps)
      with (String "/" (String "/" (Py.join "/" comps))).
    change (Py.times "/" 1 +:+ Py.join "/" comps)
      with (String "/" (Py.join "/" comps)).
    rewrite <- H1 at 2. reflexivity.
Qed.

(** On POSIX [ftpnorm] always answers a normalised absolute path with
    one leading slash. *)
Lemma ftpnorm_form (self : MultiDirFilesystem) (ftppath : string) :
  exists comps, Forall clean comps
    /\ ftpnorm (os := posixpath) self ftppath = abs_path 1 comps.
Proof.
  unfold ftpnorm. cbn [isabs normpath path_join sep posixpath].
  change (Ascii.eqb posix.sep "\") with false. cbv iota.
  set (p := if posix.isabs ftppath then posix.normpath ftppath
            else posix.normpath (posix.join (cwd self) [ftppath])).
  assert (Hp : (exists k comps, (k = 1%nat \/ k = 2%nat)
                  /\ Forall clean comps /\ p = abs_path k comps)
               \/ Py.startswith p "/" = false).
  { unfold p, posix.isabs.
    destruct (Py.startswith ftppath "/") eqn:Habs.
    - left. by apply normpath_abs_form.
    - destruct (Py.startswith (posix.join (cwd self) [ftppath]) "/") eqn:Hj.
      + left. by apply normpath_abs_form.
      + right. by apply normpath_relative. }
  destruct Hp as [(k & comps & Hk & Hall & ->) | Hrel].
  - exists comps. split; [done |].
    rewrite (collapse_leading_abs_path k comps Hk Hall).
    unfold posix.isabs, abs_path. reflexivity.
  - exists []. split; [constructor |].
    rewrite (collapse_leading_relative p Hrel).
    unfold posix.isabs. by rewrite Hrel.
Qed.

Lemma ftpnorm_abs_path (self : MultiDirFilesystem) (comps : list string) :
  Forall clean comps ->
  ftpnorm (os := posixpath) self (abs_path 1 comps) = abs_path 1 comps.
Proof.
  intros Hall. unfold ftpnorm. cbn [isabs normpath path_join sep posixpath].
  change (Ascii.eqb posix.sep "\") with false. cbv iota.
  assert (Habs : posix.isabs (abs_path 1 comps) = true) by reflexivity.
  rewrite Habs, (normpath_abs_path 1 comps) by auto.
  rewrite (collapse_leading_abs_path 1 comps) by auto.
  by rewrite Habs.
Qed.

Lemma parts_abs_path (comps : list string) :
  Forall clean comps ->
  filter (fun p => Py.truthy p = true) (Py.split "/" (abs_path 1 comps))
  = comps.
Proof.
  intros Hall. unfold abs_path.
  change (Py.times "/" 1 +:+ Py.join "/" comps)
    with (String "/" (Py.join "/" comps)).
  rewrite split_sep. rewrite filter_cons_False by (simpl; done).
  destruct comps as [|w ws]; [reflexivity |].
  rewrite split_join by (done || by apply Forall_clean_slashfree).
  induction Hall as [|x l Hx Hl IH]; [reflexivity |].
  rewrite filter_cons_True by (by apply clean_truthy). by rewrite IH.
Qed.

(** ** POSIX paths: [os.path.join] below a directory *)

Lemma join_snoc (c : string) (l : list string) (w : string) :
  l <> [] -> Py.join c (l ++ [w]) = Py.join c l +:+ c +:+ w.
Proof.
  induction l as [|x l IH]; [done |]. intros _.
  destruct l as [|y l]; [reflexivity |].
  change ((x :: y :: l) ++ [w]) with (x :: ((y :: l) ++ [w])).
  rewrite join_cons by done. rewrite IH by done.
  rewrite (join_cons c x (y :: l)) by done.
  by rewrite !string_app_assoc.
Qed.

Lemma join_app (c : string) (l1 l2 : list string) :
  l1 <> [] -> l2 <> [] ->
  Py.join c (l1 ++ l2) = Py.join c l1 +:+ c +:+ Py.join c l2.
Proof.
  intros H1 H2. revert l1 H1. induction l2 as [|w l2 IH]; [done |].
  intros l1 H1. destruct l2 as [|w' l2].
  - by apply join_snoc.
  - replace (l1 ++ w :: w' :: l2) with ((l1 ++ [w]) ++ w' :: l2)
      by (by rewrite <- app_assoc).
    rewrite IH by (done || by destruct l1).
    rewrite join_snoc by done. rewrite (join_cons c w (w' :: l2)) by done.
    by rewrite !string_app_assoc.
Qed.

Lemma abs_path_app (k : nat) (l1 l2 : list string) :
  l1 <> [] -> l2 <> [] ->
  abs_path k (l1 ++ l2) = abs_path k l1 +:+ "/" +:+ Py.join "/" l2.
Proof.
  intros H1 H2. unfold abs_path.
  by rewrite join_app, !string_app_assoc.
Qed.

Lemma endswith_char_app (a w : string) (c : ascii) :
  w <> "" ->
  Py.endswith_char (a +:+ w) c = Py.endswith_char w c.
Proof.
  intros Hw. induction a as [|x a IH]; [reflexivity |].
  rewrite string_app_cons. cbn [Py.endswith_char].
  destruct (a +:+ w) as [|y r] eqn:E; [| exact IH].
  destruct a; [by rewrite string_app_nil_l in E | discriminate].
Qed.

Lemma endswith_char_slashfree (w : string) (c : ascii) :
  Py.contains c w = false -> Py.endswith_char w c = false.
Proof.
  induction w as [|x w IH]; [reflexivity |]. cbn [Py.contains].
  destruct (Ascii.eqb x c) eqn:E; [discriminate |]. intros Hw.
  cbn [Py.endswith_char]. destruct w; [exact E | by apply IH].
Qed.

Lemma abs_path_no_trailing_sep (k : nat) (segs : list string) :
  segs <> [] -> Forall clean segs ->
  Py.endswith_char (abs_path k segs) "/" = false.
Proof.
  intros Hne Hall.
  destruct (exists_last Hne) as (l & w & ->).
  apply Forall_app in Hall as [_ [Hw _]%Forall_cons].
  assert (Hwne : w <> "") by apply Hw.
  unfold abs_path. destruct l as [|x l].
  - cbn [app Py.join]. rewrite endswith_char_app by done.
    apply endswith_char_slashfree, clean_slashfree, Hw.
  - rewrite join_snoc by done. rewrite <- !string_app_assoc.
    rewrite endswith_char_app by done.
    apply endswith_char_slashfree, clean_slashfree, Hw.
Qed.

(** Joining clean segments to a normalised directory appends them. *)
Lemma join_abs_path (k : nat) (segs rest : list string) :
  (0 < k)%nat -> segs <> [] -> Forall clean segs -> Forall clean rest ->
  posix.join (abs_path k segs) rest = abs_path k (segs ++ rest).
Proof.
  intros Hk. revert segs. induction rest as [|w rest IH];
    intros segs Hne Hsegs Hrest.
  - by rewrite app_nil_r.
  - apply Forall_cons in Hrest as [Hw Hrest].
    unfold posix.join. cbn [fold_left]. fold (posix.join).
    assert (Hstep : posix.join_step (abs_path k segs) w
                    = abs_path k (segs ++ [w])).
    { unfold posix.join_step.
      rewrite (clean_not_abs w Hw), abs_path_truthy by done.
      cbn [negb orb]. unfold posix.sep.
      rewrite abs_path_no_trailing_sep by done.
      rewrite abs_path_app by done. reflexivity. }
    change (fold_left posix.join_step rest
              (posix.join_step (abs_path k segs) w))
      with (posix.join (posix.join_step (abs_path k segs) w) rest).
    rewrite Hstep, IH.
    + by rewrite <- app_assoc.
    + by destruct segs.
    + apply Forall_app. split; [done |]. constructor; [done | constructor].
    + done.
Qed.

Lemma normal_dir_normpath (b : string) :
  normal_dir b -> posix.normpath b = b.
Proof.
  intros (k & segs & Hk & _ & Hall & ->). by apply normpath_abs_path.
Qed.

(** Below a normalised directory, [normpath] of [join] is the directory,
    a separator and the segments. *)
Lemma normpath_join_normal_dir (b : string) (rest : list string) :
  normal_dir b -> rest <> [] -> Forall clean rest ->
  posix.normpath (posix.join b rest) = b +:+ "/" +:+ Py.join "/" rest
  /\ normal_dir (b +:+ "/" +:+ Py.join "/" rest).
Proof.
  intros (k & segs & Hk & Hne & Hall & ->) Hrest Hclean.
  rewrite join_abs_path by (done || lia).
  assert (Hall' : Forall clean (segs ++ rest))
    by (apply Forall_app; by split).
  rewrite normpath_abs_path by done.
  rewrite <- abs_path_app by done. split; [reflexivity |].
  exists k, (segs ++ rest). repeat split; try done. by destruct segs.
Qed.

(** ** POSIX paths: [ftp2fs] *)

Lemma abs_path_root (comps : list string) :
  Forall clean comps -> abs_path 1 comps = "/" -> comps = [].
Proof.
  intros Hall. destruct comps as [|w ws]; [done |].
  apply Forall_cons in Hall as [(Hne & _) _].
  unfold abs_path. change (Py.times "/" 1) with "/".
  destruct w as [|x w]; [done |]. destruct ws as [|w' ws].
  - cbn [Py.join]. intros [=].
  - rewrite join_cons by done. rewrite string_app_cons. intros [=].
Qed.

Lemma to_absolute_ftppath_posix (self : MultiDirFilesystem)
    (ftppath : string) :
  _to_absolute_ftppath (os := posixpath) self ftppath
  = ftpnorm (os := posixpath) self ftppath.
Proof.
  unfold _to_absolute_ftppath.
  destruct (ftpnorm_form self ftppath) as (comps & _ & ->). reflexivity.
Qed.

(** What [ftp2fs] computes on POSIX, in terms of the clean segments of
    the normalised virtual path. *)
Lemma ftp2fs_posix (self : MultiDirFilesystem) (ftppath : string) :
  exists comps,
    Forall clean comps
    /\ ftpnorm (os := posixpath) self ftppath = abs_path 1 comps
    /\ ftp2fs (os := posixpath) self ftppath
       = match comps with
         | [] => ret "/"
         | p0 :: rest =>
             let mount_name := default p0 (_find_mount self p0) in
             match dict_get mount_name (_dir_map self) with
             | Some real_base =>
                 match rest with
                 | _ :: _ => ret (posix.normpath (posix.join real_base rest))
                 | [] => ret real_base
                 end
             | None =>
                 ret (posix.normpath (posix.join "__invalid__" [mount_name]))
             end
         end.
Proof.
  destruct (ftpnorm_form self ftppath) as (comps & Hall & Hnorm).
  exists comps. split; [done |]. split; [done |].
  unfold ftp2fs, _resolve. rewrite to_absolute_ftppath_posix, Hnorm.
  rewrite (ftpnorm_abs_path self comps Hall), (parts_abs_path comps Hall).
  destruct comps as [|p0 rest]; [reflexivity |].
  destruct (String.eqb_spec (abs_path 1 (p0 :: rest)) "/") as [Heq | _].
  { by apply abs_path_root in Heq. }
  cbv zeta. by destruct (_find_mount self p0).
Qed.

(** On POSIX [ftpnorm] is idempotent, and its answer is ["/"] followed
    by segments joined by single slashes, none of them empty, ["."] or
    [".."]: no dot segment survives normalisation, whatever the input
    and the current directory. *)
Theorem ftpnorm_normalises (self : MultiDirFilesystem) (ftppath : string) :
  ftpnorm (os := posixpath) self (ftpnorm (os := posixpath) self ftppath)
  = ftpnorm (os := posixpath) self ftppath
  /\ exists comps,
       ftpnorm (os := posixpath) self ftppath = "/" +:+ Py.join "/" comps
       /\ Forall (fun w => w <> "" /\ w <> "." /\ w <> ".."
                          /\ Py.contains "/" w = false) comps.
Proof.
  destruct (ftpnorm_form self ftppath) as (comps & Hall & ->). split.
  - by apply ftpnorm_abs_path.
  - by exists comps.
Qed.

(** On POSIX [ftp2fs] never raises: the call
    [os.path.join("__invalid__", None)] cannot be reached, and the virtual
    root is translated to ["/"]. *)
Theorem ftp2fs_never_raises (self : MultiDirFilesystem) (ftppath : string) :
  (exists fspath, ftp2fs (os := posixpath) self ftppath = ret fspath)
  /\ (ftpnorm (os := posixpath) self ftppath = "/" ->
        ftp2fs (os := posixpath) self ftppath = ret "/").
Proof.
  destruct (ftp2fs_posix self ftppath) as (comps & Hall & Hnorm & ->).
  split.
  - destruct comps as [|p0 rest]; [by eexists |]. cbv zeta.
    destruct (dict_get _ _); [destruct rest |]; by eexists.
  - rewrite Hnorm. intros Hroot. by rewrite (abs_path_root comps Hall Hroot).
Qed.

Lemma ftp2fs_never_raises_witness :
  ftp2fs (os := posixpath)
    {| cwd := "/docs"; _dir_map := [("docs", "/srv/docs")] |} "../.."
  = ret "/".
Proof.
  apply (proj2 (ftp2fs_never_raises
                  {| cwd := "/docs"; _dir_map := [("docs", "/srv/docs")] |}
                  "../..")).
  vm_compute. reflexivity.
Defined.

Lemma abs_path_inj (c1 c2 : list string) :
  Forall clean c1 -> Forall clean c2 ->
  abs_path 1 c1 = abs_path 1 c2 -> c1 = c2.
Proof.
  intros H1 H2 Heq.
  by rewrite <- (parts_abs_path c1 H1), <- (parts_abs_path c2 H2), Heq.
Qed.

Lemma dict_get_In {V} (k : string) (d : dict V) :
  In k (dict_keys d) ->
  exists v, dict_get k d = Some v /\ In (k, v) d.
Proof.
  induction d as [|[k' v'] d IH]; [done |]. simpl.
  destruct (String.eqb_spec k' k) as [-> | Hne].
  - intros _. exists v'. split; [done | by left].
  - intros [? | Hin]; [done |]. destruct (IH Hin) as (v & Hget & Hv).
    exists v. split; [done | by right].
Qed.

Lemma dict_get_not_In {V} (k : string) (d : dict V) :
  ~ In k (dict_keys d) -> dict_get k d = None.
Proof.
  induction d as [|[k' v'] d IH]; [done |]. simpl. intros Hnot.
  destruct (String.eqb_spec k' k) as [-> | Hne].
  - destruct Hnot. by left.
  - apply IH. intros Hin. apply Hnot. by right.
Qed.

Lemma In_dict_values {V} (k : string) (v : V) (d : dict V) :
  In (k, v) d -> In v (dict_values d).
Proof. intros Hin. apply in_map_iff. by exists (k, v). Qed.

Lemma normpath_rel_clean (comps : list string) :
  comps <> [] -> Forall clean comps ->
  posix.normpath (Py.join "/" comps) = Py.join "/" comps.
Proof.
  intros Hne Hall.
  assert (Htruthy : Py.truthy (Py.join "/" comps) = true).
  { destruct comps as [|w ws]; [done |].
    apply Forall_cons in Hall as [(Hw & _) _].
    destruct w; [done |]. destruct ws; [done |].
    by rewrite join_cons, string_app_cons. }
  unfold posix.normpath. rewrite Htruthy. cbn [negb].
  rewrite (join_not_abs comps Hall). cbv zeta.
  rewrite split_join by (done || by apply Forall_clean_slashfree).
  rewrite normpath_fold_clean by done.
  change (Py.times "/" 0) with "". rewrite string_app_nil_l.
  cbn [app]. by rewrite Htruthy.
Qed.

Lemma clean_invalid : clean "__invalid__".
Proof. repeat split; done. Qed.

Lemma invalid_path (p0 : string) :
  clean p0 ->
  posix.normpath (posix.join "__invalid__" [p0]) = "__invalid__/" +:+ p0.
Proof.
  intros Hp0. unfold posix.join. cbn [fold_left]. unfold posix.join_step.
  rewrite (clean_not_abs p0 Hp0). cbn.
  change ("__invalid__" +:+ "/" +:+ p0)
    with (Py.join "/" ["__invalid__"; p0]).
  rewrite normpath_rel_clean; [reflexivity | done |].
  constructor; [apply clean_invalid | by constructor].
Qed.

Lemma relative_not_within (r b x : string) :
  Py.startswith r "/" = false -> Py.startswith b "/" = true ->
  String.eqb r b = false /\ Py.startswith r (b +:+ x) = false.
Proof.
  intros Hr Hb. destruct b as [|c b]; [done |].
  rewrite startswith_cons, startswith_nil in Hb.
  destruct (Ascii.eqb_spec "/" c) as [<- | ?]; [| done].
  destruct r as [|d r]; [done |].
  rewrite startswith_cons, startswith_nil in Hr.
  rewrite string_app_cons, startswith_cons. split.
  - apply String.eqb_neq. intros [= -> _]. by rewrite Ascii.eqb_refl in Hr.
  - by destruct (Ascii.eqb "/" d).
Qed.

Lemma validpath_relative (self : MultiDirFilesystem) (r : string) :
  Forall (fun b => posix.isabs b = true) (dict_values (_dir_map self)) ->
  Py.startswith r "/" = false ->
  validpath (os := posixpath) self r = false.
Proof.
  intros Habs Hr. unfold validpath.
  destruct (String.eqb_spec r "/") as [-> | _]; [done |].
  cbn [normpath posixpath].
  pose proof (normpath_relative r Hr) as Hnr.
  induction Habs as [|b values Hb Hvalues IH]; [reflexivity |].
  cbn [validpath_values normpath normcase sep posixpath].
  unfold posix.normcase.
  destruct (normpath_abs_form b Hb) as (k & comps & Hk & _ & Hnb).
  assert (Habsb : Py.startswith (posix.normpath b) "/" = true).
  { rewrite Hnb. unfold abs_path. by destruct Hk as [-> | ->]. }
  destruct (relative_not_within (posix.normpath r) (posix.normpath b)
              (String posix.sep "") Hnr Habsb) as [-> ->].
  exact IH.
Qed.

(** On POSIX, with mount directories given as absolute paths, a virtual
    path whose first segment is no mount name (up to case) is translated
    to the relative path [__invalid__/<segment>], which [validpath]
    rejects. *)
Theorem ftp2fs_unknown_mount_invalid (self : MultiDirFilesystem)
    (ftppath p0 : string) (rest : list string) :
  Forall (fun b => posix.isabs b = true) (dict_values (_dir_map self)) ->
  Forall clean (p0 :: rest) ->
  ftpnorm (os := posixpath) self ftppath = "/" +:+ Py.join "/" (p0 :: rest) ->
  _find_mount self p0 = None ->
  ftp2fs (os := posixpath) self ftppath = ret ("__invalid__/" +:+ p0)
  /\ validpath (os := posixpath) self ("__invalid__/" +:+ p0) = false.
Proof.
  intros Habs Hclean Hnorm Hfind.
  destruct (ftp2fs_posix self ftppath) as (comps & Hall & Hnorm' & ->).
  assert (comps = p0 :: rest) as ->.
  { apply abs_path_inj; [done | done |]. by rewrite <- Hnorm'. }
  cbv zeta. rewrite Hfind. cbn [default from_option id].
  apply Forall_cons in Hclean as [Hp0 _].
  rewrite dict_get_not_In.
  - rewrite (invalid_path p0 Hp0). split; [reflexivity |].
    by apply validpath_relative.
  - intros Hin.
    pose proof (proj1 (find_mount_in_None _ _) Hfind p0 Hin). done.
Qed.

Lemma ftp2fs_unknown_mount_invalid_witness :
  let self := {| cwd := "/"; _dir_map := [("docs", "/srv/docs")] |} in
  ftp2fs (os := posixpath) self "/docs/../nope/x" = ret "__invalid__/nope"
  /\ validpath (os := posixpath) self "__invalid__/nope" = false.
Proof.
  intros self.
  apply (ftp2fs_unknown_mount_invalid self "/docs/../nope/x" "nope" ["x"]).
  - constructor; [reflexivity | constructor].
  - constructor; [| constructor; [| constructor]]; repeat split; done.
  - vm_compute. reflexivity.
  - reflexivity.
Defined.

Lemma find_mount_dict_get (self : MultiDirFilesystem) (p0 m : string) :
  _find_mount self p0 = Some m ->
  exists real_base, dict_get m (_dir_map self) = Some real_base
    /\ In real_base (dict_values (_dir_map self)).
Proof.
  intros Hfind. apply find_mount_in_Some in Hfind as (pre & post & Hk & _).
  destruct (dict_get_In m (_dir_map self)) as (b & Hget & Hin).
  { rewrite Hk. apply in_or_app. right. by left. }
  exists b. split; [done |]. by apply In_dict_values in Hin.
Qed.

Lemma validpath_normal_dir (self : MultiDirFilesystem)
    (real_base fspath : string) :
  In real_base (dict_values (_dir_map self)) ->
  normal_dir real_base -> normal_dir fspath ->
  within (os := posixpath) real_base fspath ->
  validpath (os := posixpath) self fspath = true.
Proof.
  intros Hin Hb Hf Hw. apply validpath_spec. right. exists real_base.
  split; [done |]. cbn [normcase normpath posixpath]. unfold posix.normcase.
  by rewrite (normal_dir_normpath _ Hb), (normal_dir_normpath _ Hf).
Qed.

(** On POSIX, with mount directories that are normalised absolute paths
    other than the filesystem root, a virtual path whose first segment
    names a mount (up to case) is translated into that mount's
    directory: to the directory itself or to the directory, a slash and
    the remaining segments.  The result is within the mount and
    [validpath] accepts it, so no virtual path leaves its mount. *)
Theorem ftp2fs_stays_inside_mount (self : MultiDirFilesystem)
    (ftppath p0 m : string) (rest : list string) :
  Forall normal_dir (dict_values (_dir_map self)) ->
  Forall clean (p0 :: rest) ->
  ftpnorm (os := posixpath) self ftppath = "/" +:+ Py.join "/" (p0 :: rest) ->
  _find_mount self p0 = Some m ->
  exists real_base,
    dict_get m (_dir_map self) = Some real_base
    /\ ftp2fs (os := posixpath) self ftppath
       = ret (match rest with
              | [] => real_base
              | _ :: _ => real_base +:+ "/" +:+ Py.join "/" rest
              end)
    /\ (forall fspath, ftp2fs (os := posixpath) self ftppath = ret fspath ->
          within (os := posixpath) real_base fspath
          /\ validpath (os := posixpath) self fspath = true).
Proof.
  intros Hdirs Hclean Hnorm Hfind.
  destruct (find_mount_dict_get self p0 m Hfind) as (b & Hget & Hin).
  assert (Hb : normal_dir b).
  { rewrite Forall_forall in Hdirs. apply Hdirs. by apply list_elem_of_In. }
  exists b. split; [done |].
  destruct (ftp2fs_posix self ftppath) as (comps & Hall & Hnorm' & ->).
  assert (comps = p0 :: rest) as ->.
  { apply abs_path_inj; [done | done |]. by rewrite <- Hnorm'. }
  cbv zeta. rewrite Hfind. cbn [default from_option id]. rewrite Hget.
  apply Forall_cons in Hclean as [_ Hrest].
  destruct rest as [|r1 rest].
  - split; [reflexivity |]. intros fspath [= <-]. split; [by left |].
    apply (validpath_normal_dir self b b); [done | done | done | by left].
  - destruct (normpath_join_normal_dir b (r1 :: rest) Hb ltac:(done) Hrest)
      as [-> Hnd].
    split; [reflexivity |]. intros fspath [= <-].
    assert (Hw : within (os := posixpath) b
                   (b +:+ "/" +:+ Py.join "/" (r1 :: rest))).
    { right. by eexists. }
    split; [done |]. by apply (validpath_normal_dir self b).
Qed.

Lemma normal_dir_srv_docs : normal_dir "/srv/docs".
Proof.
  exists 1%nat, ["srv"; "docs"]. split; [by left |]. split; [done |].
  split; [| reflexivity].
  constructor; [| constructor; [| constructor]]; repeat split; done.
Qed.

Lemma ftp2fs_stays_inside_mount_witness :
  let self := {| cwd := "/"; _dir_map := [("Docs", "/srv/docs")] |} in
  ftp2fs (os := posixpath) self "/docs/a/../b/./c.txt"
  = ret "/srv/docs/b/c.txt".
Proof.
  intros self.
  destruct (ftp2fs_stays_inside_mount self "/docs/a/../b/./c.txt" "docs"
              "Docs" ["b"; "c.txt"]) as (b & Hget & Hrun & _).
  - constructor; [apply normal_dir_srv_docs | constructor].
  - constructor; [| constructor; [| constructor; [| constructor]]];
      repeat split; done.
  - vm_compute. reflexivity.
  - reflexivity.
  - vm_compute in Hget. injection Hget as <-. exact Hrun.
Defined.

(** ** POSIX paths: [fs2ftp] and the round trip *)

Lemma drop_app_length (a s : string) : Py.drop (String.length a) (a +:+ s) = s.
Proof. induction a as [|x a IH]; [by destruct s | exact IH]. Qed.

Lemma lstrip_not_start (c : ascii) (s : string) :
  Py.startswith s (String c "") = false -> Py.lstrip c s = s.
Proof.
  destruct s as [|x s]; [reflexivity |].
  rewrite startswith_cons, startswith_nil, Ascii.eqb_sym. cbn [Py.lstrip].
  by destruct (Ascii.eqb x c).
Qed.

Lemma replace_same (c : ascii) (s : string) : Py.replace c c s = s.
Proof.
  induction s as [|x s IH]; [reflexivity |]. cbn [Py.replace]. rewrite IH.
  by destruct (Ascii.eqb_spec x c) as [-> | ?].
Qed.

Lemma split_abs_path (k : nat) (segs : list string) :
  k = 1%nat \/ k = 2%nat -> segs <> [] -> Forall clean segs ->
  Py.split "/" (abs_path k segs)
  = match k with 1%nat => "" :: segs | _ => "" :: "" :: segs end.
Proof.
  intros Hk Hne Hall. unfold abs_path. destruct Hk as [-> | ->].
  - change (Py.times "/" 1 +:+ Py.join "/" segs)
      with (String "/" (Py.join "/" segs)).
    rewrite split_sep, split_join
      by (done || by apply Forall_clean_slashfree). reflexivity.
  - change (Py.times "/" 2 +:+ Py.join "/" segs)
      with (String "/" (String "/" (Py.join "/" segs))).
    rewrite !split_sep, split_join
      by (done || by apply Forall_clean_slashfree). reflexivity.
Qed.

(** What lies below a normalised directory in a normalised path is a
    sequence of clean segments. *)
Lemma below_normal_dir (b fspath rel : string) :
  normal_dir b -> normal_dir fspath ->
  fspath = b +:+ String "/" rel ->
  exists T, T <> [] /\ Forall clean T /\ rel = Py.join "/" T.
Proof.
  intros (k' & bsegs & Hk' & Hbne & Hball & ->)
         (k & segs & Hk & Hne & Hall & ->) Heq.
  apply (f_equal (Py.split "/")) in Heq.
  rewrite split_app_sep, !split_abs_path in Heq by done.
  exists (Py.split "/" rel). split; [apply split_nonempty |].
  split; [| by rewrite join_split].
  assert (Hsegs0 : forall l, Forall clean ("" :: l) -> False).
  { intros l [(? & _) _]%Forall_cons. done. }
  assert (Hsuffix : segs = bsegs ++ Py.split "/" rel).
  { destruct Hk as [-> | ->], Hk' as [-> | ->]; cbn [app] in Heq.
    - by injection Heq.
    - injection Heq as ->. by destruct (Hsegs0 _ Hall).
    - injection Heq as Heq. destruct bsegs as [|b0 bsegs]; [done |].
      injection Heq as <- _. by destruct (Hsegs0 _ Hball).
    - by injection Heq. }
  rewrite Hsuffix in Hall. by apply Forall_app in Hall as [_ ?].
Qed.

Lemma fs2ftp_items_posix (items : dict string) (fspath : string) :
  Forall normal_dir (dict_values items) -> normal_dir fspath ->
  (exists n b, In (n, b) items /\ within (os := posixpath) b fspath) ->
  exists n' b' T,
    In (n', b') items /\ Forall clean T
    /\ fspath = match T with
                | [] => b'
                | _ :: _ => b' +:+ "/" +:+ Py.join "/" T
                end
    /\ fs2ftp_items (os := posixpath) fspath items
       = "/" +:+ Py.join "/" (n' :: T).
Proof.
  intros Hdirs Hf. induction items as [|[n0 b0] items IH];
    intros (n & b & Hin & Hw); [done |].
  cbn [dict_values map snd] in Hdirs.
  apply Forall_cons in Hdirs as [Hb0 Hdirs].
  cbn [fs2ftp_items normcase normpath sep posixpath]. unfold posix.normcase.
  rewrite (normal_dir_normpath b0 Hb0).
  destruct (String.eqb_spec fspath b0) as [-> | Hne].
  { exists n0, b0, []. split; [by left |]. split; [constructor |]. done. }
  destruct (Py.startswith fspath (b0 +:+ String posix.sep "")) eqn:Hpre.
  { apply startswith_iff in Hpre as [rel Hrel].
    rewrite string_app_assoc in Hrel.
    change (String posix.sep "" +:+ rel) with (String "/" rel) in Hrel.
    destruct (below_normal_dir b0 fspath rel Hb0 Hf Hrel)
      as (T & HT & Hclean & ->).
    exists n0, b0, T. split; [by left |]. split; [done |].
    destruct T as [|t T]; [done |]. split; [exact Hrel |].
    rewrite Hrel at 1. rewrite drop_app_length.
    change (Py.lstrip posix.sep (String "/" (Py.join "/" (t :: T))))
      with (Py.lstrip "/" (Py.join "/" (t :: T))).
    rewrite lstrip_not_start by (by apply join_not_abs).
    unfold posix.sep. rewrite replace_same.
    by rewrite (join_cons "/" n0 (t :: T)). }
  destruct IH as (n' & b' & T & Hin' & HT & Heq & Hres); [done | |].
  { exists n, b. split; [| done]. destruct Hin as [[= -> ->] | Hin]; [| done].
    destruct Hw as [-> | Hbelow]; [done |].
    apply (startswith_below (os := posixpath)) in Hbelow.
    cbn [sep posixpath] in Hbelow. congruence. }
  exists n', b', T. split; [by right | done].
Qed.

Lemma find_mount_unique (self : MultiDirFilesystem) (m : string) :
  (forall k1 k2, In k1 (dict_keys (_dir_map self)) ->
     In k2 (dict_keys (_dir_map self)) ->
     Py.lower k1 = Py.lower k2 -> k1 = k2) ->
  In m (dict_keys (_dir_map self)) ->
  _find_mount self m = Some m.
Proof.
  intros Huniq Hin. unfold _find_mount.
  destruct (_find_mount_in _ _) as [m'|] eqn:Hfind.
  - destruct (find_mount_in_Some _ _ _ Hfind) as (pre & post & Hk & Hm' & _).
    f_equal. apply Huniq; [| done | done].
    rewrite Hk. apply in_or_app. right. by left.
  - pose proof (proj1 (find_mount_in_None _ _) Hfind m Hin). done.
Qed.

Lemma dict_get_NoDup {V} (k : string) (v : V) (d : dict V) :
  List.NoDup (dict_keys d) -> In (k, v) d -> dict_get k d = Some v.
Proof.
  induction d as [|[k' v'] d IH]; [done |]. cbn [dict_keys map fst].
  intros Hnd Hin. apply List.NoDup_cons_iff in Hnd as [Hnot Hnd]. simpl.
  destruct Hin as [[= -> ->] | Hin]; [by rewrite String.eqb_refl |].
  destruct (String.eqb_spec k' k) as [-> | _]; [| by apply IH].
  destruct Hnot. apply in_map_iff. by exists (k, v).
Qed.

(** On POSIX, when the mount directories are normalised absolute paths
    other than the filesystem root and the mount names are clean
    segments, pairwise different even up to case, every normalised real
    path that is a mount's directory or lies below one survives the
    round trip: [ftp2fs (fs2ftp R) = R]. *)
Theorem fs2ftp_ftp2fs_round_trip (self : MultiDirFilesystem)
    (name real_base fspath : string) :
  Forall normal_dir (dict_values (_dir_map self)) ->
  Forall clean (dict_keys (_dir_map self)) ->
  List.NoDup (dict_keys (_dir_map self)) ->
  (forall k1 k2, In k1 (dict_keys (_dir_map self)) ->
     In k2 (dict_keys (_dir_map self)) ->
     Py.lower k1 = Py.lower k2 -> k1 = k2) ->
  In (name, real_base) (_dir_map self) ->
  normal_dir fspath ->
  within (os := posixpath) real_base fspath ->
  ftp2fs (os := posixpath) self (fs2ftp (os := posixpath) self fspath)
  = ret fspath.
Proof.
  intros Hdirs Hnames Hnodup Hcase Hin Hf Hw.
  unfold fs2ftp. cbn [normpath posixpath].
  rewrite (normal_dir_normpath fspath Hf).
  destruct (fs2ftp_items_posix (_dir_map self) fspath Hdirs Hf)
    as (n' & b' & T & Hin' & HT & Heq & ->); [by exists name, real_base |].
  assert (Hkey : In n' (dict_keys (_dir_map self))).
  { apply in_map_iff. by exists (n', b'). }
  assert (Hn' : clean n').
  { rewrite Forall_forall in Hnames. apply Hnames. by apply list_elem_of_In. }
  assert (Hb' : normal_dir b').
  { rewrite Forall_forall in Hdirs. apply Hdirs. apply list_elem_of_In.
    by apply In_dict_values in Hin'. }
  assert (Hall : Forall clean (n' :: T)) by (by constructor).
  destruct (ftp2fs_posix self ("/" +:+ Py.join "/" (n' :: T)))
    as (comps & Hcomps & Hnorm & ->).
  assert (comps = n' :: T) as ->.
  { apply abs_path_inj; [done | done |].
    rewrite <- Hnorm. exact (ftpnorm_abs_path self (n' :: T) Hall). }
  cbv zeta. rewrite (find_mount_unique self n' Hcase Hkey).
  cbn [default from_option id].
  rewrite (dict_get_NoDup n' b' _ Hnodup Hin').
  destruct T as [|t T]; [by rewrite Heq |].
  destruct (normpath_join_normal_dir b' (t :: T) Hb' ltac:(done) HT)
    as [-> _].
  by rewrite Heq.
Qed.

Lemma fs2ftp_ftp2fs_round_trip_witness :
  let self := {| cwd := "/"; _dir_map := [("Docs", "/srv/docs")] |} in
  ftp2fs (os := posixpath) self
    (fs2ftp (os := posixpath) self "/srv/docs/b/c.txt")
  = ret "/srv/docs/b/c.txt".
Proof.
  intros self.
  apply (fs2ftp_ftp2fs_round_trip self "Docs" "/srv/docs").
  - constructor; [apply normal_dir_srv_docs | constructor].
  - constructor; [| constructor]. repeat split; done.
  - constructor; [intros [] | constructor].
  - intros k1 k2 [<- | []] [<- | []] _. reflexivity.
  - by left.
  - exists 1%nat, ["srv"; "docs"; "b"; "c.txt"].
    split; [by left |]. split; [done |]. split; [| reflexivity].
    repeat (constructor; [repeat split; done |]). constructor.
  - right. exists "b/c.txt". reflexivity.
Defined.

(** ** The configuration API of app.py *)

Lemma dict_get_pop_eq (k : string) (d : dict json) :
  dict_get k (app.pop k d) = None.
Proof.
  unfold app.pop. induction d as [|[k' v'] d IH]; [reflexivity |].
  destruct (String.eqb_spec k' k) as [-> | Hne].
  - rewrite filter_cons_False; [exact IH |].
    simpl. by rewrite String.eqb_refl.
  - rewrite filter_cons_True.
    + simpl. by destruct (String.eqb_spec k' k).
    + simpl. by destruct (String.eqb_spec k' k).
Qed.

Lemma dict_get_pop_ne (k k0 : string) (d : dict json) :
  k <> k0 -> dict_get k (app.pop k0 d) = dict_get k d.
Proof.
  intros Hne. unfold app.pop. induction d as [|[k' v'] d IH]; [reflexivity |].
  destruct (String.eqb_spec k' k0) as [-> | Hne'].
  - rewrite filter_cons_False by (simpl; by rewrite String.eqb_refl).
    simpl. by destruct (String.eqb_spec k0 k).
  - rewrite filter_cons_True by (simpl; by destruct (String.eqb_spec k' k0)).
    simpl. by rewrite IH.
Qed.

Lemma dict_get_set_eq (k : string) (v : json) (d : dict json) :
  dict_get k (app.set k v d) = Some v.
Proof.
  induction d as [|[k' v'] d IH]; simpl; [by rewrite String.eqb_refl |].
  destruct (String.eqb_spec k' k) as [-> | Hne]; simpl.
  - by rewrite String.eqb_refl.
  - by destruct (String.eqb_spec k' k).
Qed.

Lemma dict_get_set_ne (k k0 : string) (v : json) (d : dict json) :
  k <> k0 -> dict_get k (app.set k0 v d) = dict_get k d.
Proof.
  intros Hne. induction d as [|[k' v'] d IH]; simpl.
  - by destruct (String.eqb_spec k0 k).
  - destruct (String.eqb_spec k' k0) as [-> | Hne']; simpl.
    + by destruct (String.eqb_spec k0 k).
    + by rewrite IH.
Qed.

Lemma dict_get_app_None {V} (k : string) (d1 d2 : dict V) :
  dict_get k d1 = None -> dict_get k (d1 ++ d2) = dict_get k d2.
Proof.
  induction d1 as [|[k' v'] d1 IH]; [done |]. simpl.
  destruct (String.eqb k' k); [discriminate | exact IH].
Qed.

Lemma dict_get_app_Some {V} (k : string) (v : V) (d1 d2 : dict V) :
  dict_get k d1 = Some v -> dict_get k (d1 ++ d2) = Some v.
Proof.
  induction d1 as [|[k' v'] d1 IH]; [done |]. simpl.
  destruct (String.eqb k' k); [done | exact IH].
Qed.

Lemma dict_get_setdefault (k k0 : string) (v : json) (d : dict json) :
  dict_get k (app.setdefault k0 v d)
  = if String.eqb k0 k
    then Some (match dict_get k0 d with Some v0 => v0 | None => v end)
    else dict_get k d.
Proof.
  unfold app.setdefault. destruct (String.eqb_spec k0 k) as [-> | Hne].
  - destruct (dict_get k d) as [v0|] eqn:E; [done |].
    rewrite (dict_get_app_None k d _ E). simpl. by rewrite String.eqb_refl.
  - destruct (dict_get k0 d) as [v0|] eqn:E; [done |].
    destruct (dict_get k d) as [w|] eqn:E'.
    + by apply dict_get_app_Some.
    + rewrite (dict_get_app_None k d _ E'). simpl.
      by destruct (String.eqb_spec k0 k).
Qed.

Section api_save_config_props.
Context {hl : Hashlib}.

Lemma save_user_shape (old_users : app.users_index) (urandom16 : list ascii)
    (user user' : json) :
  app.save_user old_users urandom16 user = inr user' ->
  exists d d',
    user = JDict d /\ user' = JDict d'
    /\ dict_get "new_password" d' = None
    /\ dict_get "has_password" d' = None
    /\ is_Some (dict_get "password_hash" d')
    /\ (forall k, k <> "new_password" -> k <> "has_password" ->
          k <> "password_hash" -> dict_get k d' = dict_get k d).
Proof.
  destruct user as [| | | |l|d]; try discriminate. unfold app.save_user.
  set (d0 := app.pop "has_password" (app.pop "new_password" d)).
  assert (H0new : dict_get "new_password" d0 = None).
  { unfold d0. rewrite dict_get_pop_ne by done. apply dict_get_pop_eq. }
  assert (H0has : dict_get "has_password" d0 = None)
    by apply dict_get_pop_eq.
  assert (H0other : forall k, k <> "new_password" -> k <> "has_password" ->
                      dict_get k d0 = dict_get k d).
  { intros k H1 H2. unfold d0. by rewrite !dict_get_pop_ne. }
  assert (Hset : forall v, 
    dict_get "new_password" (app.set "password_hash" v d0) = None
    /\ dict_get "has_password" (app.set "password_hash" v d0) = None
    /\ is_Some (dict_get "password_hash" (app.set "password_hash" v d0))
    /\ (forall k, k <> "new_password" -> k <> "has_password" ->
          k <> "password_hash" ->
          dict_get k (app.set "password_hash" v d0) = dict_get k d)).
  { intros v. rewrite !dict_get_set_ne by done. rewrite dict_get_set_eq.
    repeat split; try done.
    intros k H1 H2 H3. rewrite dict_get_set_ne by done. by apply H0other. }
  destruct (app.truthy _).
  - destruct (app.get "new_password" JNull d); try discriminate.
    intros [= <-]. eexists d, _. split; [done |]. split; [done |]. apply Hset.
  - destruct (app.hashkey _) as [e | k]; [discriminate |].
    destruct (app.index_lookup k old_users) as [old |].
    + destruct (dict_get "username" d0) as [name |]; [| discriminate].
      destruct (app.hashkey name) as [e | k']; [discriminate |].
      destruct (app.index_lookup k' old_users) as [old' |]; [| discriminate].
      intros [= <-]. eexists d, _. split; [done |]. split; [done |].
      apply Hset.
    + intros [= <-]. eexists d, _. split; [done |]. split; [done |].
      split; [by rewrite dict_get_setdefault |].
      split; [by rewrite dict_get_setdefault |].
      split; [rewrite dict_get_setdefault; by eexists |].
      intros k' H1 H2 H3. rewrite dict_get_setdefault.
      destruct (String.eqb_spec "password_hash" k'); [done |].
      by apply H0other.
Qed.

Lemma save_users_lookup (old_users : app.users_index)
    (urandom : nat -> list ascii) (users : list json) :
  forall (n : nat) (users' : list json),
  app.save_users old_users urandom n users = inr users' ->
  List.length users' = List.length users
  /\ (forall i u, users !! i = Some u ->
        exists u', users' !! i = Some u'
          /\ app.save_user old_users (urandom (n + i)%nat) u = inr u').
Proof.
  induction users as [|u users IH]; intros n users'.
  - intros [= <-]. split; [done |]. intros i u Hu. by destruct i.
  - cbn [app.save_users].
    destruct (app.save_user old_users (urandom n) u) as [e | u1] eqn:Hu1;
      [discriminate |].
    destruct (app.save_users old_users urandom (S n) users) as [e | rest]
      eqn:Hrest; [discriminate |].
    intros [= <-]. destruct (IH _ _ Hrest) as [Hlen Hall].
    split; [simpl; by rewrite Hlen |].
    intros [|i] v Hv.
    + injection Hv as <-. exists u1. split; [done |].
      by rewrite Nat.add_0_r.
    + destruct (Hall i v Hv) as (u' & Hu' & Hsave). exists u'.
      split; [done |]. by rewrite Nat.add_succ_r.
Qed.

(** What a successful [api_save_config] wrote, when the request names
    its users in a list. *)
Lemma api_save_config_saved (urandom : nat -> list ascii)
    (config : dict json) (users : list json) (file file' : option json) :
  app.api_save_config urandom (JDict config) file = (inr app.Saved, file') ->
  dict_get "users" config = Some (JList users) ->
  exists old_users users',
    file' = Some (JDict (app.set "users" (JList users') config))
    /\ app.save_users old_users urandom 0 users = inr users'
    /\ (exists old_list,
          app.iter (match file with
                    | Some (JDict c) => app.get "users" (JList []) c
                    | _ => JList []
                    end) = inr old_list
          /\ app.index_users old_list = inr old_users).
Proof.
  intros Hrun Husers. unfold app.api_save_config in Hrun.
  destruct (app.truthy (JDict config)); [| discriminate]. cbn [negb] in Hrun.
  destruct (app.get_attr _ _ _) as [e | old_list] eqn:Hold; [discriminate |].
  destruct (app.iter old_list) as [e | old] eqn:Hiter; [discriminate |].
  destruct (app.index_users old) as [e | old_users] eqn:Hix; [discriminate |].
  unfold app.get in Hrun at 1. rewrite Husers in Hrun. cbn [app.iter] in Hrun.
  destruct (app.save_users old_users urandom 0 users) as [e | users'] eqn:Hsave;
    [discriminate |].
  injection Hrun as <-. exists old_users, users'.
  unfold app.with_users. rewrite Husers. split; [done |]. split; [done |].
  exists old. split; [| done].
  destruct file as [[| | | | |c] |]; try discriminate; cbn in Hold;
    injection Hold as <-; exact Hiter.
Qed.

(** [api_save_config] never writes a plaintext password: after a
    successful save of a request that lists its users, the file holds the
    request with every user object stripped of ["new_password"] and
    ["has_password"], given a ["password_hash"], and otherwise as the
    client sent it; the other keys of the configuration are as sent. *)
Theorem api_save_config_writes_no_plaintext (urandom : nat -> list ascii)
    (config : dict json) (users : list json) (file file' : option json) :
  app.api_save_config urandom (JDict config) file = (inr app.Saved, file') ->
  dict_get "users" config = Some (JList users) ->
  exists config' users',
    file' = Some (JDict config')
    /\ dict_get "users" config' = Some (JList users')
    /\ (forall k, k <> "users" -> dict_get k config' = dict_get k config)
    /\ List.length users' = List.length users
    /\ (forall i u', users' !! i = Some u' ->
          exists d d',
            users !! i = Some (JDict d) /\ u' = JDict d'
            /\ dict_get "new_password" d' = None
            /\ dict_get "has_password" d' = None
            /\ is_Some (dict_get "password_hash" d')
            /\ (forall k, k <> "new_password" -> k <> "has_password" ->
                  k <> "password_hash" -> dict_get k d' = dict_get k d)).
Proof.
  intros Hrun Husers.
  destruct (api_save_config_saved urandom config users file file' Hrun Husers)
    as (old_users & users' & -> & Hsave & _).
  destruct (save_users_lookup _ _ _ _ _ Hsave) as [Hlen Hall].
  eexists _, users'. split; [reflexivity |].
  split; [apply dict_get_set_eq |].
  split; [intros k Hk; by apply dict_get_set_ne |].
  split; [done |]. intros i u' Hu'.
  destruct (users !! i) as [u |] eqn:Hu.
  - destruct (Hall i u Hu) as (u'' & Hu'' & Hone).
    assert (u'' = u') as -> by congruence.
    destruct (save_user_shape _ _ _ _ Hone)
      as (d & d' & -> & -> & H1 & H2 & H3 & H4).
    by exists d, d'.
  - apply lookup_ge_None_1 in Hu. apply lookup_lt_Some in Hu'. lia.
Qed.

End api_save_config_props.

Lemma index_lookup_app (k : app.key) (ix1 ix2 : app.users_index) :
  app.index_lookup k (ix1 ++ ix2)
  = match app.index_lookup k ix2 with
    | Some u => Some u
    | None => app.index_lookup k ix1
    end.
Proof.
  induction ix1 as [|[k1 u1] ix1 IH]; simpl.
  - by destruct (app.index_lookup k ix2).
  - rewrite IH. by destruct (app.index_lookup k ix2).
Qed.

Lemma index_users_app (l1 l2 : list json) (ix : app.users_index) :
  app.index_users (l1 ++ l2) = inr ix ->
  exists ix1 ix2, app.index_users l1 = inr ix1
    /\ app.index_users l2 = inr ix2 /\ ix = ix1 ++ ix2.
Proof.
  revert ix. induction l1 as [|u l1 IH]; intros ix.
  - intros Hix. by exists [], ix.
  - cbn [app app.index_users].
    destruct u as [| | | | |d]; try discriminate.
    destruct (dict_get "username" d) as [name |]; [| discriminate].
    destruct (app.hashkey name) as [e | k]; [discriminate |].
    destruct (app.index_users (l1 ++ l2)) as [e | ix'] eqn:Hrest;
      [discriminate |].
    intros [= <-]. destruct (IH ix' eq_refl) as (ix1 & ix2 & -> & H2 & ->).
    by exists ((k, d) :: ix1), ix2.
Qed.

Lemma hashkey_KStr (v : json) (name : string) :
  app.hashkey v = inr (app.KStr name) -> v = JStr name.
Proof. destruct v as [| [] | | | |]; simpl; congruence. Qed.

Lemma index_lookup_absent (l : list json) (ix : app.users_index)
    (name : string) :
  app.index_users l = inr ix ->
  (forall d, In (JDict d) l -> dict_get "username" d <> Some (JStr name)) ->
  app.index_lookup (app.KStr name) ix = None.
Proof.
  revert ix. induction l as [|u l IH]; intros ix.
  - by intros [= <-].
  - cbn [app.index_users].
    destruct u as [| | | | |d]; try discriminate.
    destruct (dict_get "username" d) as [v |] eqn:Hv; [| discriminate].
    destruct (app.hashkey v) as [e | k] eqn:Hk; [discriminate |].
    destruct (app.index_users l) as [e | ix'] eqn:Hrest; [discriminate |].
    intros [= <-] Habs. cbn [app.index_lookup].
    rewrite (IH ix' eq_refl) by (intros d' Hd'; apply Habs; by right).
    destruct k as [| z | s]; try reflexivity. cbn [app.key_eqb].
    destruct (String.eqb_spec s name) as [-> | _]; [| done].
    apply hashkey_KStr in Hk as ->. destruct (Habs d); [by left | done].
Qed.

Lemma index_lookup_last (pre post : list json) (old : dict json)
    (ix : app.users_index) (name : string) :
  app.index_users (pre ++ JDict old :: post) = inr ix ->
  dict_get "username" old = Some (JStr name) ->
  (forall d, In (JDict d) post -> dict_get "username" d <> Some (JStr name)) ->
  app.index_lookup (app.KStr name) ix = Some old.
Proof.
  intros Hix Hname Hpost.
  apply index_users_app in Hix as (ix1 & ix2 & _ & Hix2 & ->).
  cbn [app.index_users] in Hix2. rewrite Hname in Hix2. cbn in Hix2.
  destruct (app.index_users post) as [e | ixp] eqn:Hp; [discriminate |].
  injection Hix2 as <-. rewrite index_lookup_app. cbn [app.index_lookup].
  rewrite (index_lookup_absent post ixp name Hp Hpost).
  cbn [app.key_eqb]. by rewrite String.eqb_refl.
Qed.

Section api_save_config_verifiers.

(** A new password reaches the file only as a verifier, and that
    verifier works: a user object saved with a non-empty string
    ["new_password"] gets as ["password_hash"] the verifier
    [hash_password] makes for it, and any authorizer holding that
    verifier authenticates the password. *)
Theorem api_save_config_new_password_logs_in (urandom : nat -> list ascii)
    (config : dict json) (users : list json) (file file' : option json)
    (i : nat) (d : dict json) (pw : string) :
  app.api_save_config (H := hashlib) urandom (JDict config) file
    = (inr app.Saved, file') ->
  dict_get "users" config = Some (JList users) ->
  users !! i = Some (JDict d) ->
  dict_get "new_password" d = Some (JStr pw) -> pw <> "" ->
  exists config' users' d',
    file' = Some (JDict config')
    /\ dict_get "users" config' = Some (JList users')
    /\ users' !! i = Some (JDict d')
    /\ dict_get "password_hash" d'
       = Some (JStr (hash_password (H := hashlib) (urandom i) pw))
    /\ (forall self name u,
          user_table self !! name = Some u ->
          pwd u = hash_password (H := hashlib) (urandom i) pw ->
          (validate_authentication (H := hashlib) self name pw).1 = ret tt).
Proof.
  intros Hrun Husers Hi Hnew Hpw.
  destruct (api_save_config_saved urandom config users file file' Hrun Husers)
    as (old_users & users' & -> & Hsave & _).
  destruct (save_users_lookup _ _ _ _ _ Hsave) as [_ Hall].
  destruct (Hall i _ Hi) as (u' & Hu' & Hone). cbn [Nat.add] in Hone.
  unfold app.save_user, app.get in Hone. rewrite Hnew in Hone.
  assert (Htruthy : app.truthy (JStr pw) = true) by (by destruct pw).
  rewrite Htruthy in Hone. injection Hone as <-.
  eexists _, users', _. split; [reflexivity |].
  split; [apply dict_get_set_eq |]. split; [exact Hu' |].
  split; [apply dict_get_set_eq |].
  intros self name u Hu Hv.
  rewrite (validate_authentication_hashed self name pw pw (urandom i) u Hu Hv).
  by rewrite String.eqb_refl.
Qed.

(** Without a new password, a user the old configuration knows keeps the
    old verifier, whatever ["password_hash"] the request carries: the
    saved object has the ["password_hash"] of the last old user object
    with the same name ([""] if that one has none). *)
Theorem api_save_config_keeps_verifier `{Hashlib}
    (urandom : nat -> list ascii)
    (config old_config : dict json) (users pre post : list json)
    (file' : option json) (i : nat) (d old : dict json) (name : string) :
  app.api_save_config urandom (JDict config) (Some (JDict old_config))
    = (inr app.Saved, file') ->
  dict_get "users" config = Some (JList users) ->
  users !! i = Some (JDict d) ->
  app.truthy (app.get "new_password" JNull d) = false ->
  dict_get "username" d = Some (JStr name) ->
  dict_get "users" old_config = Some (JList (pre ++ JDict old :: post)) ->
  dict_get "username" old = Some (JStr name) ->
  (forall d2, In (JDict d2) post ->
     dict_get "username" d2 <> Some (JStr name)) ->
  exists config' users' d',
    file' = Some (JDict config')
    /\ dict_get "users" config' = Some (JList users')
    /\ users' !! i = Some (JDict d')
    /\ dict_get "password_hash" d'
       = Some (app.get "password_hash" (JStr "") old).
Proof.
  intros Hrun Husers Hi Hnopw Hname Hold Holdname Hpost.
  destruct (api_save_config_saved urandom config users _ file' Hrun Husers)
    as (old_users & users' & -> & Hsave & old_list & Hiter & Hix).
  unfold app.get in Hiter at 1. rewrite Hold in Hiter. cbn in Hiter.
  injection Hiter as <-.
  pose proof (index_lookup_last pre post old old_users name Hix Holdname Hpost)
    as Hlook.
  destruct (save_users_lookup _ _ _ _ _ Hsave) as [_ Hall].
  destruct (Hall i _ Hi) as (u' & Hu' & Hone). cbn [Nat.add] in Hone.
  unfold app.save_user in Hone. rewrite Hnopw in Hone.
  assert (Hname0 : dict_get "username"
                     (app.pop "has_password" (app.pop "new_password" d))
                   = Some (JStr name))
    by (by rewrite !dict_get_pop_ne).
  unfold app.get in Hone at 1. rewrite Hname0 in Hone.
  cbn [app.hashkey] in Hone. rewrite Hlook in Hone. injection Hone as <-.
  eexists _, users', _. split; [reflexivity |].
  split; [apply dict_get_set_eq |]. split; [exact Hu' |].
  apply dict_get_set_eq.
Qed.

(** Without a new password, a user the old configuration does not know
    is saved with the ["password_hash"] the request carries for it, and
    with the empty verifier when it carries none. *)
Theorem api_save_config_unknown_user `{Hashlib}
    (urandom : nat -> list ascii)
    (config old_config : dict json) (users old_list : list json)
    (file' : option json) (i : nat) (d : dict json) (name : string) :
  app.api_save_config urandom (JDict config) (Some (JDict old_config))
    = (inr app.Saved, file') ->
  dict_get "users" config = Some (JList users) ->
  users !! i = Some (JDict d) ->
  app.truthy (app.get "new_password" JNull d) = false ->
  dict_get "username" d = Some (JStr name) ->
  dict_get "users" old_config = Some (JList old_list) ->
  (forall d2, In (JDict d2) old_list ->
     dict_get "username" d2 <> Some (JStr name)) ->
  exists config' users' d',
    file' = Some (JDict config')
    /\ dict_get "users" config' = Some (JList users')
    /\ users' !! i = Some (JDict d')
    /\ dict_get "password_hash" d'
       = Some (app.get "password_hash" (JStr "") d).
Proof.
  intros Hrun Husers Hi Hnopw Hname Hold Habsent.
  destruct (api_save_config_saved urandom config users _ file' Hrun Husers)
    as (old_users & users' & -> & Hsave & old_list' & Hiter & Hix).
  unfold app.get in Hiter at 1. rewrite Hold in Hiter. cbn in Hiter.
  injection Hiter as <-.
  pose proof (index_lookup_absent old_list old_users name Hix Habsent)
    as Hlook.
  destruct (save_users_lookup _ _ _ _ _ Hsave) as [_ Hall].
  destruct (Hall i _ Hi) as (u' & Hu' & Hone). cbn [Nat.add] in Hone.
  unfold app.save_user in Hone. rewrite Hnopw in Hone.
  assert (Hname0 : dict_get "username"
                     (app.pop "has_password" (app.pop "new_password" d))
                   = Some (JStr name))
    by (by rewrite !dict_get_pop_ne).
  unfold app.get in Hone at 1. rewrite Hname0 in Hone.
  cbn [app.hashkey] in Hone. rewrite Hlook in Hone. injection Hone as <-.
  eexists _, users', _. split; [reflexivity |].
  split; [apply dict_get_set_eq |]. split; [exact Hu' |].
  rewrite dict_get_setdefault. cbn [String.eqb Ascii.eqb Bool.eqb].
  rewrite !dict_get_pop_ne by done. unfold app.get.
  by destruct (dict_get "password_hash" d).
Qed.

End api_save_config_verifiers.

Lemma strip_users_lookup (users users' : list json) :
  app.strip_users users = inr users' ->
  List.length users' = List.length users
  /\ (forall i u, users !! i = Some u ->
        exists u', users' !! i = Some u' /\ app.strip_user u = inr u').
Proof.
  revert users'. induction users as [|u0 users IH]; intros users'.
  - intros [= <-]. split; [done |]. intros i u Hu. by destruct i.
  - cbn [app.strip_users].
    destruct (app.strip_user u0) as [e | u0'] eqn:H0; [discriminate |].
    destruct (app.strip_users users) as [e | rest'] eqn:Hrest;
      [discriminate |].
    intros [= <-]. destruct (IH rest' eq_refl) as [Hlen Hall].
    split; [simpl; by rewrite Hlen |].
    intros [|i] u Hu.
    + injection Hu as <-. by exists u0'.
    + by apply Hall.
Qed.

(** [api_get_config] never shows a verifier: in an answer, no user
    object has a ["password_hash"]; its ["has_password"] tells whether
    the file has a non-empty verifier for it, and all else is as in the
    file. *)
Theorem api_get_config_hides_verifiers (file : option json) (body : json) :
  app.api_get_config file = inr body ->
  exists config config',
    file = Some (JDict config) /\ body = JDict config'
    /\ (forall k, k <> "users" -> dict_get k config' = dict_get k config)
    /\ (forall users, dict_get "users" config = Some (JList users) ->
          exists users',
            dict_get "users" config' = Some (JList users')
            /\ List.length users' = List.length users
            /\ (forall i u, users !! i = Some u ->
                  exists d d',
                    u = JDict d /\ users' !! i = Some (JDict d')
                    /\ dict_get "password_hash" d' = None
                    /\ dict_get "has_password" d'
                       = Some (JBool (app.truthy
                                 (app.get "password_hash" (JStr "") d)))
                    /\ (forall k, k <> "password_hash" ->
                          k <> "has_password" ->
                          dict_get k d' = dict_get k d))).
Proof.
  unfold app.api_get_config.
  destruct file as [[| | | | |config] |]; try discriminate.
  destruct (app.iter _) as [e | users0] eqn:Hiter; [discriminate |].
  destruct (app.strip_users users0) as [e | users'] eqn:Hstrip;
    [discriminate |].
  intros [= <-]. exists config, (app.with_users users' config).
  split; [done |]. split; [done |]. split.
  - intros k Hk. unfold app.with_users.
    destruct (dict_get "users" config) as [[| | | | l |] |]; try done.
    by apply dict_get_set_ne.
  - intros users Husers. unfold app.get in Hiter. unfold app.with_users.
    unfold dict in *. rewrite Husers in Hiter |- *.
    injection Hiter as <-.
    destruct (strip_users_lookup _ _ Hstrip) as [Hlen Hall].
    exists users'. split; [apply dict_get_set_eq |]. split; [done |].
    intros i u Hu. destruct (Hall i u Hu) as (u' & Hu' & Hone).
    unfold app.strip_user, app.get_attr in Hone.
    destruct u as [| | | | |d]; try discriminate. injection Hone as <-.
    eexists d, _. split; [done |]. split; [exact Hu' |].
    split; [apply dict_get_pop_eq |].
    split; [rewrite dict_get_pop_ne by done; apply dict_get_set_eq |].
    intros k H1 H2. rewrite dict_get_pop_ne by done.
    by apply dict_get_set_ne.
Qed.

Lemma api_get_config_hides_verifiers_witness :
  let file :=
    Some (JDict [("port", JInt 2121);
                 ("users",
                  JList [JDict [("username", JStr "admin");
                                ("password_hash", JStr "ab$cd")];
                         JDict [("username", JStr "guest")]])]) in
  let body :=
    JDict [("port", JInt 2121);
           ("users",
            JList [JDict [("username", JStr "admin");
                          ("has_password", JBool true)];
                   JDict [("username", JStr "guest");
                          ("has_password", JBool false)]])] in
  exists config config',
    file = Some (JDict config) /\ body = JDict config'
    /\ (forall k, k <> "users" -> dict_get k config' = dict_get k config)
    /\ (forall users, dict_get "users" config = Some (JList users) ->
          exists users',
            dict_get "users" config' = Some (JList users')
            /\ List.length users' = List.length users
            /\ (forall i u, users !! i = Some u ->
                  exists d d',
                    u = JDict d /\ users' !! i = Some (JDict d')
                    /\ dict_get "password_hash" d' = None
                    /\ dict_get "has_password" d'
                       = Some (JBool (app.truthy
                                 (app.get "password_hash" (JStr "") d)))
                    /\ (forall k, k <> "password_hash" ->
                          k <> "has_password" ->
                          dict_get k d' = dict_get k d))).
Proof.
  intros file body.
  apply (api_get_config_hides_verifiers file body).
  reflexivity.
Defined.

Lemma api_save_config_writes_no_plaintext_witness :
  let urandom := fun _ : nat => repeat "000"%char 16 in
  let users :=
    [JDict [("username", JStr "admin"); ("has_password", JBool true);
            ("new_password", JStr ""); ("permissions", JStr "elr")]] in
  let config := [("port", JInt 2121); ("users", JList users)] in
  let file :=
    Some (JDict [("users",
                  JList [JDict [("username", JStr "admin");
                                ("password_hash", JStr "ab$cd")]])]) in
  let file' :=
    Some (JDict [("port", JInt 2121);
                 ("users",
                  JList [JDict [("username", JStr "admin");
                                ("permissions", JStr "elr");
                                ("password_hash", JStr "ab$cd")]])]) in
  exists config' users',
    file' = Some (JDict config')
    /\ dict_get "users" config' = Some (JList users')
    /\ (forall k, k <> "users" -> dict_get k config' = dict_get k config)
    /\ List.length users' = List.length users
    /\ (forall i u', users' !! i = Some u' ->
          exists d d',
            users !! i = Some (JDict d) /\ u' = JDict d'
            /\ dict_get "new_password" d' = None
            /\ dict_get "has_password" d' = None
            /\ is_Some (dict_get "password_hash" d')
            /\ (forall k, k <> "new_password" -> k <> "has_password" ->
                  k <> "password_hash" -> dict_get k d' = dict_get k d)).
Proof.
  intros urandom users config file file'.
  apply (api_save_config_writes_no_plaintext (hl := hashlib)
           urandom config users file file').
  - reflexivity.
  - reflexivity.
Defined.

Lemma api_save_config_new_password_logs_in_witness :
  let urandom := fun _ : nat => repeat "000"%char 16 in
  let d := [("username", JStr "admin"); ("new_password", JStr "s3cret")] in
  let users := [JDict d] in
  let config := [("users", JList users)] in
  let file' :=
    (app.api_save_config (H := hashlib) urandom (JDict config) None).2 in
  exists config' users' d',
    file' = Some (JDict config')
    /\ dict_get "users" config' = Some (JList users')
    /\ users' !! 0%nat = Some (JDict d')
    /\ dict_get "password_hash" d'
       = Some (JStr (hash_password (H := hashlib) (urandom 0%nat) "s3cret"))
    /\ (forall self name u,
          user_table self !! name = Some u ->
          pwd u = hash_password (H := hashlib) (urandom 0%nat) "s3cret" ->
          (validate_authentication (H := hashlib) self name "s3cret").1
          = ret tt).
Proof.
  intros urandom d users config file'.
  apply (api_save_config_new_password_logs_in
           urandom config users None file' 0 d "s3cret").
  - vm_compute. reflexivity.
  - reflexivity.
  - reflexivity.
  - reflexivity.
  - discriminate.
Defined.

Lemma api_save_config_keeps_verifier_witness :
  let urandom := fun _ : nat => repeat "000"%char 16 in
  let d := [("username", JStr "admin"); ("password_hash", JStr "forged")] in
  let old := [("username", JStr "admin"); ("password_hash", JStr "ab$cd")] in
  let file' :=
    Some (JDict [("users",
                  JList [JDict [("username", JStr "admin");
                                ("password_hash", JStr "ab$cd")]])]) in
  exists config' users' d',
    file' = Some (JDict config')
    /\ dict_get "users" config' = Some (JList users')
    /\ users' !! 0%nat = Some (JDict d')
    /\ dict_get "password_hash" d'
       = Some (app.get "password_hash" (JStr "") old).
Proof.
  intros urandom d old file'.
  apply (api_save_config_keeps_verifier (H := hashlib) urandom
           [("users", JList [JDict d])] [("users", JList [JDict old])]
           [JDict d] [] [] file' 0 d old "admin").
  - reflexivity.
  - reflexivity.
  - reflexivity.
  - reflexivity.
  - reflexivity.
  - reflexivity.
  - reflexivity.
  - intros d2 [].
Defined.

Lemma api_save_config_unknown_user_witness :
  let urandom := fun _ : nat => repeat "000"%char 16 in
  let d := [("username", JStr "eve"); ("password_hash", JStr "ab$cd")] in
  let old := [("username", JStr "admin"); ("password_hash", JStr "12$34")] in
  let file' :=
    Some (JDict [("users",
                  JList [JDict [("username", JStr "eve");
                                ("password_hash", JStr "ab$cd")]])]) in
  exists config' users' d',
    file' = Some (JDict config')
    /\ dict_get "users" config' = Some (JList users')
    /\ users' !! 0%nat = Some (JDict d')
    /\ dict_get "password_hash" d'
       = Some (app.get "password_hash" (JStr "") d).
Proof.
  intros urandom d old file'.
  apply (api_save_config_unknown_user (H := hashlib) urandom
           [("users", JList [JDict d])] [("users", JList [JDict old])]
           [JDict d] [JDict old] file' 0 d "eve").
  - reflexivity.
  - reflexivity.
  - reflexivity.
  - reflexivity.
  - reflexivity.
  - reflexivity.
  - intros d2 [[= <-] | []]. discriminate.
Defined.

(** ** app.py: starting the FTP server *)

Section api_start_props.
Context {os : OsPath} {osf : OsFiles} {net : OsNet} {bi : Builtins}.

Lemma add_user_ok (self self' : HashedAuthorizer)
    (username password_hash homedir perm : string) :
  add_user self username password_hash homedir perm = ret self' ->
  has_user self username = false /\ valid_perm perm.
Proof.
  unfold add_user. destruct (has_user self username); [discriminate |].
  destruct (_check_permissions username perm) as [e | []] eqn:Hchk;
    [discriminate |].
  intros _. split; [done |]. by apply check_permissions_ok_valid in Hchk.
Qed.

(** A loop over the users that ends well met only well-formed records
    with fresh, pairwise different names. *)
Lemma setup_users_ok (users : list user_cfg) :
  forall (self self' : HashedAuthorizer) (reg reg' : registry),
  setup_users users self reg = (ret self', reg') ->
  Forall well_formed users
  /\ NoDup (usernames users)
  /\ (forall n, n ∈ usernames users -> has_user self n = false).
Proof.
  induction users as [|c users IH]; intros self self' reg reg' Hrun.
  - split; [constructor |]. split; [constructor |].
    intros n Hn. by apply elem_of_nil in Hn.
  - cbn [setup_users] in Hrun. unfold setup_user in Hrun.
    destruct (cfg_username c) as [name |] eqn:Hname; [| discriminate].
    destruct (add_user self name _ _ _) as [e | self1] eqn:Hadd;
      [discriminate |].
    apply add_user_ok in Hadd as Hok. destruct Hok as [Hnew Hperm].
    unfold add_user in Hadd. rewrite Hnew in Hadd.
    rewrite (check_permissions_valid _ _ Hperm) in Hadd.
    injection Hadd as <-.
    destruct (IH _ _ _ _ Hrun) as (Hwf & Hnd & Hfresh).
    unfold usernames in *. simpl. rewrite Hname.
    split; [constructor; [split; [by eexists | done] | done] |].
    assert (Hnotin : name ∉ omap cfg_username users).
    { intros Hin. specialize (Hfresh name Hin).
      rewrite has_user_insert in Hfresh.
      by rewrite (bool_decide_eq_true_2 (name = name)) in Hfresh. }
    split; [by constructor |].
    intros n Hn. apply elem_of_cons in Hn as [-> | Hn]; [done |].
    specialize (Hfresh n Hn). rewrite has_user_insert in Hfresh.
    by apply orb_false_elim in Hfresh as [_ ?].
Qed.

(** The loop writes the registry at the names of its records only. *)
Lemma setup_users_registry_names (users : list user_cfg) :
  forall (self : HashedAuthorizer) (reg : registry) (name : string),
  name ∉ usernames users ->
  (setup_users users self reg).2 !! name = reg !! name.
Proof.
  induction users as [|c users IH]; intros self reg name Hname;
    [reflexivity |].
  cbn [setup_users]. unfold setup_user.
  unfold usernames in *. simpl in Hname.
  destruct (cfg_username c) as [n |]; [| reflexivity].
  apply not_elem_of_cons in Hname as [Hne Hname].
  destruct (add_user self n _ _ _) as [e | self1]; simpl.
  - by rewrite lookup_insert_ne.
  - rewrite IH by done. by rewrite lookup_insert_ne.
Qed.

Lemma setup_server_registry_names (config : config) (w : world)
    (name : string) :
  name ∉ usernames (default [] (cfg_users config)) ->
  USER_DIR_MAP (setup_server config w).2 !! name = USER_DIR_MAP w !! name.
Proof.
  intros Hname. unfold setup_server.
  destruct (validate_directories _ (disk w)) as [[e | []] d']; [reflexivity |].
  pose proof (setup_users_registry_names (default [] (cfg_users config))
                HashedAuthorizer_init (USER_DIR_MAP w) name Hname) as Hreg.
  destruct (setup_users _ _ _) as [[e | self'] reg']; [exact Hreg |].
  by destruct (bind_and_listen _ (sockets w)) as [[e | []] n'].
Qed.

(** A bootstrap that ends well, taken apart. *)
Lemma setup_server_ok (config : config) (w w' : world) (srv : FTPServer) :
  setup_server config w = (ret srv, w') ->
  setup_users (default [] (cfg_users config)) HashedAuthorizer_init
    (USER_DIR_MAP w) = (ret (authorizer srv), USER_DIR_MAP w')
  /\ address srv = (default "0.0.0.0" (cfg_host config),
                    default 2121%Z (cfg_port config)).
Proof.
  unfold setup_server.
  destruct (validate_directories _ (disk w)) as [[e | []] d']; [discriminate |].
  destruct (setup_users _ _ _) as [[e | self'] reg']; [discriminate |].
  destruct (bind_and_listen _ (sockets w)) as [[e | []] n']; [discriminate |].
  intros [= <- <-]. by split.
Qed.

Variable time_sleep : Disk -> Net -> Disk * Net.

Lemma sleep_registry (w : world) :
  USER_DIR_MAP (sleep time_sleep w) = USER_DIR_MAP w.
Proof. unfold sleep. by destruct (time_sleep _ _). Qed.

(** Every attempt starts with a registry that names configured users
    only, and the server returned is that of the last attempt. *)
Lemma start_attempts_ok (config : config) (attempts : nat) :
  forall (last_err : option exn) (w w' : world) (srv : FTPServer),
  start_attempts time_sleep attempts config last_err w = (ret srv, w') ->
  (forall name, name ∉ usernames (default [] (cfg_users config)) ->
     USER_DIR_MAP w !! name = None) ->
  exists w1,
    setup_server config w1 = (ret srv, w')
    /\ (forall name, name ∉ usernames (default [] (cfg_users config)) ->
          USER_DIR_MAP w1 !! name = None).
Proof.
  induction attempts as [|n IH]; intros last_err w w' srv Hrun Hinv.
  - simpl in Hrun. by destruct last_err.
  - cbn [start_attempts] in Hrun.
    destruct (setup_server config w) as [[e | srv1] w1] eqn:Hone.
    + destruct e; try discriminate.
      destruct (addr_in_use errno); [| discriminate].
      apply IH in Hrun; [exact Hrun |].
      intros name Hname. rewrite sleep_registry.
      replace w1 with (setup_server config w).2 by (by rewrite Hone).
      rewrite setup_server_registry_names by done. by apply Hinv.
    + injection Hrun as <- <-. by exists w.
Qed.

(** When [api_start] answers "started", however many attempts it took,
    the configuration is one [setup_server] accepts (well-formed
    records, pairwise different names), the server listens on the
    configured address, its authorizer knows exactly the configured
    users, and the registry maps exactly these to their directories:
    what an earlier run had registered is gone. *)
Theorem api_start_registers_configured_users (file : option config)
    (st st' : process) (port : Z) :
  api_start time_sleep file st = (Started port, st') ->
  exists config users srv,
    file = Some config /\ cfg_users config = Some users
    /\ Forall well_formed users /\ NoDup (usernames users)
    /\ port = default 2121%Z (cfg_port config)
    /\ _ftp_server st' = Some srv /\ serving st' = true
    /\ address srv = (default "0.0.0.0" (cfg_host config), port)
    /\ (forall c name, c ∈ users -> cfg_username c = Some name ->
          user_table (authorizer srv) !! name = Some (user_of_cfg c)
          /\ USER_DIR_MAP (env st') !! name
             = Some (default [] (cfg_directories c)))
    /\ (forall name, name ∉ usernames users ->
          user_table (authorizer srv) !! name = None
          /\ USER_DIR_MAP (env st') !! name = None).
Proof.
  unfold api_start. destruct (serving st); [discriminate |].
  destruct file as [config |]; [| discriminate].
  destruct (cfg_users config) as [users |] eqn:Husers; [| discriminate].
  destruct users as [|c0 users0]; [discriminate |].
  set (users := c0 :: users0) in *.
  destruct (start_attempts _ _ _ _ _) as [[e | srv] w'] eqn:Hrun;
    [discriminate |].
  intros [= <- <-].
  destruct (start_attempts_ok _ _ _ _ _ _ Hrun) as (w1 & Hone & Hinv);
    [done |].
  rewrite Husers in Hinv. cbn [default] in Hinv.
  destruct (setup_server_ok _ _ _ _ Hone) as [Hloop Haddr].
  rewrite Husers in Hloop. cbn [default] in Hloop.
  destruct (setup_users_ok _ _ _ _ _ Hloop) as (Hwf & Hnd & Hfresh).
  destruct (setup_users_table users HashedAuthorizer_init (USER_DIR_MAP w1)
              Hwf Hnd Hfresh) as (self' & Heq & Hin & Hout).
  pose proof (eq_trans (eq_sym Hloop) Heq) as Hboth.
  injection Hboth as Hself Hreg. subst self'.
  change (USER_DIR_MAP w'
          = fold_left register_dirs users (USER_DIR_MAP w1)) in Hreg.
  unfold id in *.
  exists config, users, srv. cbn [_ftp_server serving env].
  split; [done |]. split; [done |]. split; [done |]. split; [done |].
  split; [done |]. split; [done |]. split; [done |]. split; [done |].
  split.
  - intros c name Hc Hname. split; [by apply Hin |].
    rewrite Hreg. by apply register_dirs_unique.
  - intros name Hname. split; [by rewrite Hout |].
    rewrite Hreg, register_dirs_other by done. by apply Hinv.
Qed.

End api_start_props.

Lemma api_start_registers_configured_users_witness :
  let alice :=
    {| cfg_username := Some "alice"; cfg_password_hash := Some "ab$cd";
       cfg_permissions := Some "elrw";
       cfg_directories := Some [("docs", "/srv/docs")] |} in
  let cfg :=
    {| cfg_users := Some [alice];
       cfg_banner := None; cfg_passive_ports := None; cfg_host := None;
       cfg_port := None; cfg_max_connections := None;
       cfg_max_connections_per_ip := None |} in
  (* the port is taken at first and free after one second *)
  let w := @Build_world list_disk list_net [] {["bob" := []]}
             [("0.0.0.0", 2121%Z)] in
  let st := {| env := w; _ftp_server := None; serving := false |} in
  let free := fun (d : @Disk list_disk) (_ : @Net list_net) =>
                (d, [] : @Net list_net) in
  let st' :=
    (api_start (os := posixpath) (bi := plain_repr) free (Some cfg) st).2 in
  USER_DIR_MAP (env st') !! "alice" = Some [("docs", "/srv/docs")]
  /\ USER_DIR_MAP (env st') !! "bob" = None.
Proof.
  intros alice cfg w st free st'.
  destruct (api_start_registers_configured_users
              (os := posixpath) (osf := list_disk) (net := list_net)
              (bi := plain_repr) free (Some cfg) st st'
              2121%Z)
    as (config & users & srv & Hfile & Husers & _ & _ & _ & _ & _ & _
        & Hin & Hout).
  - vm_compute. reflexivity.
  - injection Hfile as <-. injection Husers as <-. split.
    + apply (Hin alice "alice"); [by left | reflexivity].
    + apply (Hout "bob").
      apply (bool_decide_unpack _). vm_compute. exact I.
Defined.
